(** * MSM ARMv8 CPU operations (drivers/soc/qcom/cpu_ops.c)

    A shallow embedding of the secondary-core bring-up driver: the
    pen-release handshake between the boot processor and a secondary
    core, the L2 and per-core power sequences, and the [cpu_operations]
    callbacks built from them.

    Every C function of the driver is a program in a small resumption
    monad over the primitives the driver calls (register accessors,
    barriers, device-tree lookups, the raw spinlock, ...).  One program
    text is then given two readings: a sequential run on a machine state
    that also records the primitives issued, and an interleaving step
    relation for several cores. *)

From Stdlib Require Import ZArith Lia.
From stdpp Require Import gmap strings list fin_maps.

Local Open Scope Z_scope.

(** ** Constants of the driver and of the headers it includes *)

(* CPU power domain register offsets *)
Definition CPU_PWR_CTL : Z := 0x4.
Definition CPU_PWR_GATE_CTL : Z := 0x14.

(* L2 power domain register offsets *)
Definition L2_PWR_CTL_OVERRIDE : Z := 0xc.
Definition L2_PWR_CTL : Z := 0x14.
Definition L2_PWR_STATUS : Z := 0x18.
Definition L2_CORE_CBCR : Z := 0x58.

(** Modelled from the spec: the errno values, [BIT], [INVALID_HWID] and the
    MPIDR macros come from kernel headers that are not part of the driver
    file; they are written as the arm64 headers define them (64-bit
    [unsigned long], sentinel = all ones).  [BIT(n)] is [1UL << n]: a
    64-bit shift, whose count the arm64 shift instruction takes modulo
    64, so the value is a single bit of the 64-bit word for every [n]. *)
Definition ENOMEM : Z := 12.
Definition ENODEV : Z := 19.
Definition ENOSYS : Z := 38.

Definition BIT (n : Z) : Z := Z.shiftl 1 (n mod 64).

Definition wrap64 (x : Z) : Z := x mod 2 ^ 64.
Definition signed64 (x : Z) : Z := if x <? 2 ^ 63 then x else x - 2 ^ 64.

Definition INVALID_HWID : Z := 2 ^ 64 - 1.
Definition MPIDR_HWID_BITMASK : Z := 0xff00ffffff.
Definition MPIDR_LEVEL_BITS_SHIFT : Z := 3.
Definition MPIDR_LEVEL_MASK : Z := Z.shiftl 1 (Z.shiftl 1 MPIDR_LEVEL_BITS_SHIFT) - 1.
Definition MPIDR_LEVEL_SHIFT (level : Z) : Z :=
  Z.shiftl (Z.shiftr (Z.shiftl 1 level) 1) MPIDR_LEVEL_BITS_SHIFT.
Definition MPIDR_AFFINITY_LEVEL (mpidr level : Z) : Z :=
  Z.land (Z.shiftr mpidr (MPIDR_LEVEL_SHIFT level)) MPIDR_LEVEL_MASK.

(** Modelled from the spec: [time_before(a, b)] of linux/jiffies.h, the
    deadline test of the polling loop: the signed 64-bit difference
    [a - b] is negative. *)
Definition time_before (a b : Z) : bool := signed64 (wrap64 (a - b)) <? 0.

(** ** Primitives *)

(** Link-time symbols whose address is taken. *)
Inductive symbol := secondary_holding_pen_release_sym | secondary_holding_pen_sym.

Inductive prim : Type :=
| RawSpinLock                      (* raw_spin_lock(&boot_lock) *)
| RawSpinUnlock                    (* raw_spin_unlock(&boot_lock) *)
| PenStore (val : Z)               (* secondary_holding_pen_release = val *)
| PenLoad                          (* volatile read of the same word *)
| SmpWmb
| FlushDcacheArea (start : symbol) (size : Z)
| Sev
| Jiffies                          (* volatile read of jiffies *)
| Udelay (us : Z)
| Mb
| ReadlRelaxed (addr : Z)
| WritelRelaxed (val addr : Z)
| OfGetCpuNode (cpu : Z)
| OfParsePhandle (node : Z) (name : string) (index : Z)
| OfIomap (node : Z) (index : Z)
| Iounmap (addr : Z)
| OfNodePut (node : Z)
| ColdBootDoneLoad (cpu : Z)       (* per_cpu(cold_boot_done, cpu) *)
| ColdBootDoneStore (cpu : Z) (val : Z)
| CpuLogicalMap (cpu : Z)
| QcomScmSetColdBootAddrMc (entry : symbol) (aff0 aff1 aff2 : Z)
| QcomScmMcBootAvailable
| InitializedLoad                  (* the static local of msm_cpu_init *)
| InitializedStore (val : Z)
| Printk (msg : string).

Global Instance symbol_eq_dec : EqDecision symbol.
Proof. solve_decision. Defined.
Global Instance prim_eq_dec : EqDecision prim.
Proof. solve_decision. Defined.

(** ** Programs: finite trees of primitive calls *)

Inductive prog (A : Type) : Type :=
| Ret (a : A)
| Act (p : prim) (k : Z -> prog A)
| OutOfFuel.
Arguments Ret {A} a.
Arguments Act {A} p k.
Arguments OutOfFuel {A}.

Fixpoint prog_bind {A B : Type} (f : A -> prog B) (m : prog A) : prog B :=
  match m with
  | Ret a => f a
  | Act p k => Act p (fun r => prog_bind f (k r))
  | OutOfFuel => OutOfFuel
  end.

Global Instance prog_ret : MRet prog := fun _ a => Ret a.
Global Instance prog_mbind : MBind prog := fun _ _ f m => prog_bind f m.

(** A primitive call whose answer is used. *)
Definition call (p : prim) : prog Z := Act p Ret.
(** A primitive call made for its effect. *)
Definition exec (p : prim) : prog unit := Act p (fun _ => Ret tt).

(** ** Machine state *)

(** What the hardware, the firmware and the device tree answer. *)
Record Hw : Type := {
  jiffies0 : Z;                             (* jiffies at clock 0 *)
  insn_us : Z;                              (* time of one primitive, in us *)
  logical_map : Z -> Z;                     (* __cpu_logical_map[] *)
  cpu_node : Z -> Z;                        (* of_get_cpu_node, 0 is NULL *)
  phandle : Z -> string -> Z -> Z;          (* of_parse_phandle *)
  iomap : Z -> Z -> Z;                      (* of_iomap *)
  mmio : Z -> Z;                            (* value a register read returns *)
  scm_set_cold_boot_addr_mc : Z -> Z -> Z -> Z;
  scm_mc_boot_available : Z
}.

(** What the driver and the cores share in memory. *)
Record Sw : Type := {
  now : Z;                                  (* microsecond clock *)
  pen : Z;                                  (* secondary_holding_pen_release *)
  boot_lock : option nat;                   (* owner of boot_lock *)
  cold_boot_done : gmap Z Z;                (* per-cpu int, 0 when absent *)
  initialized : Z
}.

Definition set_now (t : Z) (s : Sw) : Sw :=
  {| now := t; pen := pen s; boot_lock := boot_lock s;
     cold_boot_done := cold_boot_done s; initialized := initialized s |}.
Definition set_pen (v : Z) (s : Sw) : Sw :=
  {| now := now s; pen := v; boot_lock := boot_lock s;
     cold_boot_done := cold_boot_done s; initialized := initialized s |}.
Definition set_boot_lock (o : option nat) (s : Sw) : Sw :=
  {| now := now s; pen := pen s; boot_lock := o;
     cold_boot_done := cold_boot_done s; initialized := initialized s |}.
Definition set_cold_boot_done (m : gmap Z Z) (s : Sw) : Sw :=
  {| now := now s; pen := pen s; boot_lock := boot_lock s;
     cold_boot_done := m; initialized := initialized s |}.
Definition set_initialized (v : Z) (s : Sw) : Sw :=
  {| now := now s; pen := pen s; boot_lock := boot_lock s;
     cold_boot_done := cold_boot_done s; initialized := v |}.

(** [per_cpu(cold_boot_done, cpu)]: zero-initialised static storage. *)
Definition per_cpu_cold_boot_done (s : Sw) (cpu : Z) : Z :=
  default 0 (cold_boot_done s !! cpu).

(** Build-time configuration: [HZ], the number of jiffies per second. *)
Class Kconfig : Type := { HZ : Z }.

Section Driver.
Context {cfg : Kconfig}.

(** Modelled from the spec: the jiffies counter and [udelay] are kernel
    primitives outside the driver; jiffies advances [HZ] ticks per second
    of the microsecond clock and wraps at 64 bits. *)
Definition ticks (t : Z) : Z := t * HZ / 1000000.
Definition jiffies_at (hw : Hw) (t : Z) : Z := wrap64 (jiffies0 hw + ticks t).

(** The effect and the answer of one primitive issued by core [tid];
    [None] when the core cannot proceed (the lock is taken). *)
Definition handle (hw : Hw) (tid : nat) (p : prim) (s : Sw) : option (Sw * Z) :=
  match p with
  | RawSpinLock =>
      match boot_lock s with
      | None => Some (set_boot_lock (Some tid) s, 0)
      | Some _ => None
      end
  | RawSpinUnlock => Some (set_boot_lock None s, 0)
  | PenStore v => Some (set_pen v s, 0)
  | PenLoad => Some (s, pen s)
  | Jiffies => Some (s, jiffies_at hw (now s))
  | ReadlRelaxed a => Some (s, mmio hw a)
  | OfGetCpuNode c => Some (s, cpu_node hw c)
  | OfParsePhandle n name i => Some (s, phandle hw n name i)
  | OfIomap n i => Some (s, iomap hw n i)
  | ColdBootDoneLoad c => Some (s, per_cpu_cold_boot_done s c)
  | ColdBootDoneStore c v => Some (set_cold_boot_done (<[c := v]> (cold_boot_done s)) s, 0)
  | CpuLogicalMap c => Some (s, wrap64 (logical_map hw c))
  | QcomScmSetColdBootAddrMc _ a0 a1 a2 => Some (s, scm_set_cold_boot_addr_mc hw a0 a1 a2)
  | QcomScmMcBootAvailable => Some (s, scm_mc_boot_available hw)
  | InitializedLoad => Some (s, initialized s)
  | InitializedStore v => Some (set_initialized v s, 0)
  | SmpWmb | FlushDcacheArea _ _ | Sev | Udelay _ | Mb | WritelRelaxed _ _
  | Iounmap _ | OfNodePut _ | Printk _ => Some (s, 0)
  end.

(** Time a primitive takes on the issuing core. *)
Definition prim_us (hw : Hw) (p : prim) : Z :=
  match p with
  | Udelay us => us
  | _ => insn_us hw
  end.

Definition elapse (hw : Hw) (p : prim) (s : Sw) : Sw :=
  set_now (now s + prim_us hw p) s.

(** Execution of a program on a machine given by its step function [H]:
    final state, result, and the events logged on the way. *)
Fixpoint exec_prog {St Ev A : Type} (H : prim -> St -> option (St * Z * list Ev))
    (m : prog A) (st : St) : option (St * A * list Ev) :=
  match m with
  | Ret a => Some (st, a, [])
  | OutOfFuel => None
  | Act p k =>
      match H p st with
      | None => None
      | Some (st1, r, ev) =>
          match exec_prog H (k r) st1 with
          | None => None
          | Some (st2, a, tr) => Some (st2, a, ev ++ tr)
          end
      end
  end.

(** One core alone: the primitive takes effect, then its time passes. *)
Definition seq_step (hw : Hw) (tid : nat) (p : prim) (s : Sw)
  : option (Sw * Z * list prim) :=
  match handle hw tid p s with
  | None => None
  | Some (s1, r) => Some (elapse hw p s1, r, [p])
  end.

(** Sequential run of a program on core [tid]: final state, result, and
    the primitives issued in program order. *)
Definition run {A : Type} (hw : Hw) (tid : nat) (m : prog A) (s : Sw)
  : option (Sw * A * list prim) :=
  exec_prog (seq_step hw tid) m s.

(** *** The boot CPU together with one secondary core *)

Definition boot_cpu : nat := 0%nat.
Definition woken_cpu : nat := 1%nat.

(** Let core [tid] go on until it has to wait for the lock or returns;
    gives what it still has to run. *)
Fixpoint run_ready {A : Type} (hw : Hw) (tid : nat) (m : prog A) (s : Sw)
  : prog A * Sw * list (nat * prim) :=
  match m with
  | Act p k =>
      match handle hw tid p s with
      | Some (s1, r) =>
          let '(m', s2, tr) := run_ready hw tid (k r) s1 in (m', s2, (tid, p) :: tr)
      | None => (m, s, [])
      end
  | _ => (m, s, [])
  end.

(** The secondary core starts on its program at the instant [arrival]
    (never, for [None]); the boot CPU sees its effects at the next
    primitive it issues. *)
Definition arrived (arrival : option Z) (s : Sw) : bool :=
  match arrival with
  | Some t => t <=? now s
  | None => false
  end.

Definition sync (hw : Hw) (arrival : option Z) (d : Sw * prog unit)
  : Sw * prog unit * list (nat * prim) :=
  if arrived arrival (fst d) then
    let '(sec', s', tr) := run_ready hw woken_cpu (snd d) (fst d) in (s', sec', tr)
  else (fst d, snd d, []).

Definition duo_step (hw : Hw) (arrival : option Z) (p : prim) (d : Sw * prog unit)
  : option (Sw * prog unit * Z * list (nat * prim)) :=
  let '(s1, sec1, ev) := sync hw arrival d in
  match handle hw boot_cpu p s1 with
  | None => None
  | Some (s2, r) => Some (elapse hw p s2, sec1, r, ev ++ [(boot_cpu, p)])
  end.

(** Run of a program on the boot CPU while the secondary core, which has
    [snd d] left to run, arrives at [arrival]. *)
Definition run2 {A : Type} (hw : Hw) (arrival : option Z) (m : prog A)
    (d : Sw * prog unit) : option (Sw * prog unit * A * list (nat * prim)) :=
  exec_prog (duo_step hw arrival) m d.

(** ** The driver *)

Definition write_pen_release (val : Z) : prog unit :=
  exec (PenStore val) ;;
  exec SmpWmb ;;
  exec (FlushDcacheArea secondary_holding_pen_release_sym 8).

(** The [while (time_before(jiffies, timeout))] loop of
    [secondary_pen_release]; [fuel] bounds the number of iterations. *)
Fixpoint pen_poll (fuel : nat) (timeout : Z) : prog unit :=
  match fuel with
  | O => OutOfFuel
  | S fuel' =>
      j ← call Jiffies;
      if time_before j timeout then
        v ← call PenLoad;
        if v =? INVALID_HWID then Ret tt
        else exec (Udelay 10) ;; pen_poll fuel' timeout
      else Ret tt
  end.

Definition secondary_pen_release (fuel : nat) (cpu : Z) : prog Z :=
  exec RawSpinLock ;;
  hwid ← call (CpuLogicalMap cpu);
  write_pen_release hwid ;;
  exec Sev ;;
  j ← call Jiffies;
  let timeout := wrap64 (j + 1 * HZ) in
  pen_poll fuel timeout ;;
  exec RawSpinUnlock ;;
  v ← call PenLoad;
  Ret (if v =? INVALID_HWID then 0 else - ENOSYS).

Definition msm_cpu_init_once : prog Z :=
  ret ← call QcomScmMcBootAvailable;
  if ret =? 0 then
    exec (Printk "%s: Multi-cluster boot unavailable\n") ;;
    Ret (- ENOSYS)
  else Ret 0.

Definition msm_cpu_init (cpu : Z) : prog Z :=
  init ← call InitializedLoad;
  if init =? 0 then
    ret ← msm_cpu_init_once;
    if ret =? 0 then exec (InitializedStore 1) ;; Ret 0
    else exec (Printk "%s: one time initialization failed\n") ;; Ret ret
  else Ret 0.

Definition msm_cpu_prepare (cpu : Z) : prog Z :=
  mpidr_el1 ← call (CpuLogicalMap cpu);
  if negb (Z.land mpidr_el1 (wrap64 (Z.lnot MPIDR_HWID_BITMASK)) =? 0) then
    exec (Printk "CPU%d: Failed to set boot address\n") ;;
    Ret (- ENOSYS)
  else
    ret ← call (QcomScmSetColdBootAddrMc secondary_holding_pen_sym
                  (BIT (MPIDR_AFFINITY_LEVEL mpidr_el1 0))
                  (BIT (MPIDR_AFFINITY_LEVEL mpidr_el1 1))
                  (BIT (MPIDR_AFFINITY_LEVEL mpidr_el1 2)));
    if negb (ret =? 0) then
      exec (Printk "CPU%d: Failed to set boot address\n") ;;
      Ret (- ENOSYS)
    else
      (* Mark CPU0 cold boot flag as done *)
      done0 ← call (ColdBootDoneLoad 0);
      (if done0 =? 0 then exec (ColdBootDoneStore 0 1) else Ret tt) ;;
      Ret 0.

Definition writel_relaxed (val addr : Z) : prog unit := exec (WritelRelaxed val addr).
Definition mb : prog unit := exec Mb.
Definition udelay (us : Z) : prog unit := exec (Udelay us).

(** The register programming of [msm_power_on_l2_cache] between the
    status test and the [done] label. *)
Definition l2_power_on_sequence (pd_base : Z) : prog unit :=
  (* Close L2/SCU Logic GDHS and power up the cache *)
  writel_relaxed 0x10D700 (pd_base + L2_PWR_CTL) ;;
  (* Assert PRESETDBGn *)
  writel_relaxed 0x400000 (pd_base + L2_PWR_CTL_OVERRIDE) ;;
  mb ;;
  udelay 2 ;;
  (* De-assert L2/SCU memory Clamp *)
  writel_relaxed 0x101700 (pd_base + L2_PWR_CTL) ;;
  (* Wakeup L2/SCU RAMs by deasserting sleep signals *)
  writel_relaxed 0x101703 (pd_base + L2_PWR_CTL) ;;
  mb ;;
  udelay 2 ;;
  (* Enable clocks via SW_CLK_EN *)
  writel_relaxed 0x01 (pd_base + L2_CORE_CBCR) ;;
  (* De-assert L2/SCU logic clamp *)
  writel_relaxed 0x101603 (pd_base + L2_PWR_CTL) ;;
  mb ;;
  udelay 2 ;;
  (* De-assert PRESSETDBg *)
  writel_relaxed 0x0 (pd_base + L2_PWR_CTL_OVERRIDE) ;;
  (* De-assert L2/SCU Logic reset *)
  writel_relaxed 0x100203 (pd_base + L2_PWR_CTL) ;;
  mb ;;
  udelay 54 ;;
  (* Turn on the PMIC_APC *)
  writel_relaxed 0x10100203 (pd_base + L2_PWR_CTL) ;;
  (* Set H/W clock control for the cpu CBC block *)
  writel_relaxed 0x03 (pd_base + L2_CORE_CBCR) ;;
  mb.

Definition msm_power_on_l2_cache (pd_node cpu : Z) : prog Z :=
  pd_base ← call (OfIomap pd_node 0);
  if pd_base =? 0 then Ret (- ENOMEM)
  else
    status ← call (ReadlRelaxed (pd_base + L2_PWR_STATUS));
    (* Skip power-on sequence if l2 cache is already powered up *)
    (if negb (Z.land status (BIT 9) =? 0) then Ret tt
     else l2_power_on_sequence pd_base) ;;
    exec (Iounmap pd_base) ;;
    Ret 0.

(** The register programming of [msm_unclamp_secondary_arm_cpu] once the
    ACC block is mapped. *)
Definition acc_power_on_sequence (acc_base : Z) : prog unit :=
  (* Assert Reset on cpu-n *)
  writel_relaxed 0x00000033 (acc_base + CPU_PWR_CTL) ;;
  mb ;;
  (* Program skew to 16 X0 clock cycles *)
  writel_relaxed 0x10000001 (acc_base + CPU_PWR_GATE_CTL) ;;
  mb ;;
  udelay 2 ;;
  (* De-assert coremem clamp *)
  writel_relaxed 0x00000031 (acc_base + CPU_PWR_CTL) ;;
  mb ;;
  (* Close coremem array gdhs *)
  writel_relaxed 0x00000039 (acc_base + CPU_PWR_CTL) ;;
  mb ;;
  udelay 2 ;;
  (* De-assert cpu-n clamp *)
  writel_relaxed 0x00020038 (acc_base + CPU_PWR_CTL) ;;
  mb ;;
  udelay 2 ;;
  (* De-assert cpu-n reset *)
  writel_relaxed 0x00020008 (acc_base + CPU_PWR_CTL) ;;
  mb ;;
  (* Assert PWRDUP signal on core-n *)
  writel_relaxed 0x00020088 (acc_base + CPU_PWR_CTL) ;;
  mb.

(** The exit labels of [msm_unclamp_secondary_arm_cpu]; each falls
    through to the next. *)
Definition put_cpu (cpu_node : Z) (ret : Z) : prog Z :=
  exec (OfNodePut cpu_node) ;; Ret ret.
Definition put_acc (cpu_node acc_node : Z) (ret : Z) : prog Z :=
  exec (OfNodePut acc_node) ;; put_cpu cpu_node ret.
Definition put_l2 (cpu_node acc_node l2_node : Z) (ret : Z) : prog Z :=
  exec (OfNodePut l2_node) ;; put_acc cpu_node acc_node ret.
Definition put_l2pd (cpu_node acc_node l2_node l2pd_node : Z) (ret : Z) : prog Z :=
  exec (OfNodePut l2pd_node) ;; put_l2 cpu_node acc_node l2_node ret.

Definition msm_unclamp_secondary_arm_cpu (cpu : Z) : prog Z :=
  cpu_node ← call (OfGetCpuNode cpu);
  if cpu_node =? 0 then Ret (- ENODEV)
  else
    acc_node ← call (OfParsePhandle cpu_node "qcom,acc" 0);
    if acc_node =? 0 then put_cpu cpu_node (- ENODEV)
    else
      l2_node ← call (OfParsePhandle cpu_node "next-level-cache" 0);
      if l2_node =? 0 then put_acc cpu_node acc_node (- ENODEV)
      else
        l2pd_node ← call (OfParsePhandle l2_node "power-domain" 0);
        if l2pd_node =? 0 then put_l2 cpu_node acc_node l2_node (- ENODEV)
        else
          (* Ensure L2-cache of the CPU is powered on before
             unclamping cpu power rails. *)
          ret ← msm_power_on_l2_cache l2pd_node cpu;
          if negb (ret =? 0) then
            exec (Printk "L2 cache power up failed for CPU%d\n") ;;
            put_l2pd cpu_node acc_node l2_node l2pd_node ret
          else
            acc_base ← call (OfIomap acc_node 0);
            if acc_base =? 0 then
              put_l2pd cpu_node acc_node l2_node l2pd_node (- ENOMEM)
            else
              acc_power_on_sequence acc_base ;;
              (* Secondary CPU-N is now alive *)
              exec (Iounmap acc_base) ;;
              put_l2pd cpu_node acc_node l2_node l2pd_node ret.

Definition msm_cpu_boot (fuel : nat) (cpu : Z) : prog Z :=
  done ← call (ColdBootDoneLoad cpu);
  if done =? 0 then
    ret ← msm_unclamp_secondary_arm_cpu cpu;
    if negb (ret =? 0) then Ret ret
    else
      exec (ColdBootDoneStore cpu 1) ;;
      secondary_pen_release fuel cpu
  else secondary_pen_release fuel cpu.

Definition msm_cpu_postboot : prog unit :=
  (* Let the primary processor know we're out of the pen. *)
  write_pen_release INVALID_HWID ;;
  (* Synchronise with the boot thread. *)
  exec RawSpinLock ;;
  exec RawSpinUnlock.

(** States that agree on everything but the clock. *)
Definition same_mem (s s' : Sw) : Prop :=
  pen s' = pen s /\ boot_lock s' = boot_lock s /\
  cold_boot_done s' = cold_boot_done s /\ initialized s' = initialized s.

(** Primitives that leave memory alone and always proceed. *)
Definition pure_prim (p : prim) : bool :=
  match p with
  | RawSpinLock | RawSpinUnlock | PenStore _ | ColdBootDoneStore _ _
  | InitializedStore _ => false
  | _ => true
  end.

Definition is_writel (p : prim) : bool :=
  match p with WritelRelaxed _ _ => true | _ => false end.

Definition is_udelay (us : Z) (p : prim) : bool :=
  match p with Udelay u => u =? us | _ => false end.

Definition is_mb (p : prim) : bool :=
  match p with Mb => true | _ => false end.

Definition is_lookup (p : prim) : bool :=
  match p with
  | OfGetCpuNode _ | OfParsePhandle _ _ _ | OfIomap _ _ => true
  | _ => false
  end.

(** Primitives of the pen-release handshake. *)
Definition is_handshake (p : prim) : bool :=
  match p with
  | RawSpinLock | RawSpinUnlock | PenStore _ | PenLoad | Sev => true
  | _ => false
  end.

(** The status [msm_unclamp_secondary_arm_cpu] gives on a device tree,
    read off its chain of tests: the first lookup that fails decides. *)
Definition unclamp_status (hw : Hw) (cpu : Z) : Z :=
  let cn := cpu_node hw cpu in
  let acc := phandle hw cn "qcom,acc" 0 in
  let l2 := phandle hw cn "next-level-cache" 0 in
  let l2pd := phandle hw l2 "power-domain" 0 in
  if cn =? 0 then - ENODEV
  else if acc =? 0 then - ENODEV
  else if l2 =? 0 then - ENODEV
  else if l2pd =? 0 then - ENODEV
  else if iomap hw l2pd 0 =? 0 then - ENOMEM
  else if iomap hw acc 0 =? 0 then - ENOMEM
  else 0.

(** What is left of [msm_cpu_postboot] once the pen is cleared. *)
Definition postboot_wait : prog unit :=
  exec RawSpinLock ;; exec RawSpinUnlock.

(** Every primitive on every path of a program satisfies [P]. *)
Inductive prog_all {A : Type} (P : prim -> Prop) : prog A -> Prop :=
| prog_all_ret a : prog_all P (Ret a)
| prog_all_fuel : prog_all P OutOfFuel
| prog_all_act p k : P p -> (forall r, prog_all P (k r)) -> prog_all P (Act p k).

(** Primitives answered by the hardware or the device tree alone, with
    no effect on memory. *)
Definition hw_prim (p : prim) : bool :=
  match p with
  | SmpWmb | FlushDcacheArea _ _ | Sev | Udelay _ | Mb
  | ReadlRelaxed _ | WritelRelaxed _ _
  | OfGetCpuNode _ | OfParsePhandle _ _ _ | OfIomap _ _ | Iounmap _ | OfNodePut _
  | CpuLogicalMap _ | QcomScmSetColdBootAddrMc _ _ _ _ | QcomScmMcBootAvailable
  | Printk _ => true
  | _ => false
  end.

(** Primitives whose answer and effect depend on nothing the other core
    can change: the hardware ones and the accesses to the driver's own
    variables. *)
Definition calm_prim (p : prim) : bool :=
  hw_prim p ||
  match p with
  | ColdBootDoneLoad _ | ColdBootDoneStore _ _
  | InitializedLoad | InitializedStore _ => true
  | _ => false
  end.

(** Primitives [msm_cpu_init] is made of. *)
Definition init_prim (p : prim) : bool :=
  match p with
  | InitializedLoad | InitializedStore _ | QcomScmMcBootAvailable | Printk _ => true
  | _ => false
  end.

Definition is_flag_store (p : prim) : bool :=
  match p with ColdBootDoneStore _ _ => true | _ => false end.

(** Primitives [secondary_pen_release] and [msm_cpu_postboot] are made of. *)
Definition pen_prim (p : prim) : bool :=
  match p with
  | RawSpinLock | RawSpinUnlock | PenStore _ | PenLoad | SmpWmb
  | FlushDcacheArea _ _ | Sev | Jiffies | Udelay _ | CpuLogicalMap _ => true
  | _ => false
  end.

(** The events of the boot CPU in a two-core trace. *)
Definition boot_cpu_events (tr : list (nat * prim)) : list prim :=
  map snd (List.filter (fun e => Nat.eqb (fst e) boot_cpu) tr).

(** The last write of the power-rail sequence: PWRDUP asserted. *)
Definition is_pwrdup (p : prim) : bool :=
  match p with WritelRelaxed v _ => v =? 0x00020088 | _ => false end.

(** *** Boot sessions *)

(** The [cpu_operations] callbacks the hotplug core calls on the boot CPU. *)
Inductive callback : Type :=
| CpuInit (cpu : Z)
| CpuPrepare (cpu : Z)
| CpuBoot (fuel : nat) (cpu : Z).

Definition callback_prog (c : callback) : prog Z :=
  match c with
  | CpuInit cpu => msm_cpu_init cpu
  | CpuPrepare cpu => msm_cpu_prepare cpu
  | CpuBoot fuel cpu => msm_cpu_boot fuel cpu
  end.

(** One completed callback: memory before and after, the status returned
    and what the boot CPU issued. *)
Record entry : Type := {
  e_call : callback;
  e_before : Sw;
  e_after : Sw;
  e_status : Z;
  e_trace : list prim
}.

(** A boot session: callbacks run one after the other on the boot CPU,
    each against a secondary core that leaves the pen at some instant or
    never; between callbacks anything but the cold-boot flags may change
    (the clock, the pen, the lock, the hardware). *)
Inductive session : Sw -> list entry -> Sw -> Prop :=
| session_done s : session s [] s
| session_call hw arrival c s d r tr l s' :
    run2 hw arrival (callback_prog c) (s, msm_cpu_postboot) = Some (d, r, tr) ->
    session (fst d) l s' ->
    session s ({| e_call := c; e_before := s; e_after := fst d;
                  e_status := r; e_trace := boot_cpu_events tr |} :: l) s'
| session_env s s1 l s' :
    cold_boot_done s1 = cold_boot_done s ->
    session s1 l s' ->
    session s l s'.

(** A session played out from the list of its callbacks, each with the
    hardware it meets and the instant its secondary core leaves the pen. *)
Fixpoint play (calls : list (Hw * option Z * callback)) (s : Sw)
  : option (list entry * Sw) :=
  match calls with
  | [] => Some ([], s)
  | (hw, arrival, c) :: rest =>
      match run2 hw arrival (callback_prog c) (s, msm_cpu_postboot) with
      | None => None
      | Some (d, r, tr) =>
          match play rest (fst d) with
          | None => None
          | Some (l, s') =>
              Some ({| e_call := c; e_before := s; e_after := fst d;
                       e_status := r; e_trace := boot_cpu_events tr |} :: l, s')
          end
      end
  end.

(** The callback boots core [c] and runs its power-rail sequence to the
    end. *)
Definition powers_on (c : Z) (e : entry) : bool :=
  match e_call e with
  | CpuBoot _ cpu => (cpu =? c) && existsb is_pwrdup (e_trace e)
  | _ => false
  end.

(** The callback enters [msm_unclamp_secondary_arm_cpu]. *)
Definition attempts_power_on (e : entry) : bool :=
  existsb (fun p => is_lookup p || is_writel p) (e_trace e).

(** The cold-boot flag of core [c] goes from false to true in the callback. *)
Definition flag_rises (c : Z) (e : entry) : bool :=
  (per_cpu_cold_boot_done (e_before e) c =? 0) &&
  negb (per_cpu_cold_boot_done (e_after e) c =? 0).

(** Whether [msm_cpu_prepare] gets the boot address of a core set: its
    hardware id has no bit outside the affinity fields and the firmware
    accepts the call. *)
Definition prepare_ok (hw : Hw) (cpu : Z) : bool :=
  let mpidr_el1 := wrap64 (logical_map hw cpu) in
  (Z.land mpidr_el1 (wrap64 (Z.lnot MPIDR_HWID_BITMASK)) =? 0) &&
  (scm_set_cold_boot_addr_mc hw
     (BIT (MPIDR_AFFINITY_LEVEL mpidr_el1 0))
     (BIT (MPIDR_AFFINITY_LEVEL mpidr_el1 1))
     (BIT (MPIDR_AFFINITY_LEVEL mpidr_el1 2)) =? 0).

(** *** The handshake seen from the boot CPU *)

(** The secondary core before the boot CPU has published anything: still
    in the pen as of the instant [tl], or out of it already. *)
Definition pen_early (arrival : option Z) (tl : Z) (sec : prog unit) : Prop :=
  (sec = Ret tt \/ sec = postboot_wait) /\
  exists ta, arrival = Some ta /\ ta <= tl.

Definition pen_waiting (arrival : option Z) (tl : Z) (sec : prog unit) : Prop :=
  sec = msm_cpu_postboot /\ forall ta, arrival = Some ta -> tl < ta.

(** Where the handshake stands once the boot CPU has published [hwid] at
    the instant [t_pub], [tl] being the instant it last looked at memory:
    the secondary core has cleared the word after the publication; or it
    has not left the pen yet; or it left too early and its sentinel was
    overwritten by the publication. *)
Definition handshake_mode (arrival : option Z) (hwid t_pub tl : Z)
    (d : Sw * prog unit) : Prop :=
  (pen (fst d) = INVALID_HWID /\ snd d = postboot_wait /\
   exists ta, arrival = Some ta /\ t_pub < ta <= tl)
  \/
  (pen (fst d) = hwid /\ pen_waiting arrival tl (snd d))
  \/
  (pen (fst d) = hwid /\ pen_early arrival t_pub (snd d)).

(** The rounds of the polling loop, as the boot CPU issues them: a round
    reads the clock, then the word, then waits 10us; the last round stops
    after the clock (deadline) or after the word (sentinel). *)
Inductive poll_rounds : list prim -> Prop :=
| poll_deadline : poll_rounds [Jiffies]
| poll_sentinel : poll_rounds [Jiffies; PenLoad]
| poll_again l : poll_rounds l -> poll_rounds (Jiffies :: PenLoad :: Udelay 10 :: l).

(** *** Several cores at once *)

(** A program run for its effects only. *)
Definition void {A : Type} (m : prog A) : prog unit := m ≫= fun _ => Ret tt.

(** The cores, each with what it has left to run; memory; and the
    primitives issued so far, tagged with the core that issued them. *)
Definition config : Type := list (prog unit) * Sw * list (nat * prim).

(** One step: some core issues its next primitive, which takes effect at
    once (a core that wants the lock while it is taken cannot step), or
    time passes.  The hardware may answer differently at every step. *)
Inductive step : config -> config -> Prop :=
| step_prim hw tid p k ps s s' r tr :
    ps !! tid = Some (Act p k) ->
    handle hw tid p s = Some (s', r) ->
    step (ps, s, tr) (<[tid := k r]> ps, s', tr ++ [(tid, p)])
| step_time d ps s tr :
    0 <= d ->
    step (ps, s, tr) (ps, set_now (now s + d) s, tr).

(** What a core runs in this driver: a wake request, a whole boot, the
    arrival of a secondary core, or nothing. *)
Inductive driver_thread : prog unit -> Prop :=
| thread_wake fuel cpu : driver_thread (void (secondary_pen_release fuel cpu))
| thread_boot fuel cpu : driver_thread (void (msm_cpu_boot fuel cpu))
| thread_postboot : driver_thread msm_cpu_postboot
| thread_idle : driver_thread (Ret tt).

(** The owner of the lock after one more event. *)
Definition lock_after (o : option nat) (e : nat * prim) : option nat :=
  match snd e with
  | RawSpinLock => Some (fst e)
  | RawSpinUnlock => None
  | _ => o
  end.

Definition owner_after (o : option nat) (tr : list (nat * prim)) : option nat :=
  fold_left lock_after tr o.

(** A trace in which the lock is taken only when free and released only
    by its owner, and every store of a hardware id (a value other than the
    sentinel) to the boot-target word is made by the core that holds the
    lock at that moment; [o] is the owner at the start. *)
Fixpoint exclusive (o : option nat) (tr : list (nat * prim)) : bool :=
  match tr with
  | [] => true
  | (t, p) :: tr' =>
      match p with
      | RawSpinLock => bool_decide (o = None) && exclusive (Some t) tr'
      | RawSpinUnlock => bool_decide (o = Some t) && exclusive None tr'
      | PenStore v =>
          (bool_decide (v = INVALID_HWID) || bool_decide (o = Some t))
          && exclusive o tr'
      | _ => exclusive o tr'
      end
  end.

(** The lock discipline of a program text: along every path, starting
    with the lock held or not as [h] says, the lock is taken only when not
    held and released only when held, a hardware id is stored to the
    boot-target word only with the lock held, and [post] holds at the
    return. *)
Fixpoint lock_path {A : Type} (h : bool) (m : prog A) (post : bool -> A -> Prop)
  : Prop :=
  match m with
  | Ret a => post h a
  | OutOfFuel => True
  | Act p k =>
      match p with
      | RawSpinLock => h = false /\ forall r, lock_path true (k r) post
      | RawSpinUnlock => h = true /\ forall r, lock_path false (k r) post
      | PenStore v =>
          (v <> INVALID_HWID -> h = true) /\ forall r, lock_path h (k r) post
      | _ => forall r, lock_path h (k r) post
      end
  end.

Definition is_lock_prim (p : prim) : bool :=
  match p with
  | RawSpinLock | RawSpinUnlock | PenStore _ => true
  | _ => false
  end.

(** The cores stepped in the order a schedule gives, on fixed hardware;
    [None] if the core whose turn it is cannot step. *)
Fixpoint run_schedule (hw : Hw) (sched : list nat) (c : config) : option config :=
  match sched with
  | [] => Some c
  | tid :: rest =>
      match fst (fst c) !! tid with
      | Some (Act p k) =>
          match handle hw tid p (snd (fst c)) with
          | Some (s', r) =>
              run_schedule hw rest
                (<[tid := k r]> (fst (fst c)), s', snd c ++ [(tid, p)])
          | None => None
          end
      | _ => None
      end
  end.

(** What holds of every configuration the driver's threads can reach:
    each core's text keeps the lock discipline from where it stands, the
    lock word agrees with the trace, and the trace is exclusive. *)
Definition safe_config (c : config) : Prop :=
  (forall tid m, fst (fst c) !! tid = Some m ->
     lock_path (bool_decide (boot_lock (snd (fst c)) = Some tid)) m
               (fun h _ => h = false)) /\
  boot_lock (snd (fst c)) = owner_after None (snd c) /\
  exclusive None (snd c) = true.

End Driver.

(** *** Where a core stands with the lock *)

(** A core has not taken the lock yet, holds it, has released it, or has
    released it and read the boot-target word once more. *)
Inductive phase : Type := Before | Holding | After | Done.

Global Instance phase_eq_dec : EqDecision phase.
Proof. solve_decision. Defined.



Definition next_phase (ph : phase) (p : prim) : phase :=
  match p with
  | RawSpinLock => Holding
  | RawSpinUnlock => After
  | PenLoad => match ph with After => Done | _ => ph end
  | _ => ph
  end.


(** The phases of the cores after one more event, and after a trace. *)
Definition phases_after (f : nat -> phase) (e : nat * prim) : nat -> phase :=
  fun t => if decide (t = fst e) then next_phase (f t) (snd e) else f t.

Definition phase_of (f : nat -> phase) (tr : list (nat * prim)) : nat -> phase :=
  fold_left phases_after tr f.






(** ** A concrete board, for examples *)

(** arm64 builds of this tree tick 250 times a second. *)
Definition cfg_250 : Kconfig := {| HZ := 250 |}.

(** Four cores; every node and register block resolves; the L2 status
    register reports the cache as not yet powered. *)
Definition hw_board : Hw :=
  {| jiffies0 := 4294892296;
     insn_us := 0;
     logical_map := fun c => c;
     cpu_node := fun c => 0x100 + c;
     phandle := fun n name _ =>
       if decide (name = "qcom,acc") then 0x200 + n
       else if decide (name = "next-level-cache") then 0x300
       else if decide (name = "power-domain") then 0x400
       else 0;
     iomap := fun n _ => 0x10000 * n;
     mmio := fun _ => 0;
     scm_set_cold_boot_addr_mc := fun _ _ _ => 0;
     scm_mc_boot_available := 1 |}.

Definition with_mmio (f : Z -> Z) (hw : Hw) : Hw :=
  {| jiffies0 := jiffies0 hw; insn_us := insn_us hw;
     logical_map := logical_map hw; cpu_node := cpu_node hw;
     phandle := phandle hw; iomap := iomap hw; mmio := f;
     scm_set_cold_boot_addr_mc := scm_set_cold_boot_addr_mc hw;
     scm_mc_boot_available := scm_mc_boot_available hw |}.

Definition with_iomap (f : Z -> Z -> Z) (hw : Hw) : Hw :=
  {| jiffies0 := jiffies0 hw; insn_us := insn_us hw;
     logical_map := logical_map hw; cpu_node := cpu_node hw;
     phandle := phandle hw; iomap := f; mmio := mmio hw;
     scm_set_cold_boot_addr_mc := scm_set_cold_boot_addr_mc hw;
     scm_mc_boot_available := scm_mc_boot_available hw |}.

Definition with_insn_us (t : Z) (hw : Hw) : Hw :=
  {| jiffies0 := jiffies0 hw; insn_us := t;
     logical_map := logical_map hw; cpu_node := cpu_node hw;
     phandle := phandle hw; iomap := iomap hw; mmio := mmio hw;
     scm_set_cold_boot_addr_mc := scm_set_cold_boot_addr_mc hw;
     scm_mc_boot_available := scm_mc_boot_available hw |}.

(** The same board with the L2 cache already powered. *)
Definition hw_board_l2_on : Hw := with_mmio (fun _ => 0x200) hw_board.

(** The same board when the ACC block of core 1 cannot be mapped. *)
Definition hw_board_acc_unmapped : Hw :=
  with_iomap (fun n i => if n =? 0x301 then 0 else iomap hw_board n i) hw_board.

(** Memory as the kernel image has it before any secondary is booted. *)
Definition sw_boot : Sw :=
  {| now := 0; pen := INVALID_HWID; boot_lock := None;
     cold_boot_done := ∅; initialized := 0 |}.

(** ** Accounting on traces *)

(** Time the issuing core spends on a list of primitives. *)
Definition trace_us (hw : Hw) (tr : list prim) : Z :=
  foldr (fun p t => prim_us hw p + t) 0 tr.

(** The microseconds of [udelay] in a trace. *)
Definition delay_us (tr : list prim) : Z :=
  foldr (fun p t => match p with Udelay us => us + t | _ => t end) 0 tr.

Definition is_pen_load (p : prim) : bool :=
  match p with PenLoad => true | _ => false end.

Definition is_init_store (p : prim) : bool :=
  match p with InitializedStore _ => true | _ => false end.

(** A store to the cold-boot flag of core [c]. *)
Definition stores_flag (c : Z) (p : prim) : bool :=
  match p with ColdBootDoneStore c' _ => c' =? c | _ => false end.

(** *** Device-tree references and register mappings *)

(** [addr] is one of the driver's registers in the block mapped at [base]. *)
Definition in_block (base addr : Z) : bool :=
  existsb (fun off => addr - base =? off)
    [CPU_PWR_CTL; CPU_PWR_GATE_CTL; L2_PWR_CTL_OVERRIDE; L2_PWR_CTL;
     L2_PWR_STATUS; L2_CORE_CBCR].

(** A lookup that answers NULL takes no reference. *)
Definition take_ref (x : Z) (held : list Z) : list Z :=
  if x =? 0 then held else x :: held.

(** The node references and the mappings held after a trace, most recent
    first, starting from [nodes] and [maps]; [None] if the trace looks a
    property up on, or maps, a node it holds no reference to, drops a
    reference or a mapping other than the most recent one it holds, or
    touches a register outside the block mapped last. *)
Fixpoint held_after (hw : Hw) (nodes maps : list Z) (tr : list prim)
  : option (list Z * list Z) :=
  match tr with
  | [] => Some (nodes, maps)
  | p :: tr' =>
      match p with
      | OfGetCpuNode c => held_after hw (take_ref (cpu_node hw c) nodes) maps tr'
      | OfParsePhandle n name i =>
          if existsb (fun m => n =? m) nodes
          then held_after hw (take_ref (phandle hw n name i) nodes) maps tr'
          else None
      | OfNodePut n =>
          match nodes with
          | n' :: rest => if n =? n' then held_after hw rest maps tr' else None
          | [] => None
          end
      | OfIomap n i =>
          if existsb (fun m => n =? m) nodes
          then held_after hw nodes (take_ref (iomap hw n i) maps) tr'
          else None
      | Iounmap a =>
          match maps with
          | a' :: rest => if a =? a' then held_after hw nodes rest tr' else None
          | [] => None
          end
      | ReadlRelaxed a | WritelRelaxed _ a =>
          match maps with
          | b :: _ => if in_block b a then held_after hw nodes maps tr' else None
          | [] => None
          end
      | _ => held_after hw nodes maps tr'
      end
  end.

(** Whether [msm_unclamp_secondary_arm_cpu] gets as far as the L2
    power-up sequence and runs it, read off its chain of tests: the four
    nodes resolve, the L2 block maps, and its status register reads with
    bit 9 clear. *)
Definition l2_sequence_runs (hw : Hw) (cpu : Z) : bool :=
  let cn := cpu_node hw cpu in
  let acc := phandle hw cn "qcom,acc" 0 in
  let l2 := phandle hw cn "next-level-cache" 0 in
  let l2pd := phandle hw l2 "power-domain" 0 in
  let pd_base := iomap hw l2pd 0 in
  if cn =? 0 then false
  else if acc =? 0 then false
  else if l2 =? 0 then false
  else if l2pd =? 0 then false
  else if pd_base =? 0 then false
  else Z.land (mmio hw (pd_base + L2_PWR_STATUS)) (BIT 9) =? 0.

(** *** One-time initialisation *)

(** What [msm_cpu_init] gives, read off its tests: the status, the value
    its static flag holds afterwards and the primitives issued, from the
    flag before and the firmware's answer. *)
Definition init_outcome (hw : Hw) (s : Sw) : Z * Z * list prim :=
  if initialized s =? 0 then
    if scm_mc_boot_available hw =? 0 then
      (- ENOSYS, 0,
       [InitializedLoad; QcomScmMcBootAvailable;
        Printk "%s: Multi-cluster boot unavailable\n";
        Printk "%s: one time initialization failed\n"])
    else (0, 1, [InitializedLoad; QcomScmMcBootAvailable; InitializedStore 1])
  else (0, initialized s, [InitializedLoad]).

(** *** The handshake inside a boot *)

(** What the boot CPU issues for the handshake part [hs] of a boot and
    the status [r] it ends with: the lock first, handshake primitives
    only, success or a timeout, and a timeout when no core ever leaves
    the pen. *)
Definition wake_outcome (hw : Hw) (arrival : option Z) (cpu : Z) (r : Z)
    (hs : list prim) : Prop :=
  head hs = Some RawSpinLock /\
  Forall (fun p => pen_prim p = true) hs /\
  (r = 0 \/ r = - ENOSYS) /\
  (arrival = None -> wrap64 (logical_map hw cpu) <> INVALID_HWID -> r = - ENOSYS).

(** The time [msm_unclamp_secondary_arm_cpu] takes when it succeeds: the
    delays and the other primitives of its path, with or without the L2
    sequence. *)
Definition power_on_us (hw : Hw) (cpu : Z) : Z :=
  if l2_sequence_runs hw cpu then 66 + 42 * insn_us hw else 6 + 27 * insn_us hw.

(** The time [msm_cpu_boot] takes before it enters
    [secondary_pen_release]: the read of the flag and, for a cold core,
    the power-on and the store to the flag. *)
Definition boot_prelude_us (hw : Hw) (s : Sw) (cpu : Z) : Z :=
  if per_cpu_cold_boot_done s cpu =? 0
  then 2 * insn_us hw + power_on_us hw cpu
  else insn_us hw.

Section WakeOutcome.
Context {cfg : Kconfig}.

(** A handshake entered at [t0] succeeds in time: if the secondary core
    leaves the pen at [ta], after the publication (two primitives after
    [t0]) and before the deadline (fixed six primitives after [t0]), the
    status [r] is 0, the word holds the sentinel in the final memory [s']
    and the boot CPU is back within a polling wait and five primitives
    of [ta]. *)
Definition wake_succeeds (hw : Hw) (arrival : option Z) (cpu : Z) (t0 : Z)
    (r : Z) (s' : Sw) : Prop :=
  forall ta,
    arrival = Some ta -> wrap64 (logical_map hw cpu) <> INVALID_HWID ->
    t0 + 2 * insn_us hw < ta ->
    ticks ta - ticks (t0 + 6 * insn_us hw) < HZ ->
    r = 0 /\ pen s' = INVALID_HWID /\
    now s' <= Z.max (t0 + 11 * insn_us hw) (ta + 5 * insn_us hw + 9).

End WakeOutcome.

(** ** More boards, for examples *)

Definition with_logical_map (f : Z -> Z) (hw : Hw) : Hw :=
  {| jiffies0 := jiffies0 hw; insn_us := insn_us hw;
     logical_map := f; cpu_node := cpu_node hw;
     phandle := phandle hw; iomap := iomap hw; mmio := mmio hw;
     scm_set_cold_boot_addr_mc := scm_set_cold_boot_addr_mc hw;
     scm_mc_boot_available := scm_mc_boot_available hw |}.

(** The board with only four of its logical CPUs populated: the other
    entries of the logical map hold [INVALID_HWID], as the kernel
    initialises them. *)
Definition hw_board_4cpu : Hw :=
  with_logical_map (fun c => if (0 <=? c) && (c <? 4) then c else INVALID_HWID)
                   hw_board.

(** The board when the firmware rejects every boot address. *)
Definition hw_board_fw_rejects : Hw :=
  {| jiffies0 := jiffies0 hw_board; insn_us := insn_us hw_board;
     logical_map := logical_map hw_board; cpu_node := cpu_node hw_board;
     phandle := phandle hw_board; iomap := iomap hw_board; mmio := mmio hw_board;
     scm_set_cold_boot_addr_mc := fun _ _ _ => -22;
     scm_mc_boot_available := scm_mc_boot_available hw_board |}.

(** The board when the firmware has no multi-cluster boot service. *)
Definition hw_board_no_mc_boot : Hw :=
  {| jiffies0 := jiffies0 hw_board; insn_us := insn_us hw_board;
     logical_map := logical_map hw_board; cpu_node := cpu_node hw_board;
     phandle := phandle hw_board; iomap := iomap hw_board; mmio := mmio hw_board;
     scm_set_cold_boot_addr_mc := scm_set_cold_boot_addr_mc hw_board;
     scm_mc_boot_available := 0 |}.

(** * The A53 PLL driver

    The second driver of the file: a probe routine that looks up the
    variant the device matches, maps the registers, prepares the power
    data of the variants that have an OPP table, programs the PLL of the
    first cluster and registers the clock.  The probe is a program in a
    writer monad that records the calls into the kernel; the kernel's
    answers are read from an environment.  The source holds two
    revisions of the driver; the model follows the later one, which adds
    the OPP tables, the regulator and the power data to the earlier. *)

Module A53pll.

(** Modelled from the spec: [struct pll_freq_tbl] of clk-pll.h, which the
    tables initialise by position: rate, l, m, n, ibits. *)
Record pll_freq_tbl : Type := { freq : Z; l : Z; m : Z; n : Z; ibits : Z }.

(** The voltage corners of dt-bindings/power/qcom-rpmpd.h the tables name. *)
Inductive corner : Type :=
| RPM_REGULATOR_CORNER_SVS_SOC
| RPM_REGULATOR_CORNER_NORMAL.

(** The functions a [pll_data] can name as its [init]. *)
Inductive init_fn : Type := msm8939_c0_init_fn.

Record pll_data : Type := {
  table : list pll_freq_tbl;
  opp_table : option (list (corner * Z));   (* NULL when absent *)
  opp_size : Z;
  clk_name : string;
  init : option init_fn                     (* NULL when absent *)
}.

Definition msm8939_c0_cci_table : list (corner * Z) :=
  [(RPM_REGULATOR_CORNER_SVS_SOC, 1000000000);
   (RPM_REGULATOR_CORNER_NORMAL, 1900000000)].

Definition msm8939_c1_table : list (corner * Z) :=
  [(RPM_REGULATOR_CORNER_SVS_SOC, 1000000000);
   (RPM_REGULATOR_CORNER_NORMAL, 2000000000)].

Definition tbl (f l0 m0 n0 i0 : Z) : pll_freq_tbl :=
  {| freq := f; l := l0; m := m0; n := n0; ibits := i0 |}.

Definition msm8916_freq : list pll_freq_tbl :=
  [tbl 998400000 52 0x0 0x1 0;
   tbl 1094400000 57 0x0 0x1 0;
   tbl 1152000000 62 0x0 0x1 0;
   tbl 1209600000 63 0x0 0x1 0;
   tbl 1248000000 65 0x0 0x1 0;
   tbl 1363200000 71 0x0 0x1 0;
   tbl 1401600000 73 0x0 0x1 0;
   tbl 0 0 0 0 0].

Definition msm8916_data : pll_data :=
  {| table := msm8916_freq; opp_table := None; opp_size := 0;
     clk_name := "a53pll"; init := None |}.

Definition msm8939_c0_freq : list pll_freq_tbl :=
  [tbl 998400000 52 0x0 0x1 0;
   tbl 1113600000 58 0x0 0x1 0;
   tbl 1209600000 63 0x0 0x1 0].

Definition msm8939_c0_data : pll_data :=
  {| table := msm8939_c0_freq;
     opp_table := Some msm8939_c0_cci_table;
     opp_size := Z.of_nat (length msm8939_c0_cci_table);
     clk_name := "a53pll_c0";
     init := Some msm8939_c0_init_fn |}.

Definition msm8939_c1_freq : list pll_freq_tbl :=
  [tbl 652800000 34 0x0 0x1 0;
   tbl 691200000 36 0x0 0x1 0;
   tbl 729600000 38 0x0 0x1 0;
   tbl 806400000 42 0x0 0x1 0;
   tbl 844800000 44 0x0 0x1 0;
   tbl 883200000 46 0x0 0x1 0;
   tbl 960000000 50 0x0 0x1 0;
   tbl 998400000 52 0x0 0x1 0;
   tbl 1036800000 54 0x0 0x1 0;
   tbl 1113600000 58 0x0 0x1 0;
   tbl 1209600000 63 0x0 0x1 0;
   tbl 1190400000 62 0x0 0x1 0;
   tbl 1267200000 66 0x0 0x1 0;
   tbl 1344000000 70 0x0 0x1 0;
   tbl 1363200000 71 0x0 0x1 0;
   tbl 1420800000 74 0x0 0x1 0;
   tbl 1459200000 76 0x0 0x1 0;
   tbl 1497600000 78 0x0 0x1 0;
   tbl 1536000000 80 0x0 0x1 0;
   tbl 1574400000 82 0x0 0x1 0;
   tbl 1612800000 84 0x0 0x1 0;
   tbl 1632000000 85 0x0 0x1 0;
   tbl 1651200000 86 0x0 0x1 0;
   tbl 1689600000 88 0x0 0x1 0;
   tbl 1708800000 89 0x0 0x1 0].

Definition msm8939_c1_data : pll_data :=
  {| table := msm8939_c1_freq;
     opp_table := Some msm8939_c1_table;
     opp_size := Z.of_nat (length msm8939_c1_table);
     clk_name := "a53pll_c1";
     init := None |}.

Definition msm8939_cci_freq : list pll_freq_tbl :=
  [tbl 403200000 21 0x0 0x1 0;
   tbl 595200000 31 0x0 0x1 0].

Definition msm8939_cci_data : pll_data :=
  {| table := msm8939_cci_freq;
     opp_table := Some msm8939_c0_cci_table;
     opp_size := Z.of_nat (length msm8939_c0_cci_table);
     clk_name := "a53pll_cci";
     init := None |}.

Record regmap_config : Type := {
  reg_bits : Z; reg_stride : Z; val_bits : Z; max_register : Z; fast_io : bool
}.

Definition a53pll_regmap_config : regmap_config :=
  {| reg_bits := 32; reg_stride := 4; val_bits := 32; max_register := 0x40;
     fast_io := true |}.

Definition qcom_a53pll_match_table : list (string * pll_data) :=
  [("qcom,msm8916-a53pll", msm8916_data);
   ("qcom,msm8939-a53pll-c0", msm8939_c0_data);
   ("qcom,msm8939-a53pll-c1", msm8939_c1_data);
   ("qcom,msm8939-a53pll-cci", msm8939_cci_data)].

(** The fields of [struct clk_pll] the probe fills in. *)
Record clk_pll : Type := {
  l_reg : Z; m_reg : Z; n_reg : Z; user_reg : Z; config_reg : Z;
  mode_reg : Z; status_reg : Z; status_bit : Z;
  freq_tbl : list pll_freq_tbl
}.

(** What the probe hands over for the clock's power handling: the table
    and its size.  The other fields of [struct clk_power_data] point into
    the [clk_power_head] allocated as [powerh]. *)
Record clk_power_data : Type := {
  genpdopp_table : list (corner * Z);
  genpdopp_num : Z
}.

Record clk_init_data : Type := {
  name : string;
  parent_names : list string;
  num_parents : Z;
  ops : string;                             (* the clk_ops named *)
  power : option clk_power_data             (* set with CLK_POWER_MAGIC *)
}.

(** The calls the driver makes into the kernel. *)
Inductive action : Type :=
| OfDeviceGetMatchData
| DevmKzalloc (what : string)
| PlatformGetResource
| DevmIoremapResource (res : Z)
| DevmRegmapInitMmio (base : Z) (config : regmap_config)
| DevmRegulatorGet (id : string)
| MutexInit (lock : string)
| InitListHead (head : string)
| RegmapWrite (regmap reg val : Z)
| DevmClkRegisterRegmap (pll : clk_pll) (init : clk_init_data)
| DevmOfClkAddHwProvider
| DevErr (fmt : string) (ret : Z).

(** What the kernel answers: pointers as 64-bit words (0 is NULL), status
    codes as integers. *)
Record Env : Type := {
  compatible : option string;               (* the entry the device matches *)
  kzalloc : string -> Z;
  resource : Z;
  ioremap_resource : Z;
  regmap_init_mmio : Z;
  regulator_get : Z;
  clk_register_regmap : Z;
  of_clk_add_hw_provider : Z
}.

(** Modelled from the spec: [IS_ERR] and [PTR_ERR] of linux/err.h: a
    pointer in the last 4095 bytes of the address space carries a
    negative errno. *)
Definition MAX_ERRNO : Z := 4095.
Definition IS_ERR (p : Z) : bool := 2 ^ 64 - MAX_ERRNO <=? wrap64 p.
Definition PTR_ERR (p : Z) : Z := signed64 (wrap64 p).

(** Modelled from the spec: [of_device_get_match_data] gives the data of
    the entry of the match table the device is compatible with, NULL
    when there is none. *)
Definition of_device_get_match_data (env : Env) : option pll_data :=
  match compatible env with
  | None => None
  | Some c => snd <$> List.find (fun e => String.eqb (fst e) c) qcom_a53pll_match_table
  end.

(** A run of driver code: the calls made, and either the status returned
    or the value to go on with. *)
Definition res (A : Type) : Type := list action * (Z + A).

Definition res_bind {A B : Type} (f : A -> res B) (x : res A) : res B :=
  match snd x with
  | inl z => (fst x, inl z)
  | inr a => (fst x ++ fst (f a), snd (f a))
  end.

#[export] Instance res_ret : MRet res := fun _ a => ([], inr a).
#[export] Instance res_mbind : MBind res := fun _ _ f x => res_bind f x.

Definition return_ {A : Type} (z : Z) : res A := ([], inl z).
Definition emit (a : action) : res unit := ([a], inr tt).

Definition msm8939_c0_init (regmap : Z) (pll : clk_pll) : res Z :=
  let tbl0 := default (tbl 0 0 0 0 0) (freq_tbl pll !! 0%nat) in
  (* Disable PLL to be safe for programming *)
  emit (RegmapWrite regmap (mode_reg pll) 0) ;;
  (* Configure L/M/N values with the first freq_tbl entry *)
  emit (RegmapWrite regmap (l_reg pll) (l tbl0)) ;;
  emit (RegmapWrite regmap (m_reg pll) (m tbl0)) ;;
  emit (RegmapWrite regmap (n_reg pll) (n tbl0)) ;;
  (* Configure USER_CTL and CONFIG_CTL value *)
  emit (RegmapWrite regmap (user_reg pll) 0x0100000f) ;;
  emit (RegmapWrite regmap (config_reg pll) 0x4c015765) ;;
  mret 0.

Definition call_init (f : init_fn) (regmap : Z) (pll : clk_pll) : res Z :=
  match f with
  | msm8939_c0_init_fn => msm8939_c0_init regmap pll
  end.

Definition qcom_a53pll_probe (env : Env) : res unit :=
  emit OfDeviceGetMatchData ;;
  match of_device_get_match_data env with
  | None => return_ (- ENODEV)
  | Some data =>
      emit (DevmKzalloc "pll") ;;
      if kzalloc env "pll" =? 0 then return_ (- ENOMEM)
      else
        emit PlatformGetResource ;;
        let res := resource env in
        emit (DevmIoremapResource res) ;;
        let base := ioremap_resource env in
        if IS_ERR base then return_ (PTR_ERR base)
        else
          emit (DevmRegmapInitMmio base a53pll_regmap_config) ;;
          let regmap := regmap_init_mmio env in
          if IS_ERR regmap then return_ (PTR_ERR regmap)
          else
            let pll :=
              {| l_reg := 0x04; m_reg := 0x08; n_reg := 0x0c; user_reg := 0x10;
                 config_reg := 0x14; mode_reg := 0x00; status_reg := 0x1c;
                 status_bit := 16; freq_tbl := table data |} in
            let init0 :=
              {| name := clk_name data; parent_names := ["xo"]; num_parents := 1;
                 ops := "clk_pll_sr2_ops"; power := None |} in
            init1 ←
              match opp_table data with
              | Some opp =>
                  emit (DevmRegulatorGet "dig") ;;
                  let regulator_dev := regulator_get env in
                  if IS_ERR regulator_dev then return_ (PTR_ERR regulator_dev)
                  else
                    emit (DevmKzalloc "powerh") ;;
                    if kzalloc env "powerh" =? 0 then return_ (- ENOMEM)
                    else
                      emit (MutexInit "genpd_lock") ;;
                      emit (InitListHead "genpd_head") ;;
                      emit (MutexInit "regulator_lock") ;;
                      emit (InitListHead "regulator_head") ;;
                      mret {| name := name init0; parent_names := parent_names init0;
                              num_parents := num_parents init0; ops := ops init0;
                              power := Some {| genpdopp_table := opp;
                                               genpdopp_num := opp_size data |} |}
              | None => mret init0
              end;
            match init data with
            | Some f =>
                ret ← call_init f regmap pll;
                if negb (ret =? 0) then
                  emit (DevErr "failed to init pll: %d\n" ret) ;; return_ ret
                else mret tt
            | None => mret tt
            end ;;
            emit (DevmClkRegisterRegmap pll init1) ;;
            let ret := clk_register_regmap env in
            if negb (ret =? 0) then
              emit (DevErr "failed to register regmap clock: %d\n" ret) ;; return_ ret
            else
              emit DevmOfClkAddHwProvider ;;
              let ret := of_clk_add_hw_provider env in
              if negb (ret =? 0) then
                emit (DevErr "failed to add clock provider: %d\n" ret) ;; return_ ret
              else return_ 0
  end.

(** The status a run ends with. *)
Definition status (x : res unit) : Z :=
  match snd x with inl z => z | inr _ => 0 end.

Definition is_regmap_write (a : action) : bool :=
  match a with RegmapWrite _ _ _ => true | _ => false end.

Definition is_clk_register (a : action) : bool :=
  match a with DevmClkRegisterRegmap _ _ => true | _ => false end.

Definition is_dev_err (a : action) : bool :=
  match a with DevErr _ _ => true | _ => false end.

(** The allocation, the mapping and the regmap are there. *)
Definition probe_ready (env : Env) : bool :=
  negb (kzalloc env "pll" =? 0) && negb (IS_ERR (ioremap_resource env)) &&
  negb (IS_ERR (regmap_init_mmio env)).

(** The regulator and the second allocation are there, for a variant
    that has an OPP table. *)
Definition power_ready (env : Env) (data : pll_data) : bool :=
  match opp_table data with
  | None => true
  | Some _ => negb (IS_ERR (regulator_get env)) && negb (kzalloc env "powerh" =? 0)
  end.

(** Every step of the probe succeeds. *)
Definition probe_succeeds (env : Env) : bool :=
  match of_device_get_match_data env with
  | None => false
  | Some data =>
      probe_ready env && power_ready env data &&
      (clk_register_regmap env =? 0) && (of_clk_add_hw_provider env =? 0)
  end.

(** The register writes of [msm8939_c0_init] on the first entry [t] of a
    frequency table. *)
Definition c0_writes (regmap : Z) (t : pll_freq_tbl) : list action :=
  [RegmapWrite regmap 0x00 0; RegmapWrite regmap 0x04 (l t);
   RegmapWrite regmap 0x08 (m t); RegmapWrite regmap 0x0c (n t);
   RegmapWrite regmap 0x10 0x0100000f; RegmapWrite regmap 0x14 0x4c015765].

(** The part of a trace from the registration of the clock on. *)
Fixpoint from_registration (tr : list action) : list action :=
  match tr with
  | [] => []
  | a :: tr' => if is_clk_register a then tr else from_registration tr'
  end.

(** The variants that come with an OPP table. *)
Definition opp_variants : list string :=
  ["qcom,msm8939-a53pll-c0"; "qcom,msm8939-a53pll-c1"; "qcom,msm8939-a53pll-cci"].

(** A register of the PLL's regmap, by its configuration. *)
Definition valid_reg (config : regmap_config) (reg : Z) : bool :=
  (0 <=? reg) && (reg <=? max_register config) && (reg mod reg_stride config =? 0).

End A53pll.

(** * Properties *)

Section RunFacts.
Context {cfg : Kconfig}.

Lemma same_mem_refl s : same_mem s s.
Proof. by repeat split. Qed.

Lemma same_mem_trans s1 s2 s3 : same_mem s1 s2 -> same_mem s2 s3 -> same_mem s1 s3.
Proof.
  intros (?&?&?&?) (?&?&?&?). repeat split; congruence.
Qed.

Lemma same_mem_elapse hw p s : same_mem s (elapse hw p s).
Proof. by repeat split. Qed.

Lemma exec_prog_bind {St Ev A B : Type} (H : prim -> St -> option (St * Z * list Ev))
    (m : prog A) (f : A -> prog B) st :
  exec_prog H (m ≫= f) st =
  match exec_prog H m st with
  | None => None
  | Some (st1, a, tr1) =>
      match exec_prog H (f a) st1 with
      | None => None
      | Some (st2, b, tr2) => Some (st2, b, tr1 ++ tr2)
      end
  end.
Proof.
  revert st. induction m as [a | p k IH |]; intros st; simpl.
  - by destruct (exec_prog H (f a) st) as [[[? ?] ?]|].
  - destruct (H p st) as [[[st1 r] ev]|]; [|done].
    change (prog_bind f (k r)) with (k r ≫= f). rewrite IH.
    destruct (exec_prog H (k r) st1) as [[[st2 a] tr1]|]; [|done].
    destruct (exec_prog H (f a) st2) as [[[? ?] ?]|]; [|done].
    by rewrite app_assoc.
  - done.
Qed.

Lemma run_bind {A B : Type} hw tid (m : prog A) (f : A -> prog B) s :
  run hw tid (m ≫= f) s =
  match run hw tid m s with
  | None => None
  | Some (s1, a, tr1) =>
      match run hw tid (f a) s1 with
      | None => None
      | Some (s2, b, tr2) => Some (s2, b, tr1 ++ tr2)
      end
  end.
Proof. apply exec_prog_bind. Qed.

Lemma run_call {A : Type} hw tid p (f : Z -> prog A) s :
  run hw tid (call p ≫= f) s =
  match handle hw tid p s with
  | None => None
  | Some (s1, r) =>
      match run hw tid (f r) (elapse hw p s1) with
      | None => None
      | Some (s2, a, tr) => Some (s2, a, p :: tr)
      end
  end.
Proof.
  unfold run. simpl. unfold seq_step.
  destruct (handle hw tid p s) as [[s1 r]|]; [|done].
  by destruct (exec_prog _ (f r) _) as [[[? ?] ?]|].
Qed.

Lemma run_exec {A : Type} hw tid p (m : prog A) s :
  run hw tid (exec p ;; m) s =
  match handle hw tid p s with
  | None => None
  | Some (s1, r) =>
      match run hw tid m (elapse hw p s1) with
      | None => None
      | Some (s2, a, tr) => Some (s2, a, p :: tr)
      end
  end.
Proof.
  unfold run. simpl. unfold seq_step.
  destruct (handle hw tid p s) as [[s1 r]|]; [|done].
  by destruct (exec_prog _ m _) as [[[? ?] ?]|].
Qed.

Lemma land_bit9 (v : Z) : (Z.land v (BIT 9) =? 0) = negb (Z.testbit v 9).
Proof.
  unfold BIT. change (9 mod 64) with 9. rewrite Z.shiftl_1_l.
  destruct (Z.testbit v 9) eqn:E; simpl.
  - apply Z.eqb_neq. intros H.
    assert (Z.testbit (Z.land v (2 ^ 9)) 9 = false) as H0
      by (rewrite H; apply Z.bits_0).
    rewrite Z.land_spec, E, Z.pow2_bits_true in H0; [discriminate | lia].
  - apply Z.eqb_eq. apply Z.bits_inj'. intros n Hn.
    rewrite Z.land_spec, Z.bits_0.
    destruct (Z.eq_dec n 9) as [->|Hne].
    + by rewrite E.
    + rewrite (Z.pow2_bits_false 9 n) by lia. apply andb_false_r.
Qed.

End RunFacts.

(** ** Programs path by path, and the two-core machine *)

(** Walks every path of a program text, proving the side condition of
    each primitive by computation. *)
Ltac prog_all_walk :=
  repeat first
    [ apply prog_all_ret
    | apply prog_all_fuel
    | apply prog_all_act; [reflexivity | intros ?]
    | match goal with
      | |- prog_all _ (if ?c then _ else _) => destruct c
      | |- context [if ?c then _ else _] => destruct c
      end
    | progress simpl ].

Section TwoCores.
Context {cfg : Kconfig}.

Lemma prog_all_impl {A : Type} (P Q : prim -> Prop) (m : prog A) :
  (forall p, P p -> Q p) -> prog_all P m -> prog_all Q m.
Proof. intros HPQ. induction 1; constructor; auto. Qed.

Lemma prog_all_bind {A B : Type} (P : prim -> Prop) (m : prog A) (f : A -> prog B) :
  prog_all P m -> (forall a, prog_all P (f a)) -> prog_all P (m ≫= f).
Proof.
  intros Hm Hf. induction Hm as [a | | p k Hp Hk IH]; simpl.
  - apply Hf.
  - constructor.
  - constructor; [done|]. intros r. apply IH.
Qed.

Lemma prog_all_call (P : prim -> Prop) p : P p -> prog_all P (call p).
Proof. intros Hp. constructor; [done|]. intros r. constructor. Qed.

Lemma prog_all_exec (P : prim -> Prop) p : P p -> prog_all P (exec p).
Proof. intros Hp. constructor; [done|]. intros r. constructor. Qed.

Lemma handle_now hw tid p s s' r :
  handle hw tid p s = Some (s', r) -> now s' = now s.
Proof.
  destruct p; simpl; try (intros [= <- _]; reflexivity).
  destruct (boot_lock s); [done|]. by intros [= <- _].
Qed.

Lemma handle_flags hw tid p s s' r :
  handle hw tid p s = Some (s', r) -> is_flag_store p = false ->
  cold_boot_done s' = cold_boot_done s.
Proof.
  destruct p; simpl; try (intros [= <- _]; reflexivity); try done.
  destruct (boot_lock s); [done|]. by intros [= <- _].
Qed.

Lemma handle_hw hw p :
  hw_prim p = true -> exists r, forall tid s, handle hw tid p s = Some (s, r).
Proof. destruct p; simpl; try discriminate; intros _; eauto. Qed.

Lemma boot_cpu_events_app l1 l2 :
  boot_cpu_events (l1 ++ l2) = boot_cpu_events l1 ++ boot_cpu_events l2.
Proof. unfold boot_cpu_events. by rewrite List.filter_app, map_app. Qed.

Lemma run_ready_spec {A : Type} hw tid (P : prim -> Prop) (m : prog A) s :
  prog_all P m ->
  forall m' s' tr, run_ready hw tid m s = (m', s', tr) ->
    prog_all P m' /\ Forall (fun e => fst e = tid /\ P (snd e)) tr /\
    now s' = now s /\
    ((forall p, P p -> is_flag_store p = false) ->
     cold_boot_done s' = cold_boot_done s).
Proof.
  intros Hm. revert s.
  induction Hm as [a | | p k Hp Hk IH]; intros s m' s' tr; simpl.
  - intros [= <- <- <-]. repeat split; auto. constructor.
  - intros [= <- <- <-]. repeat split; auto. constructor.
  - destruct (handle hw tid p s) as [[s1 r]|] eqn:Hh.
    + destruct (run_ready hw tid (k r) s1) as [[m1 s2] tr1] eqn:Hr.
      intros [= <- <- <-].
      destruct (IH r s1 m1 s2 tr1 Hr) as (H1 & H2 & H3 & H4).
      repeat split; auto.
      * rewrite H3. by eapply handle_now.
      * intros Hnf. rewrite (H4 Hnf). eapply handle_flags; eauto.
    + intros [= <- <- <-]. repeat split; auto. by constructor.
Qed.

Lemma sync_spec hw arrival (P : prim -> Prop) s sec s1 sec1 ev :
  prog_all P sec ->
  sync hw arrival (s, sec) = (s1, sec1, ev) ->
  prog_all P sec1 /\ Forall (fun e => fst e = woken_cpu /\ P (snd e)) ev /\
  now s1 = now s /\
  ((forall p, P p -> is_flag_store p = false) ->
   cold_boot_done s1 = cold_boot_done s).
Proof.
  intros Hsec. unfold sync. simpl.
  destruct (arrived arrival s).
  - destruct (run_ready hw woken_cpu sec s) as [[m' s'] tr] eqn:Hr.
    intros [= <- <- <-]. by eapply run_ready_spec.
  - intros [= <- <- <-]. repeat split; auto.
Qed.

Lemma woken_events_hidden (P : prim -> Prop) ev :
  Forall (fun e => fst e = woken_cpu /\ P (snd e)) ev -> boot_cpu_events ev = [].
Proof.
  induction 1 as [| [t p] l [Ht _] _ IH]; [done|].
  simpl in Ht. subst t. unfold boot_cpu_events in *. simpl. exact IH.
Qed.

Lemma prog_all_true {A : Type} (m : prog A) : prog_all (fun _ => True) m.
Proof. induction m; constructor; auto. Qed.

Lemma sync_hidden hw arrival d s1 sec1 ev :
  sync hw arrival d = (s1, sec1, ev) -> boot_cpu_events ev = [].
Proof.
  destruct d as [s sec]. intros Hsync.
  destruct (sync_spec hw arrival (fun _ => True) s sec s1 sec1 ev
              (prog_all_true sec) Hsync) as (_ & Hev & _).
  exact (woken_events_hidden (fun _ => True) ev Hev).
Qed.

(** Path properties carry over to every run on the two-core machine. *)
Lemma run2_all {A : Type} hw arrival (P Q : prim -> Prop) (m : prog A) :
  prog_all P m ->
  forall d d' a tr,
    prog_all Q (snd d) ->
    run2 hw arrival m d = Some (d', a, tr) ->
    prog_all Q (snd d') /\
    Forall P (boot_cpu_events tr) /\
    ((forall p, P p -> is_flag_store p = false) ->
     (forall p, Q p -> is_flag_store p = false) ->
     cold_boot_done (fst d') = cold_boot_done (fst d)).
Proof.
  unfold run2. induction 1 as [a | | p k Hp Hk IH]; intros [s sec] d' a' tr Hsec; simpl.
  - intros [= <- <- <-]. repeat split; auto; try constructor.
  - done.
  - unfold duo_step at 1.
    destruct (sync hw arrival (s, sec)) as [[s1 sec1] ev] eqn:Hsync.
    destruct (sync_spec hw arrival Q s sec s1 sec1 ev Hsec Hsync)
      as (Hsec1 & Hev & Hnow & Hfl).
    destruct (handle hw boot_cpu p s1) as [[s2 r]|] eqn:Hh; [|done].
    destruct (exec_prog _ (k r) _) as [[[d2 a2] tr2]|] eqn:Hex; [|done].
    intros [= <- <- <-].
    destruct (IH r (elapse hw p s2, sec1) _ _ _ Hsec1 Hex) as (H1 & H2 & H3).
    split; [exact H1|]. split.
    + rewrite !boot_cpu_events_app, (woken_events_hidden Q ev Hev). simpl.
      by constructor.
    + intros HP HQ. rewrite (H3 HP HQ). simpl.
      rewrite (handle_flags _ _ _ _ _ _ Hh (HP p Hp)). by apply Hfl.
Qed.

(** A program made of hardware primitives runs on the two-core machine
    as it does alone. *)
Lemma run2_hw_prog {A : Type} hw arrival tid (m : prog A) :
  prog_all (fun p => hw_prim p = true) m ->
  forall s s' a tr d,
    run hw tid m s = Some (s', a, tr) ->
    exists d' tr2,
      run2 hw arrival m d = Some (d', a, tr2) /\ boot_cpu_events tr2 = tr.
Proof.
  unfold run, run2.
  induction 1 as [a | | p k Hp Hk IH]; intros s s' a' tr [s0 sec0]; simpl.
  - intros [= <- <- <-]. by do 2 eexists.
  - done.
  - unfold seq_step at 1, duo_step at 1.
    destruct (handle_hw hw p Hp) as [r Hr]. rewrite Hr.
    destruct (exec_prog (seq_step hw tid) (k r) _) as [[[s2 a2] tr2]|] eqn:Hex; [|done].
    intros [= <- <- <-].
    destruct (sync hw arrival (s0, sec0)) as [[s1 sec1] ev] eqn:Hsync.
    rewrite Hr.
    destruct (IH r _ _ _ _ (elapse hw p s1, sec1) Hex) as (d' & tr3 & Hrun & Htr).
    rewrite Hrun. do 2 eexists. split; [reflexivity|].
    rewrite !boot_cpu_events_app, Htr.
    by rewrite (sync_hidden _ _ _ _ _ _ Hsync).
Qed.

Lemma run2_act {A : Type} hw arrival p (k : Z -> prog A) d :
  run2 hw arrival (Act p k) d =
  match handle hw boot_cpu p (fst (fst (sync hw arrival d))) with
  | None => None
  | Some (s2, r) =>
      match run2 hw arrival (k r)
              (elapse hw p s2, snd (fst (sync hw arrival d))) with
      | None => None
      | Some (d', a, tr) =>
          Some (d', a, (snd (sync hw arrival d) ++ [(boot_cpu, p)]) ++ tr)
      end
  end.
Proof.
  unfold run2. simpl. unfold duo_step at 1.
  destruct (sync hw arrival d) as [[s1 sec1] ev]. simpl.
  destruct (handle hw boot_cpu p s1) as [[s2 r]|]; [|done].
  by destruct (exec_prog _ (k r) _) as [[[? ?] ?]|].
Qed.

Lemma run2_bind {A B : Type} hw arrival (m : prog A) (f : A -> prog B) d :
  run2 hw arrival (m ≫= f) d =
  match run2 hw arrival m d with
  | None => None
  | Some (d1, a, tr1) =>
      match run2 hw arrival (f a) d1 with
      | None => None
      | Some (d2, b, tr2) => Some (d2, b, tr1 ++ tr2)
      end
  end.
Proof. apply exec_prog_bind. Qed.

(** *** The programs of the driver, path by path *)

Lemma unclamp_all cpu :
  prog_all (fun p => hw_prim p = true) (msm_unclamp_secondary_arm_cpu cpu).
Proof.
  unfold msm_unclamp_secondary_arm_cpu, msm_power_on_l2_cache.
  prog_all_walk.
Qed.

Lemma pen_poll_all fuel timeout :
  prog_all (fun p => pen_prim p = true) (pen_poll fuel timeout).
Proof.
  induction fuel as [|fuel IH]; simpl; [constructor|].
  apply prog_all_act; [done|]. intros j.
  destruct (time_before j timeout); [|constructor].
  apply prog_all_act; [done|]. intros v.
  destruct (v =? INVALID_HWID); [constructor|].
  apply prog_all_act; [done|]. intros _. exact IH.
Qed.

Lemma secondary_pen_release_all fuel cpu :
  prog_all (fun p => pen_prim p = true) (secondary_pen_release fuel cpu).
Proof.
  unfold secondary_pen_release.
  do 6 (apply prog_all_act; [done|]; intros ?).
  apply prog_all_act; [done|]. intros j.
  apply prog_all_bind; [apply pen_poll_all|]. intros _.
  prog_all_walk.
Qed.

Lemma postboot_all : prog_all (fun p => pen_prim p = true) msm_cpu_postboot.
Proof. unfold msm_cpu_postboot. prog_all_walk. Qed.

Lemma pen_prim_no_flag_store p : pen_prim p = true -> is_flag_store p = false.
Proof. by destruct p. Qed.

Lemma hw_prim_no_flag_store p : hw_prim p = true -> is_flag_store p = false.
Proof. by destruct p. Qed.

Lemma run2_call hw arrival p d :
  run2 hw arrival (call p) d =
  match handle hw boot_cpu p (fst (fst (sync hw arrival d))) with
  | None => None
  | Some (s2, r) =>
      Some (elapse hw p s2, snd (fst (sync hw arrival d)), r,
            snd (sync hw arrival d) ++ [(boot_cpu, p)])
  end.
Proof.
  unfold call. rewrite run2_act.
  destruct (handle hw boot_cpu p _) as [[s2 r]|]; [|done].
  unfold run2. simpl. by rewrite app_nil_r.
Qed.

Lemma run2_exec hw arrival p d :
  run2 hw arrival (exec p) d =
  match handle hw boot_cpu p (fst (fst (sync hw arrival d))) with
  | None => None
  | Some (s2, r) =>
      Some (elapse hw p s2, snd (fst (sync hw arrival d)), tt,
            snd (sync hw arrival d) ++ [(boot_cpu, p)])
  end.
Proof.
  unfold exec. rewrite run2_act.
  destruct (handle hw boot_cpu p _) as [[s2 r]|]; [|done].
  unfold run2. simpl. by rewrite app_nil_r.
Qed.

Lemma sync_pen hw arrival s sec :
  prog_all (fun p => pen_prim p = true) sec ->
  prog_all (fun p => pen_prim p = true) (snd (fst (sync hw arrival (s, sec)))) /\
  cold_boot_done (fst (fst (sync hw arrival (s, sec)))) = cold_boot_done s /\
  boot_cpu_events (snd (sync hw arrival (s, sec))) = [].
Proof.
  intros Hsec.
  destruct (sync hw arrival (s, sec)) as [[s1 sec1] ev] eqn:Hsync. simpl.
  destruct (sync_spec hw arrival _ s sec s1 sec1 ev Hsec Hsync)
    as (H1 & H2 & H3 & H4).
  split; [done|]. split; [apply H4, pen_prim_no_flag_store|].
  by eapply sync_hidden.
Qed.

Lemma pen_release_run2 hw arrival fuel cpu s sec d r tr :
  prog_all (fun p => pen_prim p = true) sec ->
  run2 hw arrival (secondary_pen_release fuel cpu) (s, sec) = Some (d, r, tr) ->
  prog_all (fun p => pen_prim p = true) (snd d) /\
  cold_boot_done (fst d) = cold_boot_done s /\
  Forall (fun p => pen_prim p = true) (boot_cpu_events tr).
Proof.
  intros Hsec Hrun.
  destruct (run2_all hw arrival _ _ _ (secondary_pen_release_all fuel cpu)
              (s, sec) d r tr Hsec Hrun) as (H1 & H2 & H3).
  split; [done|]. split; [|done].
  apply H3; apply pen_prim_no_flag_store.
Qed.

Lemma handle_initialized hw tid p s s' r :
  handle hw tid p s = Some (s', r) -> pen_prim p = true ->
  initialized s' = initialized s.
Proof.
  destruct p; simpl; try (intros [= <- _]; reflexivity); try done.
  destruct (boot_lock s); [done|]. by intros [= <- _].
Qed.

Lemma run_ready_initialized {A : Type} hw tid (m : prog A) s :
  prog_all (fun p => pen_prim p = true) m ->
  initialized (snd (fst (run_ready hw tid m s))) = initialized s.
Proof.
  intros Hm. revert s.
  induction Hm as [a | | p k Hp Hk IH]; intros s; simpl; try done.
  destruct (handle hw tid p s) as [[s1 r]|] eqn:Hh; [|done].
  specialize (IH r s1).
  destruct (run_ready hw tid (k r) s1) as [[m1 s2] tr1]. simpl in *.
  rewrite IH. by eapply handle_initialized.
Qed.

Lemma sync_initialized hw arrival s sec :
  prog_all (fun p => pen_prim p = true) sec ->
  initialized (fst (fst (sync hw arrival (s, sec)))) = initialized s.
Proof.
  intros Hsec. unfold sync. simpl. destruct (arrived arrival s); [|done].
  pose proof (run_ready_initialized hw woken_cpu sec s Hsec) as H.
  by destruct (run_ready hw woken_cpu sec s) as [[m' s'] tr].
Qed.

Lemma handle_calm hw tid tid' p s s0 s' r :
  calm_prim p = true ->
  cold_boot_done s0 = cold_boot_done s -> initialized s0 = initialized s ->
  handle hw tid p s = Some (s', r) ->
  exists s0', handle hw tid' p s0 = Some (s0', r) /\
    cold_boot_done s0' = cold_boot_done s' /\ initialized s0' = initialized s'.
Proof.
  intros Hp Hfl Hin.
  destruct p; simpl in *; try discriminate; intros [= <- <-];
    unfold per_cpu_cold_boot_done; rewrite <- ?Hfl, <- ?Hin;
    eexists; (split; [reflexivity|]); simpl; split; congruence.
Qed.

(** A program that only looks at the hardware and at the driver's own
    variables runs on the two-core machine as it does alone. *)
Lemma run2_calm {A : Type} hw arrival tid (m : prog A) :
  prog_all (fun p => calm_prim p = true) m ->
  forall s s' a tr s0 sec,
    prog_all (fun p => pen_prim p = true) sec ->
    cold_boot_done s0 = cold_boot_done s -> initialized s0 = initialized s ->
    run hw tid m s = Some (s', a, tr) ->
    exists d' tr2,
      run2 hw arrival m (s0, sec) = Some (d', a, tr2) /\
      boot_cpu_events tr2 = tr /\
      cold_boot_done (fst d') = cold_boot_done s' /\
      initialized (fst d') = initialized s' /\
      prog_all (fun p => pen_prim p = true) (snd d').
Proof.
  induction 1 as [a | | p k Hp Hk IH]; intros s s' a' tr s0 sec Hsec Hfl Hin.
  - unfold run, run2. simpl. intros [= <- <- <-]. by do 2 eexists.
  - done.
  - rewrite run2_act. unfold run. simpl. unfold seq_step at 1.
    destruct (handle hw tid p s) as [[s1 r]|] eqn:Hh; [|done].
    destruct (exec_prog (seq_step hw tid) (k r) _) as [[[s2 a2] tr2]|] eqn:Hex; [|done].
    intros [= <- <- <-].
    destruct (sync_pen hw arrival s0 sec Hsec) as (Hsec1 & Hfl1 & Hev1).
    pose proof (sync_initialized hw arrival s0 sec Hsec) as Hin1.
    destruct (sync hw arrival (s0, sec)) as [[sa seca] eva]. cbn [fst snd] in *.
    destruct (handle_calm hw tid boot_cpu p s sa s1 r Hp) as (sb & Hhb & Hflb & Hinb);
      [congruence | congruence | exact Hh |].
    rewrite Hhb.
    destruct (IH r (elapse hw p s1) s2 a2 tr2 (elapse hw p sb) seca Hsec1)
      as (d' & tr3 & Hrun3 & Htr3 & Hfl3 & Hin3 & Hsec3); [done | done | exact Hex |].
    rewrite Hrun3. do 2 eexists. split; [reflexivity|].
    rewrite !boot_cpu_events_app, Hev1, Htr3. by repeat split.
Qed.

End TwoCores.

(** ** L2 cache power-up *)

Section L2.
Context {cfg : Kconfig}.

(** C4. When the L2 status register reads with bit 9 set on entry to
    [msm_power_on_l2_cache], the function issues no register write at all
    (its only accesses are the mapping, the status read and the unmapping)
    and returns 0. *)
Theorem l2_power_on_skipped_when_powered hw tid pd_node cpu s :
  iomap hw pd_node 0 <> 0 ->
  Z.testbit (mmio hw (iomap hw pd_node 0 + L2_PWR_STATUS)) 9 = true ->
  exists s' tr,
    run hw tid (msm_power_on_l2_cache pd_node cpu) s = Some (s', 0, tr) /\
    tr = [OfIomap pd_node 0;
          ReadlRelaxed (iomap hw pd_node 0 + L2_PWR_STATUS);
          Iounmap (iomap hw pd_node 0)] /\
    List.filter is_writel tr = [] /\
    same_mem s s'.
Proof.
  intros Hmap Hbit. unfold msm_power_on_l2_cache, run. simpl.
  rewrite (proj2 (Z.eqb_neq _ 0) Hmap). simpl.
  rewrite land_bit9, Hbit. simpl.
  do 2 eexists. split; [reflexivity|]. by repeat split.
Qed.

End L2.

Lemma l2_power_on_skipped_when_powered_witness :
  iomap hw_board_l2_on 0x400 0 <> 0 /\
  Z.testbit (mmio hw_board_l2_on (iomap hw_board_l2_on 0x400 0 + L2_PWR_STATUS)) 9 = true /\
  exists s' tr,
    run (cfg := cfg_250) hw_board_l2_on boot_cpu (msm_power_on_l2_cache 0x400 1) sw_boot
      = Some (s', 0, tr) /\
    tr = [OfIomap 0x400 0;
          ReadlRelaxed (iomap hw_board_l2_on 0x400 0 + L2_PWR_STATUS);
          Iounmap (iomap hw_board_l2_on 0x400 0)] /\
    List.filter is_writel tr = [] /\
    same_mem sw_boot s'.
Proof.
  split; [by vm_compute|]. split; [by vm_compute|].
  apply (l2_power_on_skipped_when_powered (cfg := cfg_250) hw_board_l2_on boot_cpu 0x400 1 sw_boot);
    by vm_compute.
Defined.

(** ** Per-core power-rail sequencing *)

Section Unclamp.
Context {cfg : Kconfig}.

(** What [msm_power_on_l2_cache] does, whatever the hardware answers. *)
Lemma l2_run hw tid pd_node cpu s :
  exists s' tr,
    run hw tid (msm_power_on_l2_cache pd_node cpu) s =
      Some (s', if iomap hw pd_node 0 =? 0 then - ENOMEM else 0, tr) /\
    same_mem s s' /\
    Forall (fun p => pure_prim p = true) tr /\
    List.filter (fun p => match p with OfIomap _ _ => true | _ => false end) tr
      = [OfIomap pd_node 0] /\
    (iomap hw pd_node 0 = 0 -> List.filter is_writel tr = []).
Proof.
  unfold msm_power_on_l2_cache, run. simpl.
  destruct (iomap hw pd_node 0 =? 0) eqn:E; simpl.
  - do 2 eexists. split; [reflexivity|].
    repeat split; auto; try done; repeat constructor.
  - apply Z.eqb_neq in E.
    destruct (Z.land _ _ =? 0); simpl; do 2 eexists; (split; [reflexivity|]);
      repeat split; auto; try done; repeat constructor.
Qed.

(** What [msm_unclamp_secondary_arm_cpu] does, whatever the device tree
    and the hardware answer: it returns, memory is as before, and each
    lookup is made at most once, in program order. *)
Lemma unclamp_run hw tid cpu s :
  let cn := cpu_node hw cpu in
  let acc := phandle hw cn "qcom,acc" 0 in
  let l2 := phandle hw cn "next-level-cache" 0 in
  let l2pd := phandle hw l2 "power-domain" 0 in
  exists s' tr,
    run hw tid (msm_unclamp_secondary_arm_cpu cpu) s
      = Some (s', unclamp_status hw cpu, tr) /\
    same_mem s s' /\
    Forall (fun p => pure_prim p = true) tr /\
    List.filter is_handshake tr = [] /\
    List.filter is_lookup tr `prefix_of`
      [OfGetCpuNode cpu; OfParsePhandle cn "qcom,acc" 0;
       OfParsePhandle cn "next-level-cache" 0;
       OfParsePhandle l2 "power-domain" 0; OfIomap l2pd 0; OfIomap acc 0] /\
    (unclamp_status hw cpu <> 0 -> List.filter is_pwrdup tr = []) /\
    (unclamp_status hw cpu = 0 -> length (List.filter is_pwrdup tr) = 1%nat).
Proof.
  intros cn acc l2 l2pd. subst cn acc l2 l2pd.
  unfold unclamp_status, msm_unclamp_secondary_arm_cpu, msm_power_on_l2_cache, run.
  simpl.
  repeat match goal with
  | |- context [?c =? 0] => destruct (c =? 0) eqn:?; simpl
  end.
  all: do 2 eexists; (split; [reflexivity|]);
       repeat split; auto; try (by repeat constructor); try (by eexists);
       done.
Qed.

(** C5. On a cold boot with the topology resolved and both
    register blocks mapped, [msm_unclamp_secondary_arm_cpu] programs the
    ACC block with exactly seven writes in the fixed order assert reset,
    clock-gate skew, de-assert memory clamp, close array gate, de-assert
    core clamp, de-assert reset, assert power-up-done; every write is
    followed by a full barrier; a 2us delay follows the barrier at exactly
    three points (after the skew, after the array gate and after the core
    clamp); the sequence is the same whatever the hardware answers. *)
Theorem power_rail_sequence hw tid cpu s :
  let cn := cpu_node hw cpu in
  let acc := phandle hw cn "qcom,acc" 0 in
  let l2 := phandle hw cn "next-level-cache" 0 in
  let l2pd := phandle hw l2 "power-domain" 0 in
  let acc_base := iomap hw acc 0 in
  let rail :=
    [WritelRelaxed 0x00000033 (acc_base + CPU_PWR_CTL); Mb;
     WritelRelaxed 0x10000001 (acc_base + CPU_PWR_GATE_CTL); Mb; Udelay 2;
     WritelRelaxed 0x00000031 (acc_base + CPU_PWR_CTL); Mb;
     WritelRelaxed 0x00000039 (acc_base + CPU_PWR_CTL); Mb; Udelay 2;
     WritelRelaxed 0x00020038 (acc_base + CPU_PWR_CTL); Mb; Udelay 2;
     WritelRelaxed 0x00020008 (acc_base + CPU_PWR_CTL); Mb;
     WritelRelaxed 0x00020088 (acc_base + CPU_PWR_CTL); Mb] in
  cn <> 0 -> acc <> 0 -> l2 <> 0 -> l2pd <> 0 ->
  iomap hw l2pd 0 <> 0 -> acc_base <> 0 ->
  exists s1 s2 s' l2tr,
    run hw tid (msm_power_on_l2_cache l2pd cpu) s1 = Some (s2, 0, l2tr) /\
    run hw tid (msm_unclamp_secondary_arm_cpu cpu) s =
      Some (s', 0,
        [OfGetCpuNode cpu; OfParsePhandle cn "qcom,acc" 0;
         OfParsePhandle cn "next-level-cache" 0;
         OfParsePhandle l2 "power-domain" 0]
        ++ l2tr ++ [OfIomap acc 0] ++ rail ++
        [Iounmap acc_base; OfNodePut l2pd; OfNodePut l2; OfNodePut acc;
         OfNodePut cn]) /\
    length (List.filter is_writel rail) = 7%nat /\
    length (List.filter is_mb rail) = 7%nat /\
    length (List.filter (is_udelay 2) rail) = 3%nat.
Proof.
  intros cn acc l2 l2pd acc_base rail Hcn Hacc Hl2 Hl2pd Hmap Hbase.
  subst rail acc_base l2pd l2 acc cn.
  apply Z.eqb_neq in Hcn, Hacc, Hl2, Hl2pd, Hmap, Hbase.
  unfold msm_unclamp_secondary_arm_cpu, msm_power_on_l2_cache, run. simpl.
  rewrite Hcn. simpl. rewrite Hacc. simpl. rewrite Hl2. simpl.
  rewrite Hl2pd. simpl. rewrite Hmap. simpl.
  destruct (Z.land _ _ =? 0) eqn:Hst; simpl; rewrite Hbase; simpl;
    exists s; do 3 eexists; (split; [reflexivity|]); by repeat split.
Qed.

Lemma unclamp_status_cases hw cpu :
  unclamp_status hw cpu = 0 \/ unclamp_status hw cpu = - ENODEV \/
  unclamp_status hw cpu = - ENOMEM.
Proof.
  unfold unclamp_status.
  repeat match goal with
  | |- context [?c =? 0] => destruct (c =? 0)
  end; auto.
Qed.

(** A cold boot whose power-on fails: [msm_cpu_boot] hands the status of
    [msm_unclamp_secondary_arm_cpu] back and does nothing else. *)
Lemma boot_cold_fail hw tid fuel cpu s :
  per_cpu_cold_boot_done s cpu = 0 ->
  unclamp_status hw cpu <> 0 ->
  exists s' tr,
    run hw tid (msm_unclamp_secondary_arm_cpu cpu)
        (elapse hw (ColdBootDoneLoad cpu) s) = Some (s', unclamp_status hw cpu, tr) /\
    run hw tid (msm_cpu_boot fuel cpu) s
      = Some (s', unclamp_status hw cpu, ColdBootDoneLoad cpu :: tr) /\
    same_mem s s'.
Proof.
  intros Hcold Hfail.
  destruct (unclamp_run hw tid cpu (elapse hw (ColdBootDoneLoad cpu) s))
    as (s' & tr & Hrun & Hmem & _).
  exists s', tr. split; [exact Hrun|]. split.
  - unfold msm_cpu_boot. rewrite run_call. cbn [handle].
    rewrite Hcold. change (0 =? 0) with true. cbv iota. rewrite run_bind, Hrun.
    apply Z.eqb_neq in Hfail. rewrite Hfail. simpl.
    by rewrite app_nil_r.
  - eapply same_mem_trans; [apply (same_mem_elapse hw (ColdBootDoneLoad cpu))|done].
Qed.

(** C7. [msm_unclamp_secondary_arm_cpu] always returns; it gives -ENODEV
    when the CPU node, its qcom,acc phandle, its next-level-cache phandle
    or the L2 power-domain phandle is absent, and -ENOMEM when the
    topology resolves but the L2 or the ACC block cannot be mapped; the
    two statuses are negative and distinct; memory shared with the other
    cores (their cold-boot flags, the pen, the lock) is as before; each
    lookup is made at most once, and [msm_cpu_boot] on a cold core hands
    the same status to its caller without a second attempt. *)
Theorem power_on_core_errors hw tid fuel cpu s :
  let cn := cpu_node hw cpu in
  let acc := phandle hw cn "qcom,acc" 0 in
  let l2 := phandle hw cn "next-level-cache" 0 in
  let l2pd := phandle hw l2 "power-domain" 0 in
  let lookups :=
    [OfGetCpuNode cpu; OfParsePhandle cn "qcom,acc" 0;
     OfParsePhandle cn "next-level-cache" 0;
     OfParsePhandle l2 "power-domain" 0; OfIomap l2pd 0; OfIomap acc 0] in
  exists s' r tr,
    run hw tid (msm_unclamp_secondary_arm_cpu cpu) s = Some (s', r, tr) /\
    same_mem s s' /\
    (cn = 0 \/ acc = 0 \/ l2 = 0 \/ l2pd = 0 -> r = - ENODEV) /\
    (cn <> 0 -> acc <> 0 -> l2 <> 0 -> l2pd <> 0 ->
     iomap hw l2pd 0 = 0 \/ iomap hw acc 0 = 0 -> r = - ENOMEM) /\
    (cn <> 0 -> acc <> 0 -> l2 <> 0 -> l2pd <> 0 ->
     iomap hw l2pd 0 <> 0 -> iomap hw acc 0 <> 0 -> r = 0) /\
    - ENODEV < 0 /\ - ENOMEM < 0 /\ - ENODEV <> - ENOMEM /\
    List.filter is_lookup tr `prefix_of` lookups /\
    (r <> 0 -> per_cpu_cold_boot_done s cpu = 0 ->
     exists s'' tr',
       run hw tid (msm_cpu_boot fuel cpu) s = Some (s'', r, tr') /\
       same_mem s s'' /\
       List.filter is_lookup tr' `prefix_of` lookups).
Proof.
  intros cn acc l2 l2pd lookups.
  destruct (unclamp_run hw tid cpu s) as (s' & tr & Hrun & Hmem & _ & _ & Hlk & _).
  exists s', (unclamp_status hw cpu), tr.
  split; [exact Hrun|]. split; [exact Hmem|].
  assert (forall x, (x =? 0) = true <-> x = 0) as Heq by (intros; apply Z.eqb_eq).
  assert (forall x, (x =? 0) = false <-> x <> 0) as Hne by (intros; apply Z.eqb_neq).
  repeat split; try done.
  - unfold unclamp_status. fold cn acc l2 l2pd.
    intros Habs.
    destruct (cn =? 0) eqn:E1; [done|].
    destruct (acc =? 0) eqn:E2; [done|].
    destruct (l2 =? 0) eqn:E3; [done|].
    destruct (l2pd =? 0) eqn:E4; [done|].
    apply Hne in E1, E2, E3, E4. tauto.
  - unfold unclamp_status. fold cn acc l2 l2pd.
    intros H1 H2 H3 H4 Hmap.
    rewrite (proj2 (Hne _) H1), (proj2 (Hne _) H2), (proj2 (Hne _) H3),
      (proj2 (Hne _) H4).
    destruct (iomap hw l2pd 0 =? 0) eqn:E5; [done|].
    destruct (iomap hw acc 0 =? 0) eqn:E6; [done|].
    apply Hne in E5, E6. tauto.
  - unfold unclamp_status. fold cn acc l2 l2pd.
    intros H1 H2 H3 H4 H5 H6.
    by rewrite (proj2 (Hne _) H1), (proj2 (Hne _) H2), (proj2 (Hne _) H3),
      (proj2 (Hne _) H4), (proj2 (Hne _) H5), (proj2 (Hne _) H6).
  - intros Hfail Hcold.
    destruct (boot_cold_fail hw tid fuel cpu s Hcold Hfail)
      as (s'' & tr' & Hrun' & Hboot & Hmem').
    exists s'', (ColdBootDoneLoad cpu :: tr'). split; [exact Hboot|].
    split; [exact Hmem'|]. simpl.
    destruct (unclamp_run hw tid cpu (elapse hw (ColdBootDoneLoad cpu) s))
      as (s3 & tr3 & Hrun3 & _ & _ & _ & Hlk3 & _).
    rewrite Hrun' in Hrun3. by injection Hrun3 as <- <-.
Qed.

(** C9. If the cold-boot power-on fails inside [msm_cpu_boot], the
    function returns that error; the core's cold-boot flag is still
    false, and the pen-release handshake has not been touched: no store
    to the boot-target word, no lock operation. *)
Theorem boot_atomic_on_power_on_error hw tid fuel cpu s s0 s1 r tr1 :
  per_cpu_cold_boot_done s cpu = 0 ->
  run hw tid (msm_unclamp_secondary_arm_cpu cpu) s0 = Some (s1, r, tr1) ->
  r <> 0 ->
  exists s' tr,
    run hw tid (msm_cpu_boot fuel cpu) s = Some (s', r, tr) /\
    per_cpu_cold_boot_done s' cpu = 0 /\
    same_mem s s' /\
    List.filter is_handshake tr = [].
Proof.
  intros Hcold Hrun0 Hr.
  destruct (unclamp_run hw tid cpu s0) as (s1' & tr1' & Hrun0' & _).
  rewrite Hrun0 in Hrun0'. injection Hrun0' as _ -> _.
  destruct (boot_cold_fail hw tid fuel cpu s Hcold Hr)
    as (s' & tr & Hrun & Hboot & Hmem).
  exists s', (ColdBootDoneLoad cpu :: tr). split; [exact Hboot|].
  split; [|split; [exact Hmem|]].
  - unfold per_cpu_cold_boot_done in *.
    destruct Hmem as (_ & _ & -> & _). exact Hcold.
  - destruct (unclamp_run hw tid cpu (elapse hw (ColdBootDoneLoad cpu) s))
      as (s3 & tr3 & Hrun3 & _ & _ & Hhs & _).
    rewrite Hrun in Hrun3. injection Hrun3 as <- <-. exact Hhs.
Qed.

(** [msm_unclamp_secondary_arm_cpu] while a secondary core is about. *)
Lemma unclamp_run2 hw arrival cpu s sec :
  prog_all (fun p => pen_prim p = true) sec ->
  exists d tr,
    run2 hw arrival (msm_unclamp_secondary_arm_cpu cpu) (s, sec)
      = Some (d, unclamp_status hw cpu, tr) /\
    prog_all (fun p => pen_prim p = true) (snd d) /\
    cold_boot_done (fst d) = cold_boot_done s /\
    List.filter is_handshake (boot_cpu_events tr) = [] /\
    (unclamp_status hw cpu <> 0 ->
     List.filter is_pwrdup (boot_cpu_events tr) = []) /\
    (unclamp_status hw cpu = 0 ->
     length (List.filter is_pwrdup (boot_cpu_events tr)) = 1%nat).
Proof.
  intros Hsec.
  destruct (unclamp_run hw boot_cpu cpu s)
    as (s' & tr & Hrun & _ & _ & Hhs & _ & Hfail & Hok).
  destruct (run2_hw_prog hw arrival boot_cpu _ (unclamp_all cpu) _ _ _ _ (s, sec) Hrun)
    as (d & tr2 & Hrun2 & Hev).
  exists d, tr2. split; [exact Hrun2|].
  destruct (run2_all hw arrival _ _ _ (unclamp_all cpu) (s, sec) d _ tr2 Hsec Hrun2)
    as (H1 & _ & H3).
  split; [exact H1|]. split.
  { apply H3; [apply hw_prim_no_flag_store | apply pen_prim_no_flag_store]. }
  by rewrite Hev.
Qed.

End Unclamp.

Lemma power_rail_sequence_witness :
  let hw := hw_board in
  let cn := cpu_node hw 1 in
  let acc := phandle hw cn "qcom,acc" 0 in
  let l2 := phandle hw cn "next-level-cache" 0 in
  let l2pd := phandle hw l2 "power-domain" 0 in
  (cn <> 0 /\ acc <> 0 /\ l2 <> 0 /\ l2pd <> 0 /\
   iomap hw l2pd 0 <> 0 /\ iomap hw acc 0 <> 0) /\
  exists s' tr,
    run (cfg := cfg_250) hw boot_cpu (msm_unclamp_secondary_arm_cpu 1) sw_boot
      = Some (s', 0, tr) /\
    List.filter is_writel (drop 27 tr) =
      [WritelRelaxed 0x33 0x3010004; WritelRelaxed 0x10000001 0x3010014;
       WritelRelaxed 0x31 0x3010004; WritelRelaxed 0x39 0x3010004;
       WritelRelaxed 0x20038 0x3010004; WritelRelaxed 0x20008 0x3010004;
       WritelRelaxed 0x20088 0x3010004].
Proof.
  intros hw cn acc l2 l2pd.
  assert (cn <> 0 /\ acc <> 0 /\ l2 <> 0 /\ l2pd <> 0 /\
          iomap hw l2pd 0 <> 0 /\ iomap hw acc 0 <> 0) as H
    by (repeat split; by vm_compute).
  split; [exact H|].
  destruct H as (H1 & H2 & H3 & H4 & H5 & H6).
  destruct (power_rail_sequence (cfg := cfg_250) hw boot_cpu 1 sw_boot
              H1 H2 H3 H4 H5 H6) as (s1 & s2 & s' & l2tr & _ & Hrun & _).
  exists s'. eexists. split; [exact Hrun|].
  revert Hrun. vm_compute. intros [= <- <-]. reflexivity.
Defined.

Lemma boot_atomic_on_power_on_error_witness :
  per_cpu_cold_boot_done sw_boot 1 = 0 /\
  exists s' tr,
    run (cfg := cfg_250) hw_board_acc_unmapped boot_cpu (msm_cpu_boot (cfg := cfg_250) 8 1) sw_boot
      = Some (s', - ENOMEM, tr) /\
    per_cpu_cold_boot_done s' 1 = 0 /\
    same_mem sw_boot s' /\
    List.filter is_handshake tr = [].
Proof.
  split; [reflexivity|].
  eapply (boot_atomic_on_power_on_error (cfg := cfg_250) hw_board_acc_unmapped
            boot_cpu 8 1 sw_boot sw_boot _ (- ENOMEM) _).
  - reflexivity.
  - vm_compute. reflexivity.
  - by vm_compute.
Defined.

(** Against C5 read with two delay points: on the example board with the
    L2 cache already powered, the power-on of core 1 issues its seven
    writes with a 2us delay at three points of the sequence. *)
Lemma power_rail_two_delays_counterexample :
  exists s' tr,
    run (cfg := cfg_250) hw_board_l2_on boot_cpu
        (msm_unclamp_secondary_arm_cpu 1) sw_boot = Some (s', 0, tr) /\
    length (List.filter is_writel tr) = 7%nat /\
    length (List.filter (is_udelay 2) tr) = 3%nat /\
    length (List.filter (is_udelay 2) tr) <> 2%nat.
Proof. do 2 eexists. split; [by vm_compute|]. by vm_compute. Qed.

(** ** Boot sessions and the cold-boot flags *)

Section Sessions.
Context {cfg : Kconfig}.

Lemma existsb_filter_nil (f : prim -> bool) l :
  List.filter f l = [] -> existsb f l = false.
Proof.
  induction l as [|x l IH]; simpl; [done|].
  destruct (f x); [done|]. exact IH.
Qed.

Lemma existsb_false_filter_length (f : prim -> bool) l :
  existsb f l = false -> (length (List.filter f l) <= 1)%nat.
Proof.
  induction l as [|x l IH]; simpl; [lia|].
  destruct (f x); [done|]. exact IH.
Qed.

Lemma existsb_pen_prims (f : prim -> bool) l :
  (forall p, pen_prim p = true -> f p = false) ->
  Forall (fun p => pen_prim p = true) l -> existsb f l = false.
Proof.
  intros Hf. induction 1 as [|x l Hx _ IH]; simpl; [done|].
  by rewrite (Hf x Hx).
Qed.

Lemma filter_pen_prims (f : prim -> bool) l :
  (forall p, pen_prim p = true -> f p = false) ->
  Forall (fun p => pen_prim p = true) l -> List.filter f l = [].
Proof.
  intros Hf. induction 1 as [|x l Hx _ IH]; simpl; [done|].
  by rewrite (Hf x Hx).
Qed.

(** What one call of [msm_cpu_boot] does to the cold-boot flags, whatever
    the secondary core does meanwhile. *)
Lemma boot_run2 hw arrival fuel cpu s sec d r tr :
  prog_all (fun p => pen_prim p = true) sec ->
  run2 hw arrival (msm_cpu_boot fuel cpu) (s, sec) = Some (d, r, tr) ->
  (per_cpu_cold_boot_done s cpu <> 0 /\
   cold_boot_done (fst d) = cold_boot_done s /\
   existsb (fun p => is_lookup p || is_writel p) (boot_cpu_events tr) = false)
  \/
  (per_cpu_cold_boot_done s cpu = 0 /\ unclamp_status hw cpu <> 0 /\
   r = unclamp_status hw cpu /\
   cold_boot_done (fst d) = cold_boot_done s /\
   existsb is_pwrdup (boot_cpu_events tr) = false /\
   List.filter is_handshake (boot_cpu_events tr) = [])
  \/
  (per_cpu_cold_boot_done s cpu = 0 /\ unclamp_status hw cpu = 0 /\
   cold_boot_done (fst d) = <[cpu := 1]> (cold_boot_done s) /\
   length (List.filter is_pwrdup (boot_cpu_events tr)) = 1%nat).
Proof.
  intros Hsec Hrun. unfold msm_cpu_boot in Hrun.
  rewrite run2_bind, run2_call in Hrun.
  destruct (sync_pen hw arrival s sec Hsec) as (Hsec1 & Hfl1 & Hev1).
  destruct (sync hw arrival (s, sec)) as [[s1 sec1] ev1]. cbn [fst snd handle] in *.
  assert (per_cpu_cold_boot_done s1 cpu = per_cpu_cold_boot_done s cpu) as Hflag
    by (unfold per_cpu_cold_boot_done; by rewrite Hfl1).
  rewrite Hflag in Hrun.
  destruct (per_cpu_cold_boot_done s cpu =? 0) eqn:Hcold.
  - apply Z.eqb_eq in Hcold. right.
    rewrite run2_bind in Hrun.
    destruct (unclamp_run2 hw arrival cpu (elapse hw (ColdBootDoneLoad cpu) s1) sec1 Hsec1)
      as (d2 & tr2 & Hrun2 & Hsec2 & Hfl2 & Hhs2 & Hfail & Hok).
    rewrite Hrun2 in Hrun.
    destruct (unclamp_status hw cpu =? 0) eqn:Hst; cbn [negb] in Hrun.
    + apply Z.eqb_eq in Hst. right.
      rewrite run2_bind, run2_exec in Hrun.
      destruct d2 as [s2 sec2]. cbn [fst snd] in *.
      destruct (sync_pen hw arrival s2 sec2 Hsec2) as (Hsec3 & Hfl3 & Hev3).
      destruct (sync hw arrival (s2, sec2)) as [[s3 sec3] ev3]. cbn [fst snd handle] in *.
      destruct (run2 hw arrival (secondary_pen_release fuel cpu) _)
        as [[[d4 r4] tr4]|] eqn:Hrun4; [|done].
      injection Hrun as <- <- <-.
      destruct (pen_release_run2 _ _ _ _ _ _ _ _ _ Hsec3 Hrun4) as (_ & Hfl4 & Hev4).
      split; [done|]. split; [done|]. split.
      * rewrite Hfl4. simpl. rewrite Hfl3, Hfl2. simpl. by rewrite Hfl1.
      * rewrite !boot_cpu_events_app, Hev1, Hev3. simpl.
        rewrite !List.filter_app. simpl.
        rewrite (filter_pen_prims is_pwrdup _ (fun p H => ltac:(by destruct p)) Hev4).
        rewrite !length_app. simpl. rewrite (Hok Hst). lia.
    + apply Z.eqb_neq in Hst. left.
      injection Hrun as <- <- <-.
      split; [done|]. split; [done|]. split; [done|]. split.
      { rewrite Hfl2. simpl. exact Hfl1. }
      rewrite !boot_cpu_events_app, Hev1. simpl.
      rewrite app_nil_r. split.
      * apply existsb_filter_nil. simpl. by apply Hfail.
      * simpl. exact Hhs2.
  - apply Z.eqb_neq in Hcold. left.
    destruct (run2 hw arrival (secondary_pen_release fuel cpu) _)
      as [[[d4 r4] tr4]|] eqn:Hrun4; [|done].
    injection Hrun as <- <- <-.
    destruct (pen_release_run2 _ _ _ _ _ _ _ _ _ Hsec1 Hrun4) as (_ & Hfl4 & Hev4).
    split; [done|]. split.
    + rewrite Hfl4. simpl. exact Hfl1.
    + rewrite !boot_cpu_events_app, Hev1. simpl.
      apply (existsb_pen_prims (fun p => is_lookup p || is_writel p) _
               (fun p H => ltac:(by destruct p)) Hev4).
Qed.

Lemma prepare_all cpu :
  prog_all (fun p => calm_prim p = true) (msm_cpu_prepare cpu).
Proof. unfold msm_cpu_prepare. prog_all_walk. Qed.

Lemma init_all cpu :
  prog_all (fun p => init_prim p = true) (msm_cpu_init cpu).
Proof. unfold msm_cpu_init, msm_cpu_init_once. prog_all_walk. Qed.

(** [msm_cpu_prepare] on the boot CPU alone. *)
Lemma prepare_run hw tid cpu s :
  exists s' tr,
    run hw tid (msm_cpu_prepare cpu) s
      = Some (s', if prepare_ok hw cpu then 0 else - ENOSYS, tr) /\
    pen s' = pen s /\ boot_lock s' = boot_lock s /\
    initialized s' = initialized s /\
    cold_boot_done s' =
      (if prepare_ok hw cpu && (per_cpu_cold_boot_done s 0 =? 0)
       then <[0 := 1]> (cold_boot_done s) else cold_boot_done s) /\
    existsb (fun p => is_lookup p || is_writel p) tr = false.
Proof.
  unfold msm_cpu_prepare, prepare_ok, run. simpl.
  destruct (Z.land _ _ =? 0); simpl.
  - destruct (scm_set_cold_boot_addr_mc hw _ _ _ =? 0); simpl.
    + match goal with
      | |- context [per_cpu_cold_boot_done ?x 0 =? 0] =>
          change (per_cpu_cold_boot_done x 0) with (per_cpu_cold_boot_done s 0)
      end.
      destruct (per_cpu_cold_boot_done s 0 =? 0); simpl;
        do 2 eexists; (split; [reflexivity|]); by repeat split.
    + do 2 eexists. split; [reflexivity|]. by repeat split.
  - do 2 eexists. split; [reflexivity|]. by repeat split.
Qed.

(** [msm_cpu_prepare] while a secondary core is about. *)
Lemma prepare_run2 hw arrival cpu s sec d r tr :
  prog_all (fun p => pen_prim p = true) sec ->
  run2 hw arrival (msm_cpu_prepare cpu) (s, sec) = Some (d, r, tr) ->
  r = (if prepare_ok hw cpu then 0 else - ENOSYS) /\
  cold_boot_done (fst d) =
    (if prepare_ok hw cpu && (per_cpu_cold_boot_done s 0 =? 0)
     then <[0 := 1]> (cold_boot_done s) else cold_boot_done s) /\
  existsb (fun p => is_lookup p || is_writel p) (boot_cpu_events tr) = false.
Proof.
  intros Hsec Hrun.
  destruct (prepare_run hw boot_cpu cpu s)
    as (s' & tr1 & Hrun1 & _ & _ & _ & Hfl & Hev).
  destruct (run2_calm hw arrival boot_cpu _ (prepare_all cpu) s s' _ tr1 s sec
              Hsec eq_refl eq_refl Hrun1)
    as (d' & tr2 & Hrun2 & Htr2 & Hfl2 & _).
  rewrite Hrun in Hrun2. injection Hrun2 as <- <- <-.
  by rewrite Hfl2, Htr2.
Qed.

Lemma init_run2 hw arrival cpu s sec d r tr :
  prog_all (fun p => pen_prim p = true) sec ->
  run2 hw arrival (msm_cpu_init cpu) (s, sec) = Some (d, r, tr) ->
  cold_boot_done (fst d) = cold_boot_done s /\
  existsb (fun p => is_lookup p || is_writel p) (boot_cpu_events tr) = false.
Proof.
  intros Hsec Hrun.
  destruct (run2_all hw arrival _ _ _ (init_all cpu) (s, sec) d r tr Hsec Hrun)
    as (_ & Hev & Hfl).
  split.
  - apply Hfl; [|apply pen_prim_no_flag_store].
    intros p Hp. by destruct p.
  - clear -Hev. induction Hev as [|p l Hp _ IH]; simpl; [done|].
    rewrite IH. by destruct p.
Qed.

Lemma per_cpu_insert s s' c cpu v :
  cold_boot_done s' = <[cpu := v]> (cold_boot_done s) ->
  per_cpu_cold_boot_done s' c =
    if decide (cpu = c) then v else per_cpu_cold_boot_done s c.
Proof.
  intros H. unfold per_cpu_cold_boot_done. rewrite H, lookup_insert.
  by destruct (decide (cpu = c)).
Qed.

Lemma per_cpu_same s s' c :
  cold_boot_done s' = cold_boot_done s ->
  per_cpu_cold_boot_done s' c = per_cpu_cold_boot_done s c.
Proof. intros H. unfold per_cpu_cold_boot_done. by rewrite H. Qed.

(** What one callback of a session does to the flag of core [c]. *)
Lemma callback_flags hw arrival cb s d r tr c :
  run2 hw arrival (callback_prog cb) (s, msm_cpu_postboot) = Some (d, r, tr) ->
  let e := {| e_call := cb; e_before := s; e_after := fst d;
              e_status := r; e_trace := boot_cpu_events tr |} in
  (per_cpu_cold_boot_done s c <> 0 -> per_cpu_cold_boot_done (fst d) c <> 0) /\
  (per_cpu_cold_boot_done s c <> 0 ->
   per_cpu_cold_boot_done (fst d) c = per_cpu_cold_boot_done s c) /\
  (powers_on c e = true ->
   per_cpu_cold_boot_done s c = 0 /\ per_cpu_cold_boot_done (fst d) c <> 0) /\
  (forall fuel cpu, cb = CpuBoot fuel cpu -> attempts_power_on e = true ->
   per_cpu_cold_boot_done s cpu = 0) /\
  (forall fuel cpu, cb = CpuBoot fuel cpu ->
   length (List.filter is_pwrdup (e_trace e)) <= 1)%nat.
Proof.
  intros Hrun e. subst e. unfold powers_on, attempts_power_on. simpl.
  destruct cb as [cpu | cpu | fuel cpu]; simpl in Hrun.
  - destruct (init_run2 _ _ _ _ _ _ _ _ postboot_all Hrun) as (Hfl & Hev).
    rewrite (per_cpu_same _ _ c Hfl). repeat split; try done.
  - destruct (prepare_run2 _ _ _ _ _ _ _ _ postboot_all Hrun) as (Hr & Hfl & Hev).
    destruct (prepare_ok hw cpu && (per_cpu_cold_boot_done s 0 =? 0)) eqn:E.
    + rewrite (per_cpu_insert _ _ c 0 1 Hfl).
      apply andb_prop in E as [_ E]. apply Z.eqb_eq in E.
      destruct (decide (0 = c)) as [<-|Hne]; repeat split; try done.
    + rewrite (per_cpu_same _ _ c Hfl). repeat split; try done.
  - destruct (boot_run2 _ _ _ _ _ _ _ _ _ postboot_all Hrun)
      as [(Hwarm & Hfl & Hev) | [(Hcold & Hst & Hr & Hfl & Hpw & _)
                                 | (Hcold & Hst & Hfl & Hpw)]].
    + rewrite (per_cpu_same _ _ c Hfl).
      assert (existsb is_pwrdup (boot_cpu_events tr) = false) as Hpw.
      { clear -Hev. induction (boot_cpu_events tr) as [|p l IH]; [done|].
        simpl in *. apply orb_false_elim in Hev as [Hp Hl].
        rewrite (IH Hl). by destruct p. }
      rewrite Hpw, andb_false_r. repeat split; try done.
      * intros fuel' cpu' [= <- <-]. by rewrite Hev.
      * intros _ _ _. apply existsb_false_filter_length. exact Hpw.
    + rewrite (per_cpu_same _ _ c Hfl), Hpw, andb_false_r.
      repeat split; try done.
      * by intros fuel' cpu' [= <- <-].
      * intros _ _ _. apply existsb_false_filter_length. exact Hpw.
    + rewrite (per_cpu_insert _ _ c cpu 1 Hfl).
      destruct (decide (cpu = c)) as [<-|Hne].
      * repeat split; try done; try lia.
        by intros fuel' cpu' [= <- <-].
      * repeat split; try done; try lia.
        all: try (intros H; apply andb_prop in H as [H _]; apply Z.eqb_eq in H; done).
        by intros fuel' cpu' [= <- <-].
Qed.

Lemma session_inv s l s' c :
  session s l s' ->
  (per_cpu_cold_boot_done s c <> 0 -> per_cpu_cold_boot_done s' c <> 0) /\
  Forall (fun e => per_cpu_cold_boot_done (e_before e) c <> 0 ->
                   per_cpu_cold_boot_done (e_after e) c <> 0) l /\
  Forall (fun e => forall fuel cpu, e_call e = CpuBoot fuel cpu ->
                   attempts_power_on e = true ->
                   per_cpu_cold_boot_done (e_before e) cpu = 0) l /\
  (per_cpu_cold_boot_done s c <> 0 ->
   List.filter (flag_rises c) l = [] /\ List.filter (powers_on c) l = []) /\
  (length (List.filter (flag_rises c) l) <= 1)%nat /\
  (length (List.filter (powers_on c) l) <= 1)%nat.
Proof.
  induction 1 as [s | hw arrival cb s d r tr l s' Hrun Hsess IH
                    | s s1 l s' Henv Hsess IH].
  - repeat split; auto; simpl; lia.
  - destruct IH as (IH1 & IH2 & IH3 & IH4 & IH5 & IH6).
    destruct (callback_flags hw arrival cb s d r tr c Hrun)
      as (Hmono & _ & Hpow & Hatt & _).
    set (e := {| e_call := cb; e_before := s; e_after := fst d;
                 e_status := r; e_trace := boot_cpu_events tr |}) in *.
    assert (flag_rises c e = true -> per_cpu_cold_boot_done (fst d) c <> 0) as Hrise.
    { unfold flag_rises. simpl. intros H. apply andb_prop in H as [_ H].
      apply negb_true_iff, Z.eqb_neq in H. exact H. }
    split; [auto|]. split; [by constructor|]. split; [by constructor|].
    split; [|split].
    + intros Hs. destruct (IH4 (Hmono Hs)) as [E1 E2]. simpl.
      destruct (flag_rises c e) eqn:R.
      { unfold flag_rises in R. simpl in R. apply andb_prop in R as [R _].
        apply Z.eqb_eq in R. done. }
      destruct (powers_on c e) eqn:Pw.
      { destruct (Hpow eq_refl) as [? _]. done. }
      done.
    + simpl. destruct (flag_rises c e) eqn:R; [|exact IH5].
      destruct (IH4 (Hrise eq_refl)) as [-> _]. simpl. lia.
    + simpl. destruct (powers_on c e) eqn:Pw; [|exact IH6].
      destruct (Hpow eq_refl) as [_ Hd]. destruct (IH4 Hd) as [_ ->]. simpl. lia.
  - rewrite <- (per_cpu_same s s1 c Henv). exact IH.
Qed.

Lemma session_split s l1 l2 s' :
  session s (l1 ++ l2) s' ->
  exists sm, session s l1 sm /\ session sm l2 s'.
Proof.
  intros H. remember (l1 ++ l2) as l eqn:El. revert l1 l2 El.
  induction H as [s | hw arrival cb s d r tr l s' Hrun Hsess IH
                    | s s1 l s' Henv Hsess IH]; intros l1 l2 El.
  - symmetry in El. apply app_eq_nil in El as [-> ->].
    exists s. split; constructor.
  - destruct l1 as [|e1 l1]; simpl in El.
    + subst l2. exists s. split; [constructor|]. by econstructor.
    + injection El as <- ->.
      destruct (IH l1 l2 eq_refl) as (sm & H1 & H2).
      exists sm. split; [|exact H2]. by econstructor.
  - destruct (IH l1 l2 El) as (sm & H1 & H2).
    exists sm. split; [|exact H2]. by eapply session_env.
Qed.

(** The first callback of a session, taken apart. *)
Lemma session_head s e l s' :
  session s (e :: l) s' ->
  exists hw arrival d tr,
    cold_boot_done (e_before e) = cold_boot_done s /\
    run2 hw arrival (callback_prog (e_call e)) (e_before e, msm_cpu_postboot)
      = Some (d, e_status e, tr) /\
    e_after e = fst d /\ e_trace e = boot_cpu_events tr /\
    session (e_after e) l s'.
Proof.
  intros H. remember (e :: l) as l0 eqn:El. revert e l El.
  induction H as [s | hw arrival cb s d r tr l s' Hrun Hsess IH
                    | s s1 l s' Henv Hsess IH]; intros e0 l0 El.
  - done.
  - injection El as <- <-. simpl. by exists hw, arrival, d, tr.
  - destruct (IH e0 l0 El) as (hw & arrival & d & tr & H1 & H2 & H3 & H4 & H5).
    exists hw, arrival, d, tr. repeat split; auto. congruence.
Qed.

Lemma play_session calls s l s' :
  play calls s = Some (l, s') -> session s l s'.
Proof.
  revert s l s'. induction calls as [|[[hw arrival] c] rest IH]; intros s l s'; simpl.
  - intros [= <- <-]. constructor.
  - destruct (run2 hw arrival (callback_prog c) _) as [[[d r] tr]|] eqn:Hrun; [|done].
    destruct (play rest (fst d)) as [[l0 s0]|] eqn:Hrest; [|done].
    intros [= <- <-]. econstructor; [exact Hrun|]. by apply IH.
Qed.

(** Once the flag of a core is true, no boot of that core enters the
    power-on sequence. *)
Lemma session_no_power_on s l s' c :
  session s l s' ->
  per_cpu_cold_boot_done s c <> 0 ->
  Forall (fun e' => forall fuel, e_call e' = CpuBoot fuel c ->
                    attempts_power_on e' = false) l.
Proof.
  induction 1 as [s | hw arrival cb s d r tr l s' Hrun Hsess IH
                    | s s1 l s' Henv Hsess IH]; intros Hs.
  - constructor.
  - destruct (callback_flags hw arrival cb s d r tr c Hrun)
      as (Hmono & _ & _ & Hatt & _).
    constructor; [|by apply IH, Hmono].
    simpl. intros fuel ->.
    destruct (attempts_power_on _) eqn:E; [|done].
    by specialize (Hatt fuel c eq_refl eq_refl).
  - apply IH. by rewrite (per_cpu_same _ _ c Henv).
Qed.

(** C2. In every boot session and for every core: the
    cold-boot flag is never cleared (once true it stays true, through every
    callback), so it goes from false to true in at most one callback;
    [msm_cpu_boot] enters [msm_unclamp_secondary_arm_cpu] only when it finds
    the flag of its core false, and never again once the flag is true; and
    at most one callback of the session runs the power-rail sequence of
    the core to its end.  (A power-on that fails leaves the flag false and
    is attempted again by the next boot of the core.) *)
Theorem cold_boot_done_once s l s' c :
  session s l s' ->
  (per_cpu_cold_boot_done s c <> 0 -> per_cpu_cold_boot_done s' c <> 0) /\
  Forall (fun e => per_cpu_cold_boot_done (e_before e) c <> 0 ->
                   per_cpu_cold_boot_done (e_after e) c <> 0) l /\
  (length (List.filter (flag_rises c) l) <= 1)%nat /\
  Forall (fun e => forall fuel cpu, e_call e = CpuBoot fuel cpu ->
                   attempts_power_on e = true ->
                   per_cpu_cold_boot_done (e_before e) cpu = 0) l /\
  (per_cpu_cold_boot_done s c <> 0 ->
   Forall (fun e => forall fuel, e_call e = CpuBoot fuel c ->
                    attempts_power_on e = false) l) /\
  (length (List.filter (powers_on c) l) <= 1)%nat.
Proof.
  intros H.
  destruct (session_inv s l s' c H) as (H1 & H2 & H3 & _ & H5 & H6).
  repeat split; try done.
  intros Hs. exact (session_no_power_on s l s' c H Hs).
Qed.

(** [msm_cpu_prepare] on the boot CPU alone: what it issues, by the test
    that decides. *)
Lemma prepare_run_trace hw tid cpu s :
  let mpidr_el1 := wrap64 (logical_map hw cpu) in
  let set_addr :=
    QcomScmSetColdBootAddrMc secondary_holding_pen_sym
      (BIT (MPIDR_AFFINITY_LEVEL mpidr_el1 0))
      (BIT (MPIDR_AFFINITY_LEVEL mpidr_el1 1))
      (BIT (MPIDR_AFFINITY_LEVEL mpidr_el1 2)) in
  exists s' r tr,
    run hw tid (msm_cpu_prepare cpu) s = Some (s', r, tr) /\
    tr =
      if negb (Z.land mpidr_el1 (wrap64 (Z.lnot MPIDR_HWID_BITMASK)) =? 0)
      then [CpuLogicalMap cpu; Printk "CPU%d: Failed to set boot address\n"]
      else if negb (scm_set_cold_boot_addr_mc hw
                      (BIT (MPIDR_AFFINITY_LEVEL mpidr_el1 0))
                      (BIT (MPIDR_AFFINITY_LEVEL mpidr_el1 1))
                      (BIT (MPIDR_AFFINITY_LEVEL mpidr_el1 2)) =? 0)
      then [CpuLogicalMap cpu; set_addr; Printk "CPU%d: Failed to set boot address\n"]
      else [CpuLogicalMap cpu; set_addr; ColdBootDoneLoad 0]
           ++ (if per_cpu_cold_boot_done s 0 =? 0 then [ColdBootDoneStore 0 1] else []).
Proof.
  unfold msm_cpu_prepare, run. simpl.
  destruct (Z.land _ _ =? 0); simpl.
  - destruct (scm_set_cold_boot_addr_mc hw _ _ _ =? 0); simpl.
    + match goal with
      | |- context [per_cpu_cold_boot_done ?x 0 =? 0] =>
          change (per_cpu_cold_boot_done x 0) with (per_cpu_cold_boot_done s 0)
      end.
      destruct (per_cpu_cold_boot_done s 0 =? 0); simpl;
        do 3 eexists; (split; reflexivity).
    + do 3 eexists. split; reflexivity.
  - do 3 eexists. split; reflexivity.
Qed.

(** C10. A call of [msm_cpu_prepare], for whatever core [cpu], from
    whatever memory and against whatever hardware and firmware (every
    call of a session is such a call), returns, with 0 or -ENOSYS.  It
    returns 0 exactly when the hardware id of [cpu] has no bit outside
    the affinity fields and the firmware accepts the boot address for the
    three affinity bits of that id.  A bad hardware id fails before the
    firmware is asked; a rejection by the firmware fails after that one
    call; either way the boot CPU issues nothing else but the message,
    and the flags are as before.  When the call returns 0 it has read the
    flag of core 0 and stored 1 to it if it was false: the flag of core 0
    is true afterwards, the flag of every other core, the prepared one
    included, is as before, and in every session that follows no
    [msm_cpu_boot] of core 0 enters the power-on sequence. *)
Theorem prepare_marks_cpu0 hw arrival s cpu :
  let mpidr_el1 := wrap64 (logical_map hw cpu) in
  let outside := Z.land mpidr_el1 (wrap64 (Z.lnot MPIDR_HWID_BITMASK)) in
  let aff0 := BIT (MPIDR_AFFINITY_LEVEL mpidr_el1 0) in
  let aff1 := BIT (MPIDR_AFFINITY_LEVEL mpidr_el1 1) in
  let aff2 := BIT (MPIDR_AFFINITY_LEVEL mpidr_el1 2) in
  let set_addr := QcomScmSetColdBootAddrMc secondary_holding_pen_sym aff0 aff1 aff2 in
  let answer := scm_set_cold_boot_addr_mc hw aff0 aff1 aff2 in
  exists d r tr,
    run2 hw arrival (msm_cpu_prepare cpu) (s, msm_cpu_postboot) = Some (d, r, tr) /\
    (r = 0 \/ r = - ENOSYS) /\
    (r = 0 <-> outside = 0 /\ answer = 0) /\
    (outside <> 0 ->
     boot_cpu_events tr =
       [CpuLogicalMap cpu; Printk "CPU%d: Failed to set boot address\n"]) /\
    (outside = 0 -> answer <> 0 ->
     boot_cpu_events tr =
       [CpuLogicalMap cpu; set_addr; Printk "CPU%d: Failed to set boot address\n"]) /\
    (r = 0 ->
     boot_cpu_events tr =
       [CpuLogicalMap cpu; set_addr; ColdBootDoneLoad 0]
       ++ (if per_cpu_cold_boot_done s 0 =? 0 then [ColdBootDoneStore 0 1] else []) /\
     per_cpu_cold_boot_done (fst d) 0 <> 0 /\
     (per_cpu_cold_boot_done s 0 = 0 -> per_cpu_cold_boot_done (fst d) 0 = 1) /\
     (forall c, c <> 0 ->
      per_cpu_cold_boot_done (fst d) c = per_cpu_cold_boot_done s c) /\
     (forall l s', session (fst d) l s' ->
      Forall (fun e' => forall fuel, e_call e' = CpuBoot fuel 0 ->
                        attempts_power_on e' = false) l)) /\
    (r <> 0 -> cold_boot_done (fst d) = cold_boot_done s).
Proof.
  intros mpidr_el1 outside aff0 aff1 aff2 set_addr answer.
  destruct (prepare_run_trace hw boot_cpu cpu s) as (s1 & r & tr1 & Hrun1 & Htr1).
  destruct (run2_calm hw arrival boot_cpu _ (prepare_all cpu) s s1 r tr1 s
              msm_cpu_postboot postboot_all eq_refl eq_refl Hrun1)
    as (d & tr & Hrun & Hev & _).
  exists d, r, tr. split; [exact Hrun|].
  destruct (prepare_run2 _ _ _ _ _ _ _ _ postboot_all Hrun) as (Hr & Hfl & _).
  rewrite Hev, Htr1. clear Htr1 Hrun1 Hev.
  unfold prepare_ok in Hr, Hfl.
  fold mpidr_el1 aff0 aff1 aff2 in Hr, Hfl |- *.
  fold outside answer in Hr, Hfl |- *.
  destruct (Z.eqb_spec outside 0) as [Hin | Hout]; simpl in *.
  - destruct (Z.eqb_spec answer 0) as [Hacc | Hrej]; simpl in *.
    + subst r. split; [by left|]. split; [by split|].
      split; [done|]. split; [done|]. split; [|done]. intros _.
      split; [reflexivity|].
      assert (per_cpu_cold_boot_done (fst d) 0 <> 0) as Hset.
      { destruct (per_cpu_cold_boot_done s 0 =? 0) eqn:E0.
        - by rewrite (per_cpu_insert _ _ 0 0 1 Hfl).
        - apply Z.eqb_neq in E0. by rewrite (per_cpu_same _ _ 0 Hfl). }
      split; [exact Hset|]. split; [|split].
      * intros E0. rewrite E0 in Hfl. simpl in Hfl.
        by rewrite (per_cpu_insert _ _ 0 0 1 Hfl).
      * intros c Hc. destruct (per_cpu_cold_boot_done s 0 =? 0).
        -- rewrite (per_cpu_insert _ _ c 0 1 Hfl). by destruct (decide (0 = c)).
        -- by rewrite (per_cpu_same _ _ c Hfl).
      * intros l s' Hsess. exact (session_no_power_on _ _ _ 0 Hsess Hset).
    + subst r. split; [by right|]. split; [split; [done | by intros [_ ?]]|].
      split; [done|]. split; [done|]. split; [done|]. done.
  - subst r. split; [by right|]. split; [split; [done | by intros [? _]]|].
    split; [done|]. split; [done|]. split; [done|]. done.
Qed.

End Sessions.

(** On the example board: core 1 is prepared, booted cold (its secondary
    leaves the pen 70us in), then booted again. *)
Lemma cold_boot_done_once_witness :
  exists l s',
    play (cfg := cfg_250)
      [(hw_board, None, CpuPrepare 1);
       (hw_board, Some 70, CpuBoot 8 1);
       (hw_board, Some 80, CpuBoot 8 1)] sw_boot = Some (l, s') /\
    map e_status l = [0; 0; 0] /\
    map (powers_on 1) l = [false; true; false] /\
    ((per_cpu_cold_boot_done sw_boot 1 <> 0 -> per_cpu_cold_boot_done s' 1 <> 0) /\
     Forall (fun e => per_cpu_cold_boot_done (e_before e) 1 <> 0 ->
                      per_cpu_cold_boot_done (e_after e) 1 <> 0) l /\
     (length (List.filter (flag_rises 1) l) <= 1)%nat /\
     Forall (fun e => forall fuel cpu, e_call e = CpuBoot fuel cpu ->
                      attempts_power_on e = true ->
                      per_cpu_cold_boot_done (e_before e) cpu = 0) l /\
     (per_cpu_cold_boot_done sw_boot 1 <> 0 ->
      Forall (fun e => forall fuel, e_call e = CpuBoot fuel 1 ->
                       attempts_power_on e = false) l) /\
     (length (List.filter (powers_on 1) l) <= 1)%nat).
Proof.
  destruct (play (cfg := cfg_250) _ sw_boot) as [[l s']|] eqn:E;
    [|vm_compute in E; discriminate].
  exists l, s'. split; [reflexivity|].
  pose proof (play_session (cfg := cfg_250) _ _ _ _ E) as Hs.
  split; [|split; [|exact (cold_boot_done_once (cfg := cfg_250) _ _ _ 1 Hs)]];
    vm_compute in E; injection E as <- <-; reflexivity.
Defined.

(** Against C2 read as "no core has [msm_unclamp_secondary_arm_cpu] run
    for it twice": on the example board the first boot of core 1 powers
    the L2 cache up (ten writes) and then fails to map the ACC block; the
    flag stays false, and the second boot of the same core enters
    [msm_unclamp_secondary_arm_cpu] again and programs the power rails
    (seven writes). *)
Lemma cold_boot_retry_counterexample :
  exists l s',
    play (cfg := cfg_250)
      [(hw_board_acc_unmapped, None, CpuBoot 8 1);
       (hw_board_l2_on, Some 70, CpuBoot 8 1)] sw_boot = Some (l, s') /\
    map e_call l = [CpuBoot 8 1; CpuBoot 8 1] /\
    map e_status l = [- ENOMEM; 0] /\
    map attempts_power_on l = [true; true] /\
    map (fun e => length (List.filter is_writel (e_trace e))) l = [10; 7]%nat /\
    length (List.filter attempts_power_on l) = 2%nat.
Proof.
  destruct (play (cfg := cfg_250) _ sw_boot) as [[l s']|] eqn:E;
    [|vm_compute in E; discriminate].
  exists l, s'. split; [reflexivity|].
  vm_compute in E. injection E as <- <-. by vm_compute.
Qed.

(** Two boards on which [msm_cpu_prepare] fails: on the first the
    hardware id of every core has bit 24 set, outside the affinity
    fields, and the firmware is not asked; on the second the firmware
    rejects the boot address.  The flags stay as they were. *)
Lemma prepare_failures_example :
  let bad_id := with_logical_map (fun c => 0x1000000 + c) hw_board in
  exists d1 tr1 d2 tr2,
    run2 (cfg := cfg_250) bad_id None (msm_cpu_prepare 2) (sw_boot, msm_cpu_postboot)
      = Some (d1, - ENOSYS, tr1) /\
    boot_cpu_events tr1 =
      [CpuLogicalMap 2; Printk "CPU%d: Failed to set boot address\n"] /\
    cold_boot_done (fst d1) = ∅ /\
    run2 (cfg := cfg_250) hw_board_fw_rejects None (msm_cpu_prepare 2)
         (sw_boot, msm_cpu_postboot)
      = Some (d2, - ENOSYS, tr2) /\
    boot_cpu_events tr2 =
      [CpuLogicalMap 2; QcomScmSetColdBootAddrMc secondary_holding_pen_sym 4 1 1;
       Printk "CPU%d: Failed to set boot address\n"] /\
    cold_boot_done (fst d2) = ∅.
Proof. intros bad_id. do 4 eexists. repeat split; by vm_compute. Qed.

(** ** The jiffies clock *)

Section Clock.
Context {cfg : Kconfig}.

Lemma wrap64_range x : 0 <= wrap64 x < 2 ^ 64.
Proof. unfold wrap64. apply Z.mod_pos_bound. lia. Qed.

Lemma signed64_wrap64 d :
  - 2 ^ 63 <= d < 2 ^ 63 -> signed64 (wrap64 d) = d.
Proof.
  intros Hd. unfold signed64, wrap64.
  destruct (Z.lt_ge_cases d 0) as [Hneg | Hpos].
  - assert (d mod 2 ^ 64 = d + 2 ^ 64) as ->.
    { symmetry. apply (Z.mod_unique_pos _ _ (-1)); lia. }
    destruct (d + 2 ^ 64 <? 2 ^ 63) eqn:E; [apply Z.ltb_lt in E; lia|lia].
  - rewrite Z.mod_small by lia.
    destruct (d <? 2 ^ 63) eqn:E; [done|apply Z.ltb_ge in E; lia].
Qed.

Lemma time_before_diff a d h :
  - 2 ^ 63 <= d - h < 2 ^ 63 ->
  time_before (wrap64 (a + d)) (wrap64 (wrap64 a + h)) = (d <? h).
Proof.
  intros Hd. unfold time_before.
  assert (wrap64 (wrap64 (a + d) - wrap64 (wrap64 a + h)) = wrap64 (d - h)) as ->.
  { unfold wrap64.
    rewrite Zminus_mod_idemp_l, Zminus_mod_idemp_r.
    replace (a + d - (a mod 2 ^ 64 + h)) with (a + d - h - a mod 2 ^ 64) by lia.
    rewrite Zminus_mod_idemp_r. f_equal. lia. }
  rewrite signed64_wrap64 by done.
  destruct (d <? h) eqn:E.
  - apply Z.ltb_lt in E. apply Z.ltb_lt. lia.
  - apply Z.ltb_ge in E. apply Z.ltb_ge. lia.
Qed.

Lemma ticks_mono t t' : 0 <= HZ -> t <= t' -> ticks t <= ticks t'.
Proof. intros. unfold ticks. apply Z.div_le_mono; nia. Qed.

Lemma ticks_second t : ticks (t + 1000000) = ticks t + HZ.
Proof.
  unfold ticks.
  replace ((t + 1000000) * HZ) with (t * HZ + HZ * 1000000) by lia.
  by rewrite Z.div_add.
Qed.

Lemma ticks_diff_bound t0 t :
  0 <= HZ -> t0 <= t -> ticks t - ticks t0 <= (t - t0) * HZ + 1.
Proof.
  intros HHZ Ht. unfold ticks.
  pose proof (Z.div_mod (t * HZ) 1000000 ltac:(lia)) as E1.
  pose proof (Z.div_mod (t0 * HZ) 1000000 ltac:(lia)) as E0.
  pose proof (Z.mod_pos_bound (t * HZ) 1000000 ltac:(lia)) as B1.
  pose proof (Z.mod_pos_bound (t0 * HZ) 1000000 ltac:(lia)) as B0.
  nia.
Qed.

(** The deadline test of the polling loop, on the microsecond clock. *)
Lemma time_before_ticks hw t0 t :
  0 < HZ < 2 ^ 31 -> t0 <= t <= t0 + 4194304 ->
  time_before (jiffies_at hw t) (wrap64 (jiffies_at hw t0 + 1 * HZ))
    = (ticks t - ticks t0 <? HZ).
Proof.
  intros HHZ Ht. change 4194304 with (2 ^ 22) in Ht. unfold jiffies_at.
  replace (jiffies0 hw + ticks t)
    with ((jiffies0 hw + ticks t0) + (ticks t - ticks t0)) by lia.
  rewrite Z.mul_1_l. apply time_before_diff.
  pose proof (ticks_mono t0 t ltac:(lia) ltac:(lia)).
  pose proof (ticks_diff_bound t0 t ltac:(lia) ltac:(lia)).
  assert ((t - t0) * HZ <= 2 ^ 22 * 2 ^ 31) by nia.
  lia.
Qed.

End Clock.

(** ** The secondary core's side of the handshake *)

Section Postboot.
Context {cfg : Kconfig}.

Lemma postboot_ready_locked hw tid s o :
  boot_lock s = Some o ->
  run_ready hw tid msm_cpu_postboot s =
    (postboot_wait, set_pen INVALID_HWID s,
     [(tid, PenStore INVALID_HWID); (tid, SmpWmb);
      (tid, FlushDcacheArea secondary_holding_pen_release_sym 8)]).
Proof.
  intros Hheld. unfold msm_cpu_postboot. simpl. by rewrite Hheld.
Qed.

Lemma postboot_ready_free hw tid s :
  boot_lock s = None ->
  run_ready hw tid msm_cpu_postboot s =
    (Ret tt, set_boot_lock None (set_boot_lock (Some tid) (set_pen INVALID_HWID s)),
     [(tid, PenStore INVALID_HWID); (tid, SmpWmb);
      (tid, FlushDcacheArea secondary_holding_pen_release_sym 8);
      (tid, RawSpinLock); (tid, RawSpinUnlock)]).
Proof.
  intros Hfree. unfold msm_cpu_postboot. simpl. by rewrite Hfree.
Qed.

Lemma postboot_wait_locked hw tid s o :
  boot_lock s = Some o ->
  run_ready hw tid postboot_wait s = (postboot_wait, s, []).
Proof.
  intros Hheld. unfold postboot_wait. simpl. by rewrite Hheld.
Qed.

Lemma postboot_wait_free hw tid s :
  boot_lock s = None ->
  run_ready hw tid postboot_wait s =
    (Ret tt, set_boot_lock None (set_boot_lock (Some tid) s),
     [(tid, RawSpinLock); (tid, RawSpinUnlock)]).
Proof.
  intros Hfree. unfold postboot_wait. simpl. by rewrite Hfree.
Qed.

(** C8. [msm_cpu_postboot] first stores the sentinel to the boot-target
    word, with the write barrier and the cache flush of that word, and
    only then takes and at once releases [boot_lock]; nothing is issued
    between the acquire and the release.  Of the shared memory only the
    boot-target word changes (the lock is free again at the end).  When
    the lock is held by another core the function has stored the sentinel
    and waits, with the acquire and the release still to run. *)
Theorem postboot_frame hw tid s :
  (boot_lock s = None ->
   exists s',
     run hw tid msm_cpu_postboot s =
       Some (s', tt,
             [PenStore INVALID_HWID; SmpWmb;
              FlushDcacheArea secondary_holding_pen_release_sym 8;
              RawSpinLock; RawSpinUnlock]) /\
     s' = set_now (now s') (set_pen INVALID_HWID s)) /\
  (forall o, boot_lock s = Some o ->
     run_ready hw tid msm_cpu_postboot s =
       (exec RawSpinLock ;; exec RawSpinUnlock, set_pen INVALID_HWID s,
        [(tid, PenStore INVALID_HWID); (tid, SmpWmb);
         (tid, FlushDcacheArea secondary_holding_pen_release_sym 8)])).
Proof.
  split.
  - intros Hfree. unfold msm_cpu_postboot, run. simpl. unfold seq_step. simpl.
    rewrite Hfree. simpl. eexists. split; [reflexivity|].
    destruct s; simpl in *. by subst.
  - intros o Hheld. exact (postboot_ready_locked hw tid s o Hheld).
Qed.

End Postboot.

(** ** The pen-release handshake *)

Section Handshake.
Context {cfg : Kconfig}.
Variables (hw : Hw) (arrival : option Z).

Lemma mode_elapse hwid t_pub tl p s sec :
  handshake_mode arrival hwid t_pub tl (s, sec) ->
  handshake_mode arrival hwid t_pub tl (elapse hw p s, sec).
Proof. done. Qed.

Lemma run_ready_ret tid s : run_ready hw tid (Ret tt) s = (Ret tt, s, []).
Proof. done. Qed.

(** The first look at memory, with the lock still free. *)
Lemma sync_first s :
  boot_lock s = None ->
  exists s1 sec1 ev,
    sync hw arrival (s, msm_cpu_postboot) = (s1, sec1, ev) /\
    (pen_waiting arrival (now s) sec1 \/ pen_early arrival (now s) sec1) /\
    boot_lock s1 = None /\ now s1 = now s.
Proof.
  intros Hfree. unfold sync. simpl.
  destruct arrival as [ta|]; simpl.
  - destruct (Z.leb_spec ta (now s)) as [Hle | Hgt].
    + rewrite (postboot_ready_free hw woken_cpu s Hfree).
      do 3 eexists. split; [reflexivity|]. split; [|done].
      right. split; [by left|]. by exists ta.
    + do 3 eexists. split; [reflexivity|]. split; [|done].
      left. split; [done|]. intros ? [= <-]. lia.
  - do 3 eexists. split; [reflexivity|]. split; [|done].
    left. by split.
Qed.

(** A look at memory with the lock held, before the publication. *)
Lemma sync_before_publish s sec tl o :
  boot_lock s = Some o ->
  pen_waiting arrival tl sec \/ pen_early arrival tl sec ->
  tl <= now s ->
  exists s1 sec1 ev,
    sync hw arrival (s, sec) = (s1, sec1, ev) /\
    (pen_waiting arrival (now s) sec1 \/ pen_early arrival (now s) sec1) /\
    boot_lock s1 = Some o /\ now s1 = now s.
Proof.
  intros Hheld Hpre Htl. unfold sync. simpl.
  destruct Hpre as [[-> Hnot] | [Hsec (ta & -> & Hta)]].
  - destruct arrival as [ta|]; simpl.
    + destruct (Z.leb_spec ta (now s)) as [Hle | Hgt].
      * rewrite (postboot_ready_locked hw woken_cpu s o Hheld).
        do 3 eexists. split; [reflexivity|]. split; [|done].
        right. split; [by right|]. by exists ta.
      * do 3 eexists. split; [reflexivity|]. split; [|done].
        left. split; [done|]. intros ? [= <-]. lia.
    + do 3 eexists. split; [reflexivity|]. split; [|done].
      left. by split.
  - simpl. assert (pen_early (Some ta) (now s) sec) as Hearly.
    { split; [done|]. exists ta. split; [done|lia]. }
    destruct (ta <=? now s); destruct Hsec as [-> | ->];
      rewrite ?run_ready_ret, ?(postboot_wait_locked hw woken_cpu s o Hheld);
      do 3 eexists; (split; [reflexivity|]); (split; [by right|done]).
Qed.

(** A look at memory with the lock held, after the publication. *)
Lemma sync_mode hwid t_pub tl s sec o :
  boot_lock s = Some o ->
  handshake_mode arrival hwid t_pub tl (s, sec) ->
  t_pub <= tl <= now s ->
  exists s1 sec1 ev,
    sync hw arrival (s, sec) = (s1, sec1, ev) /\
    handshake_mode arrival hwid t_pub (now s) (s1, sec1) /\
    boot_lock s1 = Some o /\ now s1 = now s.
Proof.
  intros Hheld Hmode Htl. unfold sync. simpl.
  destruct Hmode as [(Hpen & Hsec & ta & Ha & Hta)
                    | [(Hpen & Hsec & Hnot) | (Hpen & Hsec & ta & Ha & Hta)]];
    simpl in *.
  - subst sec. rewrite Ha. simpl.
    assert (handshake_mode (Some ta) hwid t_pub (now s) (s, postboot_wait)) as Hm.
    { left. repeat split; try done. exists ta. split; [done|lia]. }
    destruct (ta <=? now s);
      rewrite ?(postboot_wait_locked hw woken_cpu s o Hheld);
      do 3 eexists; (split; [reflexivity|]); by split.
  - subst sec. destruct arrival as [ta|]; simpl.
    + destruct (Z.leb_spec ta (now s)) as [Hle | Hgt].
      * rewrite (postboot_ready_locked hw woken_cpu s o Hheld).
        do 3 eexists. split; [reflexivity|]. split; [|done].
        left. repeat split; try done. exists ta. split; [done|].
        specialize (Hnot ta eq_refl). lia.
      * do 3 eexists. split; [reflexivity|]. split; [|done].
        right; left. repeat split; try done. intros ? [= <-]. lia.
    + do 3 eexists. split; [reflexivity|]. split; [|done].
      right; left. by repeat split.
  - rewrite Ha. simpl.
    assert (handshake_mode (Some ta) hwid t_pub (now s) (s, sec)) as Hm.
    { right; right. repeat split; try done. by exists ta. }
    destruct (ta <=? now s); destruct Hsec as [-> | ->];
      rewrite ?run_ready_ret, ?(postboot_wait_locked hw woken_cpu s o Hheld);
      do 3 eexists; (split; [reflexivity|]); by split.
Qed.

(** The last look at memory, once the lock is released. *)
Lemma sync_after_unlock hwid t_pub tl s sec :
  boot_lock s = None ->
  handshake_mode arrival hwid t_pub tl (s, sec) ->
  t_pub <= tl <= now s ->
  exists s1 sec1 ev,
    sync hw arrival (s, sec) = (s1, sec1, ev) /\
    now s1 = now s /\
    boot_lock s1 = None /\
    (pen s1 = pen s \/ pen s1 = INVALID_HWID) /\
    (hwid <> INVALID_HWID ->
     (pen s1 = INVALID_HWID <->
      exists ta, arrival = Some ta /\ t_pub < ta <= now s)).
Proof.
  intros Hfree Hmode Htl. unfold sync. simpl.
  destruct Hmode as [(Hpen & Hsec & ta & Ha & Hta)
                    | [(Hpen & Hsec & Hnot) | (Hpen & Hsec & ta & Ha & Hta)]];
    simpl in *.
  - subst sec. rewrite Ha. simpl.
    destruct (ta <=? now s);
      rewrite ?(postboot_wait_free hw woken_cpu s Hfree);
      do 3 eexists; (split; [reflexivity|]); simpl;
      (split; [done|]); (split; [done|]); (split; [by left|]); intros _;
      (split; [intros _; exists ta; split; [done|lia] | done]).
  - subst sec. destruct arrival as [ta|]; simpl.
    + destruct (Z.leb_spec ta (now s)) as [Hle | Hgt].
      * rewrite (postboot_ready_free hw woken_cpu s Hfree).
        do 3 eexists. split; [reflexivity|]. simpl.
        split; [done|]. split; [done|]. split; [by right|]. intros _.
        split; [|done]. intros _. exists ta. split; [done|].
        specialize (Hnot ta eq_refl). lia.
      * do 3 eexists. split; [reflexivity|]. simpl.
        split; [done|]. split; [done|]. split; [by left|]. intros Hhwid.
        rewrite Hpen. split; [done|]. intros (? & [= <-] & ?). lia.
    + do 3 eexists. split; [reflexivity|]. simpl.
      split; [done|]. split; [done|]. split; [by left|]. intros Hhwid.
      rewrite Hpen. split; [done|]. by intros (? & ? & ?).
  - rewrite Ha. simpl.
    destruct (ta <=? now s); destruct Hsec as [-> | ->];
      rewrite ?run_ready_ret, ?(postboot_wait_free hw woken_cpu s Hfree);
      do 3 eexists; (split; [reflexivity|]); simpl;
      (split; [done|]); (split; [done|]); (split; [by left|]); intros Hhwid;
      rewrite Hpen; (split; [done|]); intros (? & [= <-] & ?); lia.
Qed.

(** A look at memory leaves the word alone or finds it cleared. *)
Lemma sync_mode_pen hwid t_pub tl s sec o :
  boot_lock s = Some o ->
  handshake_mode arrival hwid t_pub tl (s, sec) ->
  pen (fst (fst (sync hw arrival (s, sec)))) = pen s \/
  pen (fst (fst (sync hw arrival (s, sec)))) = INVALID_HWID.
Proof.
  intros Hheld Hmode. unfold sync. simpl.
  destruct (arrived arrival s); [|by left].
  destruct Hmode as [(_ & Hsec & _) | [(_ & Hsec & _) | (_ & [Hsec | Hsec] & _)]];
    simpl in Hsec; subst sec;
    rewrite ?run_ready_ret, ?(postboot_wait_locked hw woken_cpu s o Hheld),
      ?(postboot_ready_locked hw woken_cpu s o Hheld); simpl; auto.
Qed.

(** The polling loop, entered with the lock held at most a little over a
    second after the deadline was fixed at [t_to]: it comes out, and if the
    word still holds the hardware id the deadline has passed. *)
Lemma poll_run2 hwid t_pub t_to :
  0 < HZ < 2 ^ 31 -> 0 <= insn_us hw <= 1000000 ->
  forall fuel s sec tl,
    boot_lock s = Some boot_cpu ->
    handshake_mode arrival hwid t_pub tl (s, sec) ->
    t_pub <= tl <= now s ->
    t_to <= now s <= t_to + 1000000 + 2 * insn_us hw + 10 ->
    t_to + 1000000 - now s <= 10 * (Z.of_nat fuel - 1) ->
    (1 <= fuel)%nat ->
    exists s' sec' tr,
      run2 hw arrival (pen_poll fuel (wrap64 (jiffies_at hw t_to + 1 * HZ))) (s, sec)
        = Some (s', sec', tt, tr) /\
      boot_lock s' = Some boot_cpu /\
      handshake_mode arrival hwid t_pub (now s' - insn_us hw) (s', sec') /\
      now s <= now s' - insn_us hw /\
      (pen s' <> INVALID_HWID ->
       HZ <= ticks (now s' - insn_us hw) - ticks t_to) /\
      poll_rounds (boot_cpu_events tr).
Proof.
  intros HHZ Hi fuel.
  induction fuel as [|fuel IH]; intros s sec tl Hheld Hmode Htl Hnow Hfuel Hpos; [lia|].
  cbn [pen_poll]. rewrite run2_bind, run2_call.
  destruct (sync_mode hwid t_pub tl s sec boot_cpu Hheld Hmode Htl)
    as (s1 & sec1 & ev1 & Hsync1 & Hmode1 & Hheld1 & Hnow1).
  pose proof (sync_hidden _ _ _ _ _ _ Hsync1) as Hev1.
  rewrite Hsync1. cbn [fst snd handle]. rewrite Hnow1.
  rewrite (time_before_ticks hw t_to (now s) HHZ) by lia.
  destruct (Z.ltb_spec (ticks (now s) - ticks t_to) HZ) as [Hin | Hout].
  - (* before the deadline: read the word *)
    assert (now s < t_to + 1000000) as Hearly.
    { destruct (Z.lt_ge_cases (now s) (t_to + 1000000)) as [?|Hge]; [done|].
      assert (0 <= HZ) as HHZ0 by lia.
      pose proof (ticks_mono _ _ HHZ0 Hge) as Hm.
      rewrite ticks_second in Hm. lia. }
    rewrite run2_bind, run2_call.
    destruct (sync_mode hwid t_pub (now s) (elapse hw Jiffies s1) sec1 boot_cpu
                Hheld1 (mode_elapse _ _ _ _ _ _ Hmode1))
      as (s2 & sec2 & ev2 & Hsync2 & Hmode2 & Hheld2 & Hnow2); [simpl; lia|].
    pose proof (sync_hidden _ _ _ _ _ _ Hsync2) as Hev2.
    rewrite Hsync2. cbn [fst snd handle].
    simpl in Hnow2, Hmode2. rewrite Hnow1 in Hnow2, Hmode2.
    destruct (pen s2 =? INVALID_HWID) eqn:Hpen.
    + (* the sentinel: leave the loop *)
      apply Z.eqb_eq in Hpen.
      do 3 eexists. split; [unfold run2; simpl; reflexivity|].
      simpl. rewrite Hnow2.
      replace (now s + insn_us hw + insn_us hw - insn_us hw)
        with (now s + insn_us hw) by lia.
      split; [done|]. split; [exact Hmode2|]. split; [lia|]. split; [done|].
      rewrite !boot_cpu_events_app, Hev1, Hev2. simpl. constructor.
    + (* the hardware id still: wait and poll again *)
      rewrite run2_bind, run2_exec.
      destruct (sync_mode hwid t_pub (now s + insn_us hw) (elapse hw PenLoad s2) sec2
                  boot_cpu Hheld2 (mode_elapse _ _ _ _ _ _ Hmode2))
        as (s3 & sec3 & ev3 & Hsync3 & Hmode3 & Hheld3 & Hnow3); [simpl; lia|].
      pose proof (sync_hidden _ _ _ _ _ _ Hsync3) as Hev3.
      rewrite Hsync3. cbn [fst snd handle].
      simpl in Hnow3, Hmode3. rewrite Hnow2 in Hnow3, Hmode3.
      destruct (IH (elapse hw (Udelay 10) s3) sec3 (now s + insn_us hw + insn_us hw))
        as (s' & sec' & tr & Hrun & Hheld' & Hmode' & Hnow' & Hdead & Hrounds);
        try done; try (simpl; lia).
      rewrite Hrun.
      do 3 eexists. split; [reflexivity|].
      split; [done|]. split; [done|]. split; [simpl in Hnow'; lia|].
      split; [done|].
      rewrite !boot_cpu_events_app, Hev1, Hev2, Hev3. simpl. by constructor.
  - (* the deadline has passed *)
    do 3 eexists. split; [unfold run2; simpl; reflexivity|].
    simpl. rewrite Hnow1.
    replace (now s + insn_us hw - insn_us hw) with (now s) by lia.
    split; [done|]. split; [exact Hmode1|]. split; [lia|]. split; [intros _; lia|].
    rewrite !boot_cpu_events_app, Hev1. simpl. constructor.
Qed.

(** The whole of [secondary_pen_release] against a secondary core that
    leaves the pen at [arrival]. *)
Lemma handshake_run2 fuel cpu s :
  0 < HZ < 2 ^ 31 -> 0 <= insn_us hw <= 1000000 ->
  boot_lock s = None -> 100001 <= Z.of_nat fuel ->
  exists s' sec' r tr polls,
    run2 hw arrival (secondary_pen_release fuel cpu) (s, msm_cpu_postboot)
      = Some (s', sec', r, tr) /\
    boot_cpu_events tr =
      [RawSpinLock; CpuLogicalMap cpu; PenStore (wrap64 (logical_map hw cpu));
       SmpWmb; FlushDcacheArea secondary_holding_pen_release_sym 8; Sev; Jiffies]
      ++ polls ++ [RawSpinUnlock; PenLoad] /\
    poll_rounds polls /\
    r = (if pen s' =? INVALID_HWID then 0 else - ENOSYS) /\
    (wrap64 (logical_map hw cpu) <> INVALID_HWID ->
     (pen s' = INVALID_HWID <->
      exists ta, arrival = Some ta /\
        now s + 2 * insn_us hw < ta <= now s' - insn_us hw)) /\
    (pen s' <> INVALID_HWID ->
     HZ <= ticks (now s' - 3 * insn_us hw) - ticks (now s + 6 * insn_us hw)) /\
    boot_lock s' = None.
Proof.
  intros HHZ Hi Hfree Hfuel.
  set (hwid := wrap64 (logical_map hw cpu)) in *.
  set (i := insn_us hw) in *.
  unfold secondary_pen_release.
  (* raw_spin_lock *)
  rewrite run2_bind, run2_exec.
  destruct (sync_first s Hfree) as (s1 & sec1 & ev1 & Hsync1 & Hpre1 & Hfree1 & Hnow1).
  pose proof (sync_hidden _ _ _ _ _ _ Hsync1) as Hev1.
  rewrite Hsync1. cbn [fst snd handle]. rewrite Hfree1.
  (* cpu_logical_map *)
  rewrite run2_bind, run2_call.
  destruct (sync_before_publish
              (elapse hw RawSpinLock (set_boot_lock (Some boot_cpu) s1)) sec1
              (now s) boot_cpu eq_refl Hpre1)
    as (s2 & sec2 & ev2 & Hsync2 & Hpre2 & Hheld2 & Hnow2); [simpl; lia|].
  pose proof (sync_hidden _ _ _ _ _ _ Hsync2) as Hev2.
  rewrite Hsync2. cbn [fst snd handle]. fold hwid.
  simpl in Hnow2, Hpre2. rewrite Hnow1 in Hnow2, Hpre2. fold i in Hnow2, Hpre2.
  (* the store of the hardware id *)
  unfold write_pen_release. rewrite run2_bind, run2_bind, run2_exec.
  destruct (sync_before_publish (elapse hw (CpuLogicalMap cpu) s2) sec2
              (now s + i) boot_cpu Hheld2 Hpre2)
    as (s3 & sec3 & ev3 & Hsync3 & Hpre3 & Hheld3 & Hnow3); [simpl; lia|].
  pose proof (sync_hidden _ _ _ _ _ _ Hsync3) as Hev3.
  rewrite Hsync3. cbn [fst snd handle].
  simpl in Hnow3, Hpre3. rewrite Hnow2 in Hnow3, Hpre3. fold i in Hnow3, Hpre3.
  set (t_pub := now s + i + i) in *.
  assert (handshake_mode arrival hwid t_pub t_pub
            (elapse hw (PenStore hwid) (set_pen hwid s3), sec3)) as Hmode3.
  { destruct Hpre3 as [Hw | He]; [right; left | right; right]; by split. }
  (* smp_wmb *)
  rewrite run2_bind, run2_exec.
  destruct (sync_mode hwid t_pub t_pub _ sec3 boot_cpu
              (Hheld3 : boot_lock (elapse hw (PenStore hwid) (set_pen hwid s3)) = _)
              Hmode3)
    as (s4 & sec4 & ev4 & Hsync4 & Hmode4 & Hheld4 & Hnow4); [simpl; lia|].
  pose proof (sync_hidden _ _ _ _ _ _ Hsync4) as Hev4.
  rewrite Hsync4. cbn [fst snd handle].
  simpl in Hnow4, Hmode4. rewrite Hnow3 in Hnow4, Hmode4. fold i in Hnow4, Hmode4.
  (* __flush_dcache_area *)
  rewrite run2_exec.
  destruct (sync_mode hwid t_pub _ _ sec4 boot_cpu
              (Hheld4 : boot_lock (elapse hw SmpWmb s4) = _)
              (mode_elapse _ _ _ SmpWmb _ _ Hmode4))
    as (s5 & sec5 & ev5 & Hsync5 & Hmode5 & Hheld5 & Hnow5); [simpl; lia|].
  pose proof (sync_hidden _ _ _ _ _ _ Hsync5) as Hev5.
  rewrite Hsync5. cbn [fst snd handle].
  simpl in Hnow5, Hmode5. rewrite Hnow4 in Hnow5, Hmode5. fold i in Hnow5, Hmode5.
  (* sev *)
  rewrite run2_bind, run2_exec.
  destruct (sync_mode hwid t_pub _ _ sec5 boot_cpu
              (Hheld5 : boot_lock (elapse hw (FlushDcacheArea _ _) s5) = _)
              (mode_elapse _ _ _ (FlushDcacheArea secondary_holding_pen_release_sym 8)
                 _ _ Hmode5))
    as (s6 & sec6 & ev6 & Hsync6 & Hmode6 & Hheld6 & Hnow6); [simpl; lia|].
  pose proof (sync_hidden _ _ _ _ _ _ Hsync6) as Hev6.
  rewrite Hsync6. cbn [fst snd handle].
  simpl in Hnow6, Hmode6. rewrite Hnow5 in Hnow6, Hmode6. fold i in Hnow6, Hmode6.
  (* timeout = jiffies + HZ *)
  rewrite run2_bind, run2_call.
  destruct (sync_mode hwid t_pub _ _ sec6 boot_cpu
              (Hheld6 : boot_lock (elapse hw Sev s6) = _)
              (mode_elapse _ _ _ Sev _ _ Hmode6))
    as (s7 & sec7 & ev7 & Hsync7 & Hmode7 & Hheld7 & Hnow7); [simpl; lia|].
  pose proof (sync_hidden _ _ _ _ _ _ Hsync7) as Hev7.
  rewrite Hsync7. cbn [fst snd handle].
  simpl in Hnow7, Hmode7. rewrite Hnow6 in Hnow7, Hmode7. fold i in Hnow7, Hmode7.
  (* the polling loop *)
  rewrite run2_bind.
  assert (now (elapse hw Jiffies s7) = now s7 + i) as Hnow7' by done.
  destruct (poll_run2 hwid t_pub (now s7) HHZ Hi fuel (elapse hw Jiffies s7) sec7
              (t_pub + i + i + i + i))
    as (s8 & sec8 & tr8 & Hrun8 & Hheld8 & Hmode8 & Hnow8 & Hdead8 & Hrounds8).
  { exact Hheld7. }
  { by apply mode_elapse. }
  { rewrite Hnow7', Hnow7. lia. }
  { rewrite Hnow7'. fold i. lia. }
  { rewrite Hnow7'. lia. }
  { lia. }
  rewrite Hrun8. rewrite Hnow7' in Hnow8. fold i in Hnow8, Hmode8, Hdead8.
  (* raw_spin_unlock *)
  rewrite run2_bind, run2_exec.
  pose proof (sync_mode_pen hwid t_pub (now s8 - i) s8 sec8 boot_cpu Hheld8 Hmode8)
    as Hkept9.
  destruct (sync_mode hwid t_pub (now s8 - i) s8 sec8 boot_cpu Hheld8 Hmode8)
    as (s9 & sec9 & ev9 & Hsync9 & Hmode9 & Hheld9 & Hnow9); [lia|].
  pose proof (sync_hidden _ _ _ _ _ _ Hsync9) as Hev9.
  rewrite Hsync9 in Hkept9 |- *. cbn [fst snd handle] in Hkept9 |- *.
  (* the value returned: the word read once more *)
  rewrite run2_bind, run2_call.
  destruct (sync_after_unlock hwid t_pub (now s8)
              (elapse hw RawSpinUnlock (set_boot_lock None s9)) sec9 eq_refl Hmode9)
    as (s10 & sec10 & ev10 & Hsync10 & Hnow10 & Hfree10 & Hkept10 & Hiff10);
    [simpl; fold i; lia|].
  pose proof (sync_hidden _ _ _ _ _ _ Hsync10) as Hev10.
  rewrite Hsync10. cbn [fst snd handle].
  simpl in Hnow10, Hiff10, Hkept10.
  rewrite Hnow9 in Hnow10, Hiff10. fold i in Hnow10, Hiff10.
  exists (elapse hw PenLoad s10), sec10,
    (if pen s10 =? INVALID_HWID then 0 else - ENOSYS).
  eexists. exists (boot_cpu_events tr8).
  split; [unfold run2; simpl; reflexivity|].
  split.
  { rewrite !boot_cpu_events_app, Hev1, Hev2, Hev3, Hev4, Hev5, Hev6, Hev7,
      Hev9, Hev10. reflexivity. }
  split; [exact Hrounds8|]. split; [reflexivity|].
  simpl. fold i. rewrite Hnow10.
  split; [|split; [|exact Hfree10]].
  - intros Hhwid. rewrite (Hiff10 Hhwid).
    split; intros (ta & Ha & Hta); exists ta; (split; [done|]);
      unfold t_pub in *; lia.
  - intros Hne.
    assert (pen s8 <> INVALID_HWID) as Hne8.
    { intros Hcl. destruct Hkept10 as [E10 | E10]; [|done].
      rewrite E10 in Hne. destruct Hkept9 as [E9 | E9]; [|done].
      rewrite E9 in Hne. done. }
    specialize (Hdead8 Hne8).
    replace (now s8 + i + i - 3 * i) with (now s8 - i) by lia.
    replace (now s + 6 * i) with (now s7) by (rewrite Hnow7; unfold t_pub; lia).
    exact Hdead8.
Qed.

(** C1. For a call that finds [boot_lock] free, made by the boot CPU while no
    other core requests a wake (the kernel boots one core at a time; the
    one other core is the secondary, which runs [msm_cpu_postboot] from
    the instant it leaves the pen), and for a
    hardware id other than the sentinel: [secondary_pen_release] returns
    0 or -ENOSYS, and 0 if and only if the boot-target word holds the
    sentinel when it is read once more after the polling loop and the
    unlock, that is, if and only if the secondary core cleared it after
    the publication and no later than that last read.  So a core that
    arrives before the deadline gives 0, a timeout is reported only once
    the deadline has passed, and a core that arrives after the deadline
    but before the last read gives 0 as well.  (With a second requester
    the last read, which follows the unlock, can find the id that
    requester has published in the meantime.) *)
Theorem pen_release_result fuel cpu s :
  0 < HZ < 2 ^ 31 -> 0 <= insn_us hw <= 1000000 ->
  boot_lock s = None -> 100001 <= Z.of_nat fuel ->
  wrap64 (logical_map hw cpu) <> INVALID_HWID ->
  let t_pub := now s + 2 * insn_us hw in
  let t_deadline_set := now s + 6 * insn_us hw in
  exists s' sec' r tr,
    run2 hw arrival (secondary_pen_release fuel cpu) (s, msm_cpu_postboot)
      = Some (s', sec', r, tr) /\
    let t_last_read := now s' - insn_us hw in
    (r = 0 \/ r = - ENOSYS) /\
    (r = 0 <-> pen s' = INVALID_HWID) /\
    (r = 0 <-> exists ta, arrival = Some ta /\ t_pub < ta <= t_last_read) /\
    (forall ta, arrival = Some ta -> t_pub < ta ->
       ticks ta - ticks t_deadline_set < HZ -> r = 0) /\
    (r = - ENOSYS ->
       HZ <= ticks (t_last_read - 2 * insn_us hw) - ticks t_deadline_set).
Proof.
  intros HHZ Hi Hfree Hfuel Hhwid t_pub t_set.
  destruct (handshake_run2 fuel cpu s HHZ Hi Hfree Hfuel)
    as (s' & sec' & r & tr & polls & Hrun & _ & _ & Hr & Hiff & Hdead & _).
  specialize (Hiff Hhwid).
  exists s', sec', r, tr. split; [exact Hrun|]. cbv zeta.
  assert (r = 0 <-> pen s' = INVALID_HWID) as Hr0.
  { rewrite Hr. destruct (pen s' =? INVALID_HWID) eqn:E.
    - apply Z.eqb_eq in E. by split.
    - apply Z.eqb_neq in E. split; [done|]. intros; done. }
  assert (r = - ENOSYS -> pen s' <> INVALID_HWID) as Hrto.
  { intros Hto Hcl. apply Hr0 in Hcl. rewrite Hcl in Hto. done. }
  assert (r = - ENOSYS ->
          HZ <= ticks (now s' - insn_us hw - 2 * insn_us hw) - ticks t_set) as Hlate.
  { intros Hto.
    replace (now s' - insn_us hw - 2 * insn_us hw) with (now s' - 3 * insn_us hw) by lia.
    apply Hdead. by apply Hrto. }
  split; [rewrite Hr; destruct (pen s' =? INVALID_HWID); auto|].
  split; [exact Hr0|]. split; [by rewrite Hr0|]. split; [|exact Hlate].
  intros ta Ha Hpub Hbefore.
  assert (r = 0 \/ r = - ENOSYS) as [? | Hto]
    by (rewrite Hr; destruct (pen s' =? INVALID_HWID); auto); [done|].
  specialize (Hlate Hto).
  apply Hr0, Hiff. exists ta. split; [done|]. split; [exact Hpub|].
  destruct (Z.le_gt_cases ta (now s' - insn_us hw)) as [?|Hgt]; [done|].
  assert (0 <= HZ) as HHZ0 by lia.
  pose proof (ticks_mono (now s' - insn_us hw - 2 * insn_us hw) ta HHZ0 ltac:(lia)).
  lia.
Qed.

End Handshake.

(** The example board with primitives that take 50ms each, so that a
    second is over after a few polling rounds. *)
Lemma pen_release_result_witness :
  let hw := with_insn_us 50000 hw_board in
  (0 < @HZ cfg_250 < 2 ^ 31 /\ 0 <= insn_us hw <= 1000000 /\
   boot_lock sw_boot = None /\ 100001 <= Z.of_nat (Z.to_nat 100001) /\
   wrap64 (logical_map hw 1) <> INVALID_HWID) /\
  exists s' sec' r tr,
    run2 (cfg := cfg_250) hw (Some 720000)
         (secondary_pen_release (cfg := cfg_250) (Z.to_nat 100001) 1)
         (sw_boot, msm_cpu_postboot) = Some (s', sec', r, tr) /\
    (r = 0 \/ r = - ENOSYS) /\
    (r = 0 <-> pen s' = INVALID_HWID) /\
    (r = 0 <-> exists ta, Some 720000 = Some ta /\
       now sw_boot + 2 * insn_us hw < ta <= now s' - insn_us hw) /\
    (forall ta, Some 720000 = Some ta -> now sw_boot + 2 * insn_us hw < ta ->
       ticks (cfg := cfg_250) ta
         - ticks (cfg := cfg_250) (now sw_boot + 6 * insn_us hw) < @HZ cfg_250 ->
       r = 0) /\
    (r = - ENOSYS ->
       @HZ cfg_250 <=
         ticks (cfg := cfg_250) (now s' - insn_us hw - 2 * insn_us hw)
         - ticks (cfg := cfg_250) (now sw_boot + 6 * insn_us hw)).
Proof.
  intros hw.
  assert (0 < @HZ cfg_250 < 2 ^ 31 /\ 0 <= insn_us hw <= 1000000 /\
          boot_lock sw_boot = None /\ 100001 <= Z.of_nat (Z.to_nat 100001) /\
          wrap64 (logical_map hw 1) <> INVALID_HWID) as H
    by (repeat split; by vm_compute).
  split; [exact H|].
  destruct H as (H1 & H2 & H3 & H4 & H5).
  exact (pen_release_result (cfg := cfg_250) hw (Some 720000) (Z.to_nat 100001) 1
           sw_boot H1 H2 H3 H4 H5).
Defined.

(** Against C1 read as "an arrival after the deadline gives a timeout":
    on the example board with 50ms primitives the deadline is fixed at
    300ms and passes at 1.3s; the polling loop gives up on the clock read
    at 1.35s with the hardware id still in the word; the secondary core
    clears the word at 1.42s, after the unlock, and the read that decides
    the status, at 1.45s, finds the sentinel: [secondary_pen_release]
    returns 0, not -ENOSYS. *)
Lemma pen_release_late_arrival_counterexample :
  let hw := with_insn_us 50000 hw_board in
  exists s' sec' tr,
    run2 (cfg := cfg_250) hw (Some 1420000)
         (secondary_pen_release (cfg := cfg_250) 16 1)
         (sw_boot, msm_cpu_postboot) = Some (s', sec', 0, tr) /\
    time_before (jiffies_at (cfg := cfg_250) hw 1420000)
      (wrap64 (jiffies_at (cfg := cfg_250) hw 300000 + 1 * @HZ cfg_250)) = false /\
    drop 37 tr =
      [(boot_cpu, Jiffies); (boot_cpu, RawSpinUnlock);
       (woken_cpu, PenStore INVALID_HWID); (woken_cpu, SmpWmb);
       (woken_cpu, FlushDcacheArea secondary_holding_pen_release_sym 8);
       (woken_cpu, RawSpinLock); (woken_cpu, RawSpinUnlock);
       (boot_cpu, PenLoad)].
Proof. intros hw. do 3 eexists. split; [by vm_compute|]. by vm_compute. Qed.

(** ** Mutual exclusion of wake requests *)

Section Exclusion.
Context {cfg : Kconfig}.

Lemma lock_path_impl {A : Type} (post post' : bool -> A -> Prop) (m : prog A) :
  (forall h a, post h a -> post' h a) ->
  forall h, lock_path h m post -> lock_path h m post'.
Proof.
  intros Himpl. induction m as [a | p k IH |]; intros h; simpl; auto.
  destruct p; try (intros H r; apply IH, H);
    intros [H1 H2]; (split; [exact H1|]); intros r; apply IH, H2.
Qed.

Lemma lock_path_bind {A B : Type} (m : prog A) (f : A -> prog B) post :
  forall h, lock_path h m (fun h' a => lock_path h' (f a) post) ->
            lock_path h (m ≫= f) post.
Proof.
  induction m as [a | p k IH |]; intros h; simpl; auto.
  destruct p; try (intros H r; apply IH, H);
    intros [H1 H2]; (split; [exact H1|]); intros r; apply IH, H2.
Qed.

Lemma lock_path_quiet {A : Type} (m : prog A) (post : bool -> A -> Prop) h :
  prog_all (fun p => is_lock_prim p = false) m ->
  (forall a, post h a) -> lock_path h m post.
Proof.
  intros Hm Hpost. induction Hm as [a | | p k Hp Hk IH]; simpl; auto.
  destruct p; try discriminate; exact IH.
Qed.

Lemma poll_lock_path fuel timeout :
  lock_path true (pen_poll fuel timeout) (fun h _ => h = true).
Proof.
  induction fuel as [|fuel IH]; simpl; [done|].
  intros j. destruct (time_before j timeout); simpl; [|done].
  intros v. destruct (v =? INVALID_HWID); simpl; [done|].
  intros _. exact IH.
Qed.

Lemma pen_release_lock_path fuel cpu :
  lock_path false (secondary_pen_release fuel cpu) (fun h _ => h = false).
Proof.
  unfold secondary_pen_release. simpl. split; [done|]. intros _ hwid.
  split; [done|]. intros _ _ _ _ j.
  change (lock_path true
            (pen_poll fuel (wrap64 (j + 1 * HZ)) ≫=
               fun _ => exec RawSpinUnlock ≫=
               fun _ => call PenLoad ≫=
               fun v => Ret (if v =? INVALID_HWID then 0 else - ENOSYS))
            (fun h _ => h = false)).
  apply lock_path_bind.
  apply (lock_path_impl (fun h _ => h = true)); [|apply poll_lock_path].
  intros h _ ->. simpl. by split.
Qed.

Lemma hw_prim_quiet p : hw_prim p = true -> is_lock_prim p = false.
Proof. by destruct p. Qed.

Lemma boot_lock_path fuel cpu :
  lock_path false (msm_cpu_boot fuel cpu) (fun h _ => h = false).
Proof.
  unfold msm_cpu_boot. simpl. intros done.
  destruct (done =? 0); [|apply pen_release_lock_path].
  change (lock_path false
            (msm_unclamp_secondary_arm_cpu cpu ≫=
               fun ret => if negb (ret =? 0) then Ret ret
                          else exec (ColdBootDoneStore cpu 1) ;;
                               secondary_pen_release fuel cpu)
            (fun h _ => h = false)).
  apply lock_path_bind, lock_path_quiet.
  - apply (prog_all_impl (fun p => hw_prim p = true));
      [apply hw_prim_quiet | apply unclamp_all].
  - intros ret. destruct (negb (ret =? 0)); [done|].
    apply lock_path_bind. unfold exec. cbn [lock_path].
    intros _. apply pen_release_lock_path.
Qed.

Lemma postboot_lock_path :
  lock_path false msm_cpu_postboot (fun h _ => h = false).
Proof. unfold msm_cpu_postboot. simpl. by repeat split. Qed.

Lemma driver_thread_lock_path m :
  driver_thread m -> lock_path false m (fun h _ => h = false).
Proof.
  destruct 1 as [fuel cpu | fuel cpu | |].
  - apply lock_path_bind.
    apply (lock_path_impl (fun h _ => h = false));
      [by intros h _ -> | apply pen_release_lock_path].
  - apply lock_path_bind.
    apply (lock_path_impl (fun h _ => h = false));
      [by intros h _ -> | apply boot_lock_path].
  - apply postboot_lock_path.
  - done.
Qed.

Lemma owner_after_app o l1 l2 :
  owner_after o (l1 ++ l2) = owner_after (owner_after o l1) l2.
Proof. apply fold_left_app. Qed.

Lemma exclusive_app o l1 l2 :
  exclusive o (l1 ++ l2) = exclusive o l1 && exclusive (owner_after o l1) l2.
Proof.
  revert o. induction l1 as [|[t p] l1 IH]; intros o; simpl; [done|].
  destruct p; rewrite ?IH; try done; by rewrite andb_assoc.
Qed.

Lemma handle_lock hw tid p s s' r :
  handle hw tid p s = Some (s', r) ->
  boot_lock s' = lock_after (boot_lock s) (tid, p) /\
  (p = RawSpinLock -> boot_lock s = None).
Proof.
  destruct p; simpl; try (intros [= <- _]; by split).
  destruct (boot_lock s); [done|]. intros [= <- _]. by split.
Qed.

(** Every step keeps the configuration safe. *)
Lemma step_safe c c' : safe_config c -> step c c' -> safe_config c'.
Proof.
  intros (Hthreads & Hown & Hexcl) Hstep.
  destruct Hstep as [hw tid p k ps s s' r tr Hlook Hh | d ps s tr Hd];
    simpl in *; [|by repeat split].
  destruct (handle_lock _ _ _ _ _ _ Hh) as [Hlock Hfree].
  pose proof (Hthreads tid _ Hlook) as Hme. simpl in Hme.
  unfold safe_config. simpl.
  rewrite owner_after_app, exclusive_app, Hexcl, <- Hown. simpl.
  split; [|split; [exact Hlock|]].
  - intros tid' m Hm.
    destruct (decide (tid = tid')) as [<-|Hne].
    + rewrite list_lookup_insert_eq in Hm by (by eapply lookup_lt_Some).
      injection Hm as <-.
      rewrite Hlock. unfold lock_after. simpl.
      destruct p; try exact (Hme r);
        destruct Hme as [Hh1 Hk]; try exact (Hk r).
      rewrite bool_decide_eq_true_2 by done. exact (Hk r).
    + rewrite list_lookup_insert_ne in Hm by done.
      pose proof (Hthreads tid' m Hm) as Hother.
      rewrite Hlock. unfold lock_after. simpl.
      destruct p; try exact Hother.
      * rewrite (Hfree eq_refl) in Hother.
        rewrite bool_decide_eq_false_2 in Hother by done.
        rewrite bool_decide_eq_false_2; [done|]. intros [= ?]. done.
      * destruct Hme as [Hheld _].
        apply bool_decide_eq_true_1 in Hheld.
        rewrite Hheld in Hother.
        rewrite bool_decide_eq_false_2 in Hother by (intros [= ?]; done).
        by rewrite bool_decide_eq_false_2.
  - destruct p; try done; simpl.
    + rewrite (Hfree eq_refl). by rewrite bool_decide_eq_true_2.
    + destruct Hme as [Hheld _]. apply bool_decide_eq_true_1 in Hheld.
      rewrite Hheld. by rewrite bool_decide_eq_true_2.
    + destruct Hme as [Hheld _].
      destruct (decide (val = INVALID_HWID)) as [->|Hne].
      * by rewrite bool_decide_eq_true_2.
      * specialize (Hheld Hne). apply bool_decide_eq_true_1 in Hheld.
        rewrite Hheld. rewrite (bool_decide_eq_true_2 (Some tid = Some tid)) by done.
        by rewrite orb_true_r.
Qed.

Lemma reach_safe c c' : safe_config c -> rtc step c c' -> safe_config c'.
Proof. intros Hc Hreach. induction Hreach; eauto using step_safe. Qed.


Lemma run_schedule_reach hw sched c c' :
  run_schedule hw sched c = Some c' -> rtc step c c'.
Proof.
  revert c. induction sched as [|tid rest IH]; intros [[ps s] tr]; simpl.
  - intros [= <-]. constructor.
  - destruct (ps !! tid) as [[a | p k |]|] eqn:Hlook; try done.
    destruct (handle hw tid p s) as [[s' r]|] eqn:Hh; [|done].
    intros Hrest. eapply rtc_l; [|apply IH, Hrest].
    by eapply step_prim.
Qed.


End Exclusion.

(** ** The phases of a wake request *)

Section Phases.
Context {cfg : Kconfig}.














Lemma phase_of_not_before tr : forall f t,
  f t <> Before -> phase_of f tr t <> Before.
Proof.
  induction tr as [|[t0 p] tr IH]; intros f t Hf; [done|].
  unfold phase_of. simpl. apply IH. unfold phases_after. simpl.
  destruct (decide (t = t0)); [|done].
  destruct p; simpl; try done. by destruct (f t).
Qed.







End Phases.


(** What the lock does not cover: the read that decides the status of a
    wake request comes after the unlock.  Here core 0 requests core 1,
    whose secondary clears the word during the first polling wait; core 0
    sees the sentinel and unlocks; core 1 then locks and publishes the
    id of core 2 before core 0 reads the word once more: the first call
    returns -ENOSYS although its secondary core arrived in time.  (Each
    core runs a caller that prints the status it gets.)  The kernel calls
    [cpu_boot] for one core at a time, which rules this out; the theorems
    on single calls below are about such calls. *)
Lemma wake_request_overtaken :
  let caller (cpu : Z) : prog unit :=
    r ← secondary_pen_release (cfg := cfg_250) 2 cpu;
    exec (Printk (if r =? 0 then "woken" else "timeout")) in
  let ps := [caller 1; caller 2; msm_cpu_postboot] in
  let sched := replicate 10 0%nat ++ replicate 3 2%nat ++
               replicate 3 0%nat ++ replicate 3 1%nat ++ replicate 2 0%nat in
  exists ps' s' tr,
    run_schedule (cfg := cfg_250) hw_board sched (ps, sw_boot, []) = Some (ps', s', tr) /\
    drop 7 tr =
      [(0%nat, Jiffies); (0%nat, PenLoad); (0%nat, Udelay 10);
       (2%nat, PenStore INVALID_HWID); (2%nat, SmpWmb);
       (2%nat, FlushDcacheArea secondary_holding_pen_release_sym 8);
       (0%nat, Jiffies); (0%nat, PenLoad); (0%nat, RawSpinUnlock);
       (1%nat, RawSpinLock); (1%nat, CpuLogicalMap 2); (1%nat, PenStore 2);
       (0%nat, PenLoad); (0%nat, Printk "timeout")] /\
    ps' !! 0%nat = Some (Ret tt) /\
    pen s' = 2 /\ boot_lock s' = Some 1%nat.
Proof.
  intros caller ps sched.
  assert (option_map
            (fun c : config =>
               (drop 7 (snd c), fst (fst c) !! 0%nat, pen (snd (fst c)),
                boot_lock (snd (fst c))))
            (run_schedule (cfg := cfg_250) hw_board sched (ps, sw_boot, []))
          = Some ([(0%nat, Jiffies); (0%nat, PenLoad); (0%nat, Udelay 10);
                   (2%nat, PenStore INVALID_HWID); (2%nat, SmpWmb);
                   (2%nat, FlushDcacheArea secondary_holding_pen_release_sym 8);
                   (0%nat, Jiffies); (0%nat, PenLoad); (0%nat, RawSpinUnlock);
                   (1%nat, RawSpinLock); (1%nat, CpuLogicalMap 2); (1%nat, PenStore 2);
                   (0%nat, PenLoad); (0%nat, Printk "timeout")],
                  Some (Ret tt), 2, Some 1%nat)) as H
    by (vm_compute; reflexivity).
  destruct (run_schedule (cfg := cfg_250) hw_board sched (ps, sw_boot, []))
    as [[[ps' s'] tr]|] eqn:E; [|discriminate H].
  exists ps', s', tr. simpl in H. injection H as H1 H2 H3 H4. by repeat split.
Qed.

(** ** References, mappings and the work of a power-on *)

Lemma in_block_offset b off :
  In off [CPU_PWR_CTL; CPU_PWR_GATE_CTL; L2_PWR_CTL_OVERRIDE; L2_PWR_CTL;
          L2_PWR_STATUS; L2_CORE_CBCR] ->
  in_block b (b + off) = true.
Proof.
  intros Hin. unfold in_block. apply existsb_exists. exists off.
  split; [exact Hin|]. apply Z.eqb_eq. lia.
Qed.

Ltac held_walk :=
  repeat first
    [ progress cbn [held_after existsb orb]
    | progress unfold take_ref
    | match goal with
      | H : (?c =? 0) = _ |- context [?c =? 0] => rewrite H
      end
    | rewrite Z.eqb_refl
    | rewrite orb_true_r
    | rewrite in_block_offset by (simpl; tauto) ].

Section Resources.
Context {cfg : Kconfig}.

(** The bookkeeping notices a reference that is never dropped, a
    reference dropped twice and a register touched after its block was
    unmapped. *)
Lemma held_after_notices :
  held_after hw_board [] [] [OfGetCpuNode 1] = Some ([0x101], []) /\
  held_after hw_board [] []
    [OfGetCpuNode 1; OfNodePut 0x101; OfNodePut 0x101] = None /\
  held_after hw_board [0x400] []
    [OfIomap 0x400 0; Iounmap 0x4000000; ReadlRelaxed 0x4000018] = None.
Proof. by vm_compute. Qed.

(** X1. On every path of [msm_unclamp_secondary_arm_cpu], whatever the
    device tree and the hardware answer: every node reference obtained
    (a lookup that did not answer NULL) is dropped exactly once, in the
    reverse order of the lookups, and no NULL node is put; a property is
    looked up and a block is mapped only on a node still referenced;
    every block mapped is unmapped once; every register access goes to
    one of the driver's register offsets in the block mapped at that
    moment; and at the return no reference and no mapping is left. *)
Theorem power_on_releases_resources hw tid cpu s :
  exists s' tr,
    run hw tid (msm_unclamp_secondary_arm_cpu cpu) s
      = Some (s', unclamp_status hw cpu, tr) /\
    held_after hw [] [] tr = Some ([], []).
Proof.
  unfold unclamp_status, msm_unclamp_secondary_arm_cpu, msm_power_on_l2_cache, run.
  simpl.
  repeat match goal with
  | |- context [?c =? 0] => destruct (c =? 0) eqn:?; simpl
  end.
  all: do 2 eexists; (split; [reflexivity|]); held_walk; try reflexivity.
Qed.

(** X2. When the L2 block maps and its status register reads with bit 9
    clear, [msm_power_on_l2_cache] returns 0 after exactly this: the
    mapping, the status read, ten register writes in the order of the
    source (L2_PWR_CTL, L2_PWR_CTL_OVERRIDE, L2_PWR_CTL twice,
    L2_CORE_CBCR, L2_PWR_CTL, L2_PWR_CTL_OVERRIDE, L2_PWR_CTL twice,
    L2_CORE_CBCR) with a barrier and a delay after the second, fourth,
    sixth and eighth (2us, 2us, 2us, 54us) and a barrier after the tenth,
    and the unmapping.  Memory is as before; the call takes the 60us of
    delay and eighteen other primitives. *)
Theorem l2_power_on_cold_sequence hw tid pd_node cpu s :
  let pd_base := iomap hw pd_node 0 in
  pd_base <> 0 ->
  Z.testbit (mmio hw (pd_base + L2_PWR_STATUS)) 9 = false ->
  exists s',
    run hw tid (msm_power_on_l2_cache pd_node cpu) s =
      Some (s', 0,
        [OfIomap pd_node 0; ReadlRelaxed (pd_base + L2_PWR_STATUS);
         WritelRelaxed 0x10D700 (pd_base + L2_PWR_CTL);
         WritelRelaxed 0x400000 (pd_base + L2_PWR_CTL_OVERRIDE); Mb; Udelay 2;
         WritelRelaxed 0x101700 (pd_base + L2_PWR_CTL);
         WritelRelaxed 0x101703 (pd_base + L2_PWR_CTL); Mb; Udelay 2;
         WritelRelaxed 0x01 (pd_base + L2_CORE_CBCR);
         WritelRelaxed 0x101603 (pd_base + L2_PWR_CTL); Mb; Udelay 2;
         WritelRelaxed 0x0 (pd_base + L2_PWR_CTL_OVERRIDE);
         WritelRelaxed 0x100203 (pd_base + L2_PWR_CTL); Mb; Udelay 54;
         WritelRelaxed 0x10100203 (pd_base + L2_PWR_CTL);
         WritelRelaxed 0x03 (pd_base + L2_CORE_CBCR); Mb;
         Iounmap pd_base]) /\
    same_mem s s' /\
    now s' = now s + 60 + 18 * insn_us hw.
Proof.
  intros pd_base Hmap Hbit. subst pd_base.
  unfold msm_power_on_l2_cache, run. simpl.
  rewrite (proj2 (Z.eqb_neq _ 0) Hmap). simpl.
  rewrite land_bit9, Hbit. simpl.
  eexists. split; [reflexivity|]. split; [by repeat split|]. simpl. lia.
Qed.

(** X3. The register writes and the delays of a power-on, on every path
    of [msm_unclamp_secondary_arm_cpu]: ten writes and 60us for the L2
    cache exactly when its sequence runs, seven writes and 6us for the
    core's power rails exactly when the function returns 0, and nothing
    else.  So a function that fails after the L2 sequence (the ACC block
    does not map) has powered the L2 cache up and leaves it so, and no
    rail of the core is touched unless every lookup and mapping
    succeeded. *)
Theorem power_on_work hw tid cpu s :
  exists s' tr,
    run hw tid (msm_unclamp_secondary_arm_cpu cpu) s
      = Some (s', unclamp_status hw cpu, tr) /\
    Z.of_nat (length (List.filter is_writel tr)) =
      (if l2_sequence_runs hw cpu then 10 else 0) +
      (if unclamp_status hw cpu =? 0 then 7 else 0) /\
    delay_us tr =
      (if l2_sequence_runs hw cpu then 60 else 0) +
      (if unclamp_status hw cpu =? 0 then 6 else 0).
Proof.
  unfold unclamp_status, l2_sequence_runs, msm_unclamp_secondary_arm_cpu,
    msm_power_on_l2_cache, run.
  simpl.
  repeat match goal with
  | |- context [?c =? 0] => destruct (c =? 0) eqn:?; simpl
  end.
  all: do 2 eexists; (split; [reflexivity|]); by split.
Qed.

End Resources.

(** On the example board the L2 block of core 1 is at 0x4000000 and its
    status register reads 0. *)
Lemma l2_power_on_cold_sequence_witness :
  let pd_base := iomap hw_board 0x400 0 in
  (pd_base <> 0 /\ Z.testbit (mmio hw_board (pd_base + L2_PWR_STATUS)) 9 = false) /\
  exists s',
    run (cfg := cfg_250) hw_board boot_cpu (msm_power_on_l2_cache 0x400 1) sw_boot =
      Some (s', 0,
        [OfIomap 0x400 0; ReadlRelaxed (pd_base + L2_PWR_STATUS);
         WritelRelaxed 0x10D700 (pd_base + L2_PWR_CTL);
         WritelRelaxed 0x400000 (pd_base + L2_PWR_CTL_OVERRIDE); Mb; Udelay 2;
         WritelRelaxed 0x101700 (pd_base + L2_PWR_CTL);
         WritelRelaxed 0x101703 (pd_base + L2_PWR_CTL); Mb; Udelay 2;
         WritelRelaxed 0x01 (pd_base + L2_CORE_CBCR);
         WritelRelaxed 0x101603 (pd_base + L2_PWR_CTL); Mb; Udelay 2;
         WritelRelaxed 0x0 (pd_base + L2_PWR_CTL_OVERRIDE);
         WritelRelaxed 0x100203 (pd_base + L2_PWR_CTL); Mb; Udelay 54;
         WritelRelaxed 0x10100203 (pd_base + L2_PWR_CTL);
         WritelRelaxed 0x03 (pd_base + L2_CORE_CBCR); Mb;
         Iounmap pd_base]) /\
    same_mem sw_boot s' /\
    now s' = now sw_boot + 60 + 18 * insn_us hw_board.
Proof.
  intros pd_base.
  assert (pd_base <> 0 /\
          Z.testbit (mmio hw_board (pd_base + L2_PWR_STATUS)) 9 = false) as H
    by (split; by vm_compute).
  split; [exact H|]. destruct H as [H1 H2].
  exact (l2_power_on_cold_sequence (cfg := cfg_250) hw_board boot_cpu 0x400 1 sw_boot
           H1 H2).
Defined.

(** ** The handshake with the clock *)

Section Timing.
Context {cfg : Kconfig}.
Variables (hw : Hw) (arrival : option Z).

Lemma trace_us_app l1 l2 :
  trace_us hw (l1 ++ l2) = trace_us hw l1 + trace_us hw l2.
Proof. induction l1 as [|p l1 IH]; simpl; lia. Qed.

Lemma run2_now {A : Type} (m : prog A) :
  forall d d' a tr,
    run2 hw arrival m d = Some (d', a, tr) ->
    now (fst d') = now (fst d) + trace_us hw (boot_cpu_events tr).
Proof.
  induction m as [a0 | p k IH |]; intros d d' a tr Hrun.
  - unfold run2 in Hrun. simpl in Hrun. injection Hrun as <- <- <-. simpl. lia.
  - rewrite run2_act in Hrun.
    destruct (sync hw arrival d) as [[s1 sec1] ev] eqn:Hsync.
    destruct d as [s sec].
    destruct (sync_spec hw arrival (fun _ => True) s sec s1 sec1 ev
                (prog_all_true sec) Hsync) as (_ & _ & Hnow & _).
    pose proof (sync_hidden _ _ _ _ _ _ Hsync) as Hev.
    cbn [fst snd] in Hrun.
    destruct (handle hw boot_cpu p s1) as [[s2 r]|] eqn:Hh; [|done].
    destruct (run2 hw arrival (k r) (elapse hw p s2, sec1)) as [[[d2 a2] tr2]|] eqn:Hk;
      [|done].
    injection Hrun as <- <- <-.
    apply IH in Hk. rewrite Hk. simpl.
    rewrite (handle_now _ _ _ _ _ _ Hh), Hnow.
    rewrite !boot_cpu_events_app, Hev. simpl. lia.
  - done.
Qed.

Lemma sync_free s sec tl :
  boot_lock s = None ->
  pen_waiting arrival tl sec \/ pen_early arrival tl sec ->
  tl <= now s ->
  exists s1 sec1 ev,
    sync hw arrival (s, sec) = (s1, sec1, ev) /\
    (pen_waiting arrival (now s) sec1 \/ pen_early arrival (now s) sec1) /\
    boot_lock s1 = None /\ now s1 = now s /\
    cold_boot_done s1 = cold_boot_done s /\ initialized s1 = initialized s.
Proof.
  intros Hfree Hpre Htl. unfold sync. simpl.
  destruct Hpre as [[-> Hnot] | [Hsec (ta & -> & Hta)]].
  - destruct arrival as [ta|]; simpl.
    + destruct (Z.leb_spec ta (now s)) as [Hle | Hgt].
      * rewrite (postboot_ready_free hw woken_cpu s Hfree).
        do 3 eexists. split; [reflexivity|]. split; [|done].
        right. split; [by left|]. by exists ta.
      * do 3 eexists. split; [reflexivity|]. split; [|done].
        left. split; [done|]. intros ? [= <-]. lia.
    + do 3 eexists. split; [reflexivity|]. split; [|done].
      left. by split.
  - simpl. assert (pen_early (Some ta) (now s) (Ret tt)) as Hearly.
    { split; [by left|]. exists ta. split; [done|lia]. }
    assert (pen_early (Some ta) (now s) sec) as Hearly'.
    { split; [done|]. exists ta. split; [done|lia]. }
    destruct (ta <=? now s); destruct Hsec as [-> | ->];
      rewrite ?run_ready_ret, ?(postboot_wait_free hw woken_cpu s Hfree);
      do 3 eexists; (split; [reflexivity|]); (split; [by right|done]).
Qed.


Lemma poll_rounds_last l (a b c : prim) :
  poll_rounds l -> last (a :: b :: c :: l) = last l.
Proof. by destruct 1. Qed.

(** The polling loop with the clock: besides what [poll_run2] gives, when
    it comes out, and on what: after a read of the word only if the read
    gave the sentinel, after a read of the clock only if the deadline has
    passed. *)
Lemma poll_run2_time hwid t_pub t_to :
  0 < HZ < 2 ^ 31 -> 0 <= insn_us hw <= 1000000 ->
  forall fuel s sec tl,
    boot_lock s = Some boot_cpu ->
    handshake_mode arrival hwid t_pub tl (s, sec) ->
    t_pub <= tl <= now s ->
    t_to <= now s <= t_to + 1000000 + 2 * insn_us hw + 10 ->
    t_to + 1000000 - now s <= 10 * (Z.of_nat fuel - 1) ->
    (1 <= fuel)%nat ->
    exists s' sec' tr,
      run2 hw arrival (pen_poll fuel (wrap64 (jiffies_at hw t_to + 1 * HZ))) (s, sec)
        = Some (s', sec', tt, tr) /\
      boot_lock s' = Some boot_cpu /\
      handshake_mode arrival hwid t_pub (now s' - insn_us hw) (s', sec') /\
      now s <= now s' - insn_us hw /\
      (pen s' <> INVALID_HWID ->
       HZ <= ticks (now s' - insn_us hw) - ticks t_to) /\
      poll_rounds (boot_cpu_events tr) /\
      now s' - insn_us hw <= Z.max (now s) (t_to + 1000000 + 2 * insn_us hw + 9) /\
      (forall ta, arrival = Some ta -> t_pub < ta ->
         now s' - insn_us hw <= Z.max (now s + insn_us hw) (ta + 2 * insn_us hw + 9)) /\
      (hwid = INVALID_HWID -> now s' - insn_us hw <= now s + insn_us hw) /\
      (last (boot_cpu_events tr) = Some PenLoad -> pen s' = INVALID_HWID) /\
      (last (boot_cpu_events tr) = Some Jiffies ->
       HZ <= ticks (now s' - insn_us hw) - ticks t_to).
Proof.
  intros HHZ Hi fuel.
  induction fuel as [|fuel IH]; intros s sec tl Hheld Hmode Htl Hnow Hfuel Hpos; [lia|].
  cbn [pen_poll]. rewrite run2_bind, run2_call.
  destruct (sync_mode hw arrival hwid t_pub tl s sec boot_cpu Hheld Hmode Htl)
    as (s1 & sec1 & ev1 & Hsync1 & Hmode1 & Hheld1 & Hnow1).
  pose proof (sync_hidden _ _ _ _ _ _ Hsync1) as Hev1.
  rewrite Hsync1. cbn [fst snd handle]. rewrite Hnow1.
  rewrite (time_before_ticks hw t_to (now s) HHZ) by lia.
  destruct (Z.ltb_spec (ticks (now s) - ticks t_to) HZ) as [Hin | Hout].
  - (* before the deadline: read the word *)
    assert (now s < t_to + 1000000) as Hearly.
    { destruct (Z.lt_ge_cases (now s) (t_to + 1000000)) as [?|Hge]; [done|].
      assert (0 <= HZ) as HHZ0 by lia.
      pose proof (ticks_mono _ _ HHZ0 Hge) as Hm.
      rewrite ticks_second in Hm. lia. }
    rewrite run2_bind, run2_call.
    destruct (sync_mode hw arrival hwid t_pub (now s) (elapse hw Jiffies s1) sec1 boot_cpu
                Hheld1 (mode_elapse hw arrival _ _ _ _ _ _ Hmode1))
      as (s2 & sec2 & ev2 & Hsync2 & Hmode2 & Hheld2 & Hnow2); [simpl; lia|].
    pose proof (sync_hidden _ _ _ _ _ _ Hsync2) as Hev2.
    rewrite Hsync2. cbn [fst snd handle].
    simpl in Hnow2, Hmode2. rewrite Hnow1 in Hnow2, Hmode2.
    destruct (pen s2 =? INVALID_HWID) eqn:Hpen.
    + (* the sentinel: leave the loop *)
      apply Z.eqb_eq in Hpen.
      do 3 eexists. split; [unfold run2; simpl; reflexivity|].
      simpl. rewrite Hnow2.
      replace (now s + insn_us hw + insn_us hw - insn_us hw)
        with (now s + insn_us hw) by lia.
      split; [done|]. split; [exact Hmode2|]. split; [lia|]. split; [done|].
      rewrite !boot_cpu_events_app, Hev1, Hev2. simpl.
      split; [constructor|].
      split; [lia|]. split; [intros; lia|]. split; [intros; lia|].
      split; [by intros _ | by intros [=]].
    + (* the hardware id still: wait and poll again *)
      apply Z.eqb_neq in Hpen.
      assert (hwid <> INVALID_HWID /\
              forall ta, arrival = Some ta -> t_pub < ta -> now s + insn_us hw < ta)
        as [Hhwid Hlate].
      { destruct Hmode2 as [(Hp & _) | [(Hp & _ & Hnot) | (Hp & _ & ta0 & Ha & Hta0)]];
          simpl in Hp.
        - done.
        - split; [congruence|]. intros ta Ha _. exact (Hnot ta Ha).
        - split; [congruence|]. intros ta Ha' Hpub. rewrite Ha in Ha'.
          injection Ha' as <-. lia. }
      rewrite run2_bind, run2_exec.
      destruct (sync_mode hw arrival hwid t_pub (now s + insn_us hw)
                  (elapse hw PenLoad s2) sec2
                  boot_cpu Hheld2 (mode_elapse hw arrival _ _ _ _ _ _ Hmode2))
        as (s3 & sec3 & ev3 & Hsync3 & Hmode3 & Hheld3 & Hnow3); [simpl; lia|].
      pose proof (sync_hidden _ _ _ _ _ _ Hsync3) as Hev3.
      rewrite Hsync3. cbn [fst snd handle].
      simpl in Hnow3, Hmode3. rewrite Hnow2 in Hnow3, Hmode3.
      destruct (IH (elapse hw (Udelay 10) s3) sec3 (now s + insn_us hw + insn_us hw))
        as (s' & sec' & tr & Hrun & Hheld' & Hmode' & Hnow' & Hdead & Hrounds
            & Hup & Hlat & _ & Hexit & Hdl);
        try done; try (simpl; lia).
      rewrite Hrun.
      do 3 eexists. split; [reflexivity|].
      split; [done|]. split; [done|]. split; [simpl in Hnow'; lia|].
      split; [done|].
      rewrite !boot_cpu_events_app, Hev1, Hev2, Hev3. simpl app.
      rewrite (poll_rounds_last _ Jiffies PenLoad (Udelay 10) Hrounds).
      split; [by constructor|].
      simpl in Hup, Hlat. rewrite Hnow3 in Hup, Hlat.
      split; [lia|]. split; [|split; [done|by split]].
      intros ta Ha Hpub. specialize (Hlat ta Ha Hpub).
      specialize (Hlate ta Ha Hpub). lia.
  - (* the deadline has passed *)
    do 3 eexists. split; [unfold run2; simpl; reflexivity|].
    simpl. rewrite Hnow1.
    replace (now s + insn_us hw - insn_us hw) with (now s) by lia.
    split; [done|]. split; [exact Hmode1|]. split; [lia|]. split; [intros _; lia|].
    rewrite !boot_cpu_events_app, Hev1. simpl.
    split; [constructor|].
    split; [lia|]. split; [intros; lia|]. split; [intros; lia|].
    split; [by intros [=] | intros _; lia].
Qed.


(** The whole of [secondary_pen_release], entered with the lock free
    against a secondary core that is still in the pen or left it before
    the call: what [handshake_run2] gives, and when the call returns. *)
Lemma handshake_run2_time fuel cpu s sec tl :
  0 < HZ < 2 ^ 31 -> 0 <= insn_us hw <= 1000000 ->
  boot_lock s = None -> 100001 <= Z.of_nat fuel ->
  pen_waiting arrival tl sec \/ pen_early arrival tl sec -> tl <= now s ->
  exists s' sec' r tr polls,
    run2 hw arrival (secondary_pen_release fuel cpu) (s, sec)
      = Some (s', sec', r, tr) /\
    boot_cpu_events tr =
      [RawSpinLock; CpuLogicalMap cpu; PenStore (wrap64 (logical_map hw cpu));
       SmpWmb; FlushDcacheArea secondary_holding_pen_release_sym 8; Sev; Jiffies]
      ++ polls ++ [RawSpinUnlock; PenLoad] /\
    poll_rounds polls /\
    r = (if pen s' =? INVALID_HWID then 0 else - ENOSYS) /\
    (wrap64 (logical_map hw cpu) <> INVALID_HWID ->
     (pen s' = INVALID_HWID <->
      exists ta, arrival = Some ta /\
        now s + 2 * insn_us hw < ta <= now s' - insn_us hw)) /\
    (pen s' <> INVALID_HWID ->
     HZ <= ticks (now s' - 3 * insn_us hw) - ticks (now s + 6 * insn_us hw)) /\
    boot_lock s' = None /\
    (pen s' = INVALID_HWID \/ pen s' = wrap64 (logical_map hw cpu)) /\
    now s' <= now s + 1000000 + 11 * insn_us hw + 9 /\
    (forall ta, arrival = Some ta -> now s + 2 * insn_us hw < ta ->
       now s' <= Z.max (now s + 11 * insn_us hw) (ta + 5 * insn_us hw + 9)) /\
    (wrap64 (logical_map hw cpu) = INVALID_HWID ->
     now s' <= now s + 11 * insn_us hw) /\
    (last polls = Some PenLoad -> pen s' = INVALID_HWID) /\
    (last polls = Some Jiffies ->
     HZ <= ticks (now s' - 3 * insn_us hw) - ticks (now s + 6 * insn_us hw)).
Proof.
  intros HHZ Hi Hfree Hfuel Hpre Htl.
  set (hwid := wrap64 (logical_map hw cpu)) in *.
  set (i := insn_us hw) in *.
  unfold secondary_pen_release.
  (* raw_spin_lock *)
  rewrite run2_bind, run2_exec.
  destruct (sync_free s sec tl Hfree Hpre Htl)
    as (s1 & sec1 & ev1 & Hsync1 & Hpre1 & Hfree1 & Hnow1 & _).
  pose proof (sync_hidden _ _ _ _ _ _ Hsync1) as Hev1.
  rewrite Hsync1. cbn [fst snd handle]. rewrite Hfree1.
  (* cpu_logical_map *)
  rewrite run2_bind, run2_call.
  destruct (sync_before_publish hw arrival
              (elapse hw RawSpinLock (set_boot_lock (Some boot_cpu) s1)) sec1
              (now s) boot_cpu eq_refl Hpre1)
    as (s2 & sec2 & ev2 & Hsync2 & Hpre2 & Hheld2 & Hnow2); [simpl; lia|].
  pose proof (sync_hidden _ _ _ _ _ _ Hsync2) as Hev2.
  rewrite Hsync2. cbn [fst snd handle]. fold hwid.
  simpl in Hnow2, Hpre2. rewrite Hnow1 in Hnow2, Hpre2. fold i in Hnow2, Hpre2.
  (* the store of the hardware id *)
  unfold write_pen_release. rewrite run2_bind, run2_bind, run2_exec.
  destruct (sync_before_publish hw arrival (elapse hw (CpuLogicalMap cpu) s2) sec2
              (now s + i) boot_cpu Hheld2 Hpre2)
    as (s3 & sec3 & ev3 & Hsync3 & Hpre3 & Hheld3 & Hnow3); [simpl; lia|].
  pose proof (sync_hidden _ _ _ _ _ _ Hsync3) as Hev3.
  rewrite Hsync3. cbn [fst snd handle].
  simpl in Hnow3, Hpre3. rewrite Hnow2 in Hnow3, Hpre3. fold i in Hnow3, Hpre3.
  set (t_pub := now s + i + i) in *.
  assert (handshake_mode arrival hwid t_pub t_pub
            (elapse hw (PenStore hwid) (set_pen hwid s3), sec3)) as Hmode3.
  { destruct Hpre3 as [Hw | He]; [right; left | right; right]; by split. }
  (* smp_wmb *)
  rewrite run2_bind, run2_exec.
  destruct (sync_mode hw arrival hwid t_pub t_pub _ sec3 boot_cpu
              (Hheld3 : boot_lock (elapse hw (PenStore hwid) (set_pen hwid s3)) = _)
              Hmode3)
    as (s4 & sec4 & ev4 & Hsync4 & Hmode4 & Hheld4 & Hnow4); [simpl; lia|].
  pose proof (sync_hidden _ _ _ _ _ _ Hsync4) as Hev4.
  rewrite Hsync4. cbn [fst snd handle].
  simpl in Hnow4, Hmode4. rewrite Hnow3 in Hnow4, Hmode4. fold i in Hnow4, Hmode4.
  (* __flush_dcache_area *)
  rewrite run2_exec.
  destruct (sync_mode hw arrival hwid t_pub _ _ sec4 boot_cpu
              (Hheld4 : boot_lock (elapse hw SmpWmb s4) = _)
              (mode_elapse hw arrival _ _ _ SmpWmb _ _ Hmode4))
    as (s5 & sec5 & ev5 & Hsync5 & Hmode5 & Hheld5 & Hnow5); [simpl; lia|].
  pose proof (sync_hidden _ _ _ _ _ _ Hsync5) as Hev5.
  rewrite Hsync5. cbn [fst snd handle].
  simpl in Hnow5, Hmode5. rewrite Hnow4 in Hnow5, Hmode5. fold i in Hnow5, Hmode5.
  (* sev *)
  rewrite run2_bind, run2_exec.
  destruct (sync_mode hw arrival hwid t_pub _ _ sec5 boot_cpu
              (Hheld5 : boot_lock (elapse hw (FlushDcacheArea _ _) s5) = _)
              (mode_elapse hw arrival _ _ _
                 (FlushDcacheArea secondary_holding_pen_release_sym 8)
                 _ _ Hmode5))
    as (s6 & sec6 & ev6 & Hsync6 & Hmode6 & Hheld6 & Hnow6); [simpl; lia|].
  pose proof (sync_hidden _ _ _ _ _ _ Hsync6) as Hev6.
  rewrite Hsync6. cbn [fst snd handle].
  simpl in Hnow6, Hmode6. rewrite Hnow5 in Hnow6, Hmode6. fold i in Hnow6, Hmode6.
  (* timeout = jiffies + HZ *)
  rewrite run2_bind, run2_call.
  destruct (sync_mode hw arrival hwid t_pub _ _ sec6 boot_cpu
              (Hheld6 : boot_lock (elapse hw Sev s6) = _)
              (mode_elapse hw arrival _ _ _ Sev _ _ Hmode6))
    as (s7 & sec7 & ev7 & Hsync7 & Hmode7 & Hheld7 & Hnow7); [simpl; lia|].
  pose proof (sync_hidden _ _ _ _ _ _ Hsync7) as Hev7.
  rewrite Hsync7. cbn [fst snd handle].
  simpl in Hnow7, Hmode7. rewrite Hnow6 in Hnow7, Hmode7. fold i in Hnow7, Hmode7.
  (* the polling loop *)
  rewrite run2_bind.
  assert (now (elapse hw Jiffies s7) = now s7 + i) as Hnow7' by done.
  destruct (poll_run2_time hwid t_pub (now s7) HHZ Hi fuel (elapse hw Jiffies s7) sec7
              (t_pub + i + i + i + i))
    as (s8 & sec8 & tr8 & Hrun8 & Hheld8 & Hmode8 & Hnow8 & Hdead8 & Hrounds8
        & Hup8 & Hlat8 & Hinv8 & Hexit8 & Hdl8).
  { exact Hheld7. }
  { by apply mode_elapse. }
  { rewrite Hnow7', Hnow7. lia. }
  { rewrite Hnow7'. fold i. lia. }
  { rewrite Hnow7'. lia. }
  { lia. }
  rewrite Hrun8. rewrite Hnow7' in Hnow8, Hup8, Hlat8, Hinv8.
  fold i in Hnow8, Hmode8, Hdead8, Hup8, Hlat8, Hinv8, Hdl8.
  (* raw_spin_unlock *)
  rewrite run2_bind, run2_exec.
  pose proof (sync_mode_pen hw arrival hwid t_pub (now s8 - i) s8 sec8 boot_cpu
                Hheld8 Hmode8) as Hkept9.
  destruct (sync_mode hw arrival hwid t_pub (now s8 - i) s8 sec8 boot_cpu Hheld8 Hmode8)
    as (s9 & sec9 & ev9 & Hsync9 & Hmode9 & Hheld9 & Hnow9); [lia|].
  pose proof (sync_hidden _ _ _ _ _ _ Hsync9) as Hev9.
  rewrite Hsync9 in Hkept9 |- *. cbn [fst snd handle] in Hkept9 |- *.
  (* the value returned: the word read once more *)
  rewrite run2_bind, run2_call.
  destruct (sync_after_unlock hw arrival hwid t_pub (now s8)
              (elapse hw RawSpinUnlock (set_boot_lock None s9)) sec9 eq_refl Hmode9)
    as (s10 & sec10 & ev10 & Hsync10 & Hnow10 & Hfree10 & Hkept10 & Hiff10);
    [simpl; fold i; lia|].
  pose proof (sync_hidden _ _ _ _ _ _ Hsync10) as Hev10.
  rewrite Hsync10. cbn [fst snd handle].
  simpl in Hnow10, Hiff10, Hkept10.
  rewrite Hnow9 in Hnow10, Hiff10. fold i in Hnow10, Hiff10.
  exists (elapse hw PenLoad s10), sec10,
    (if pen s10 =? INVALID_HWID then 0 else - ENOSYS).
  eexists. exists (boot_cpu_events tr8).
  split; [unfold run2; simpl; reflexivity|].
  split.
  { rewrite !boot_cpu_events_app, Hev1, Hev2, Hev3, Hev4, Hev5, Hev6, Hev7,
      Hev9, Hev10. reflexivity. }
  split; [exact Hrounds8|]. split; [reflexivity|].
  simpl. fold i. rewrite Hnow10.
  assert (pen s9 = INVALID_HWID \/ pen s9 = hwid) as Hpen9.
  { destruct Hmode9 as [(Hp & _) | [(Hp & _) | (Hp & _)]]; simpl in Hp; auto. }
  split; [|split; [|split; [exact Hfree10|]]].
  - intros Hhwid. rewrite (Hiff10 Hhwid).
    split; intros (ta & Ha & Hta); exists ta; (split; [done|]);
      unfold t_pub in *; lia.
  - intros Hne.
    assert (pen s8 <> INVALID_HWID) as Hne8.
    { intros Hcl. destruct Hkept10 as [E10 | E10]; [|done].
      rewrite E10 in Hne. destruct Hkept9 as [E9 | E9]; [|done].
      rewrite E9 in Hne. done. }
    specialize (Hdead8 Hne8).
    replace (now s8 + i + i - 3 * i) with (now s8 - i) by lia.
    replace (now s + 6 * i) with (now s7) by (rewrite Hnow7; unfold t_pub; lia).
    exact Hdead8.
  - split.
    { destruct Hkept10 as [E10 | E10]; [|by left]. rewrite E10. exact Hpen9. }
    split; [rewrite Hnow7 in Hup8; unfold t_pub in *; lia|].
    split.
    { intros ta Ha Hpub. specialize (Hlat8 ta Ha).
      rewrite Hnow7 in Hlat8. unfold t_pub in *. lia. }
    split.
    { intros Hinv. specialize (Hinv8 Hinv). rewrite Hnow7 in Hinv8.
      unfold t_pub in *. lia. }
    split.
    { intros Hl. specialize (Hexit8 Hl).
      destruct Hkept10 as [E10 | E10]; [|done]. rewrite E10.
      destruct Hkept9 as [E9 | E9]; [|done]. by rewrite E9. }
    intros Hl. specialize (Hdl8 Hl).
    replace (now s8 + i + i - 3 * i) with (now s8 - i) by lia.
    replace (now s + 6 * i) with (now s7) by (rewrite Hnow7; unfold t_pub; lia).
    exact Hdl8.
Qed.

End Timing.

(** ** A whole boot against a secondary core *)

Section BootPath.
Context {cfg : Kconfig}.
Variables (hw : Hw) (arrival : option Z).

Lemma handle_calm_lock tid p s s' r :
  calm_prim p = true -> handle hw tid p s = Some (s', r) ->
  boot_lock s' = boot_lock s.
Proof. destruct p; try done; simpl; by intros _ [= <- _]. Qed.

Lemma run2_steady {A : Type} (m : prog A) :
  prog_all (fun p => calm_prim p = true /\ 0 <= prim_us hw p) m ->
  forall s sec tl d' a tr,
    boot_lock s = None ->
    pen_waiting arrival tl sec \/ pen_early arrival tl sec -> tl <= now s ->
    run2 hw arrival m (s, sec) = Some (d', a, tr) ->
    boot_lock (fst d') = None /\
    exists tl', (pen_waiting arrival tl' (snd d') \/ pen_early arrival tl' (snd d')) /\
                tl' <= now (fst d').
Proof.
  induction 1 as [a0 | | p k [Hp Hus] Hk IH]; intros s sec tl d' a tr Hfree Hpre Htl Hrun.
  - unfold run2 in Hrun. simpl in Hrun. injection Hrun as <- <- <-.
    split; [done|]. by exists tl.
  - done.
  - rewrite run2_act in Hrun.
    destruct (sync_free hw arrival s sec tl Hfree Hpre Htl)
      as (s1 & sec1 & ev1 & Hsync & Hpre1 & Hfree1 & Hnow1 & _).
    rewrite Hsync in Hrun. cbn [fst snd] in Hrun.
    destruct (handle hw boot_cpu p s1) as [[s2 r]|] eqn:Hh; [|done].
    destruct (run2 hw arrival (k r) (elapse hw p s2, sec1)) as [[[d2 a2] tr2]|] eqn:Hrun2;
      [|done].
    injection Hrun as <- <- <-.
    apply (IH r (elapse hw p s2) sec1 (now s) d2 a2 tr2); try done.
    + simpl. by rewrite (handle_calm_lock _ _ _ _ _ Hp Hh).
    + simpl. rewrite (handle_now _ _ _ _ _ _ Hh). lia.
Qed.

Lemma pre_mode_pen_prim sec tl :
  pen_waiting arrival tl sec \/ pen_early arrival tl sec ->
  prog_all (fun p => pen_prim p = true) sec.
Proof.
  intros [[-> _] | [[-> | ->] _]].
  - apply postboot_all.
  - constructor.
  - unfold postboot_wait. prog_all_walk.
Qed.

Lemma unclamp_steady cpu :
  0 <= insn_us hw ->
  prog_all (fun p => calm_prim p = true /\ 0 <= prim_us hw p)
           (msm_unclamp_secondary_arm_cpu cpu).
Proof.
  intros Hi. unfold msm_unclamp_secondary_arm_cpu, msm_power_on_l2_cache.
  repeat first
    [ apply prog_all_ret
    | apply prog_all_act; [split; [reflexivity | simpl; lia] | intros ?]
    | match goal with
      | |- prog_all _ (if ?c then _ else _) => destruct c
      | |- context [if ?c then _ else _] => destruct c
      end
    | progress simpl ].
Qed.


Lemma unclamp_calm cpu :
  prog_all (fun p => calm_prim p = true) (msm_unclamp_secondary_arm_cpu cpu).
Proof.
  apply (prog_all_impl (fun p => hw_prim p = true)); [|apply unclamp_all].
  intros p Hp. unfold calm_prim. by rewrite Hp.
Qed.

Lemma wake_run2 fuel cpu s sec tl :
  0 < HZ < 2 ^ 31 -> 0 <= insn_us hw <= 1000000 ->
  boot_lock s = None -> 100001 <= Z.of_nat fuel ->
  pen_waiting arrival tl sec \/ pen_early arrival tl sec -> tl <= now s ->
  exists d r tr,
    run2 hw arrival (secondary_pen_release fuel cpu) (s, sec) = Some (d, r, tr) /\
    boot_lock (fst d) = None /\
    cold_boot_done (fst d) = cold_boot_done s /\
    wake_outcome hw arrival cpu r (boot_cpu_events tr) /\
    wake_succeeds hw arrival cpu (now s) r (fst d).
Proof.
  intros HHZ Hi Hfree Hfuel Hpre Htl.
  destruct (handshake_run2_time hw arrival fuel cpu s sec tl HHZ Hi Hfree Hfuel Hpre Htl)
    as (s' & sec' & r & tr & polls & Hrun & Hev & _ & Hr & Hiff & Hdead & Hfree'
        & _ & _ & Hlat & _).
  exists (s', sec'), r, tr. split; [exact Hrun|]. split; [exact Hfree'|].
  destruct (pen_release_run2 hw arrival fuel cpu s sec (s', sec') r tr
              (pre_mode_pen_prim sec tl Hpre) Hrun) as (_ & Hflags & Hall).
  split; [exact Hflags|]. split.
  - split; [by rewrite Hev|]. split; [exact Hall|]. split.
    + rewrite Hr. destruct (pen s' =? INVALID_HWID); auto.
    + intros Hnone Hhwid. rewrite Hr.
      destruct (pen s' =? INVALID_HWID) eqn:E; [|done].
      apply Z.eqb_eq in E. apply (Hiff Hhwid) in E as (ta & Ha & _). congruence.
  - intros ta Ha Hhwid Hpub Hbefore. simpl.
    specialize (Hiff Hhwid). specialize (Hlat ta Ha Hpub).
    assert (pen s' = INVALID_HWID) as Hcl.
    { destruct (Z.eq_dec (pen s') INVALID_HWID) as [?|Hne]; [done|].
      specialize (Hdead Hne). apply Hiff. exists ta. split; [done|].
      split; [exact Hpub|].
      destruct (Z.le_gt_cases ta (now s' - insn_us hw)) as [?|Hgt]; [done|].
      assert (0 <= HZ) as HHZ0 by lia.
      pose proof (ticks_mono (now s' - 3 * insn_us hw) ta HHZ0 ltac:(lia)). lia. }
    split; [by rewrite Hr, Hcl|]. split; [exact Hcl|exact Hlat].
Qed.

Lemma in_the_pen s :
  exists tl, pen_waiting arrival tl msm_cpu_postboot /\ tl <= now s.
Proof.
  destruct arrival as [ta|].
  - exists (Z.min (now s) (ta - 1)). split; [|lia].
    split; [done|]. intros ? [= <-]. lia.
  - exists (now s). split; [|lia]. by split.
Qed.

(** [msm_cpu_boot] on the boot CPU against a secondary core still in the
    pen: the three ways it goes. *)
Lemma unclamp_run_us tid cpu s :
  exists s' tr,
    run hw tid (msm_unclamp_secondary_arm_cpu cpu) s
      = Some (s', unclamp_status hw cpu, tr) /\
    (unclamp_status hw cpu = 0 -> trace_us hw tr = power_on_us hw cpu).
Proof.
  unfold unclamp_status, power_on_us, l2_sequence_runs,
    msm_unclamp_secondary_arm_cpu, msm_power_on_l2_cache, run.
  simpl.
  repeat match goal with
  | |- context [?c =? 0] => destruct (c =? 0) eqn:?; simpl
  end.
  all: do 2 eexists; (split; [reflexivity|]); try done.
  all: intros _; simpl; lia.
Qed.

Lemma boot_run2_total fuel cpu s :
  0 < HZ < 2 ^ 31 -> 0 <= insn_us hw <= 1000000 ->
  boot_lock s = None -> 100001 <= Z.of_nat fuel ->
  exists d r tr,
    run2 hw arrival (msm_cpu_boot fuel cpu) (s, msm_cpu_postboot) = Some (d, r, tr) /\
    boot_lock (fst d) = None /\
    ((per_cpu_cold_boot_done s cpu <> 0 /\
      cold_boot_done (fst d) = cold_boot_done s /\
      wake_succeeds hw arrival cpu (now s + boot_prelude_us hw s cpu) r (fst d) /\
      exists hs, boot_cpu_events tr = ColdBootDoneLoad cpu :: hs /\
                 wake_outcome hw arrival cpu r hs)
     \/
     (per_cpu_cold_boot_done s cpu = 0 /\ unclamp_status hw cpu <> 0 /\
      r = unclamp_status hw cpu /\
      cold_boot_done (fst d) = cold_boot_done s /\
      exists s0 s1 pw,
        run hw boot_cpu (msm_unclamp_secondary_arm_cpu cpu) s0 = Some (s1, r, pw) /\
        boot_cpu_events tr = ColdBootDoneLoad cpu :: pw)
     \/
     (per_cpu_cold_boot_done s cpu = 0 /\ unclamp_status hw cpu = 0 /\
      cold_boot_done (fst d) = <[cpu := 1]> (cold_boot_done s) /\
      wake_succeeds hw arrival cpu (now s + boot_prelude_us hw s cpu) r (fst d) /\
      exists s0 s1 pw hs,
        run hw boot_cpu (msm_unclamp_secondary_arm_cpu cpu) s0 = Some (s1, 0, pw) /\
        boot_cpu_events tr =
          ColdBootDoneLoad cpu :: pw ++ ColdBootDoneStore cpu 1 :: hs /\
        wake_outcome hw arrival cpu r hs)).
Proof.
  intros HHZ Hi Hfree Hfuel.
  destruct (in_the_pen s) as (tl0 & Hpre0 & Htl0).
  destruct (unclamp_run hw boot_cpu cpu (elapse hw (ColdBootDoneLoad cpu) s))
    as (su & pw & Hrunu & (_ & _ & Hflu & _) & _).
  simpl in Hflu.
  assert (unclamp_status hw cpu = 0 -> trace_us hw pw = power_on_us hw cpu) as Hus.
  { destruct (unclamp_run_us boot_cpu cpu (elapse hw (ColdBootDoneLoad cpu) s))
      as (su' & pw' & Hrunu' & Hus).
    rewrite Hrunu in Hrunu'. by injection Hrunu' as _ <-. }
  unfold msm_cpu_boot. rewrite run2_bind, run2_call.
  destruct (sync_free hw arrival s msm_cpu_postboot tl0 Hfree (or_introl Hpre0) Htl0)
    as (s1 & sec1 & ev1 & Hsync1 & Hpre1 & Hfree1 & Hnow1 & Hfl1 & Hin1).
  pose proof (sync_hidden _ _ _ _ _ _ Hsync1) as Hev1.
  rewrite Hsync1. cbn [fst snd handle].
  rewrite (per_cpu_same s s1 cpu Hfl1).
  destruct (per_cpu_cold_boot_done s cpu =? 0) eqn:Hflag.
  - (* a cold boot *)
    apply Z.eqb_eq in Hflag.
    rewrite run2_bind.
    destruct (run2_calm hw arrival boot_cpu _ (unclamp_calm cpu)
                (elapse hw (ColdBootDoneLoad cpu) s) su (unclamp_status hw cpu) pw
                (elapse hw (ColdBootDoneLoad cpu) s1) sec1
                (pre_mode_pen_prim sec1 (now s) Hpre1) Hfl1 Hin1 Hrunu)
      as ([s2 sec2] & tr2 & Hrun2 & Hev2 & Hfl2 & _ & _).
    rewrite Hrun2.
    destruct (run2_steady _ (unclamp_steady cpu (proj1 Hi))
                (elapse hw (ColdBootDoneLoad cpu) s1) sec1 (now s) (s2, sec2) _ tr2
                Hfree1 Hpre1 ltac:(simpl; lia) Hrun2)
      as (Hfree2 & tl2 & Hpre2 & Htl2).
    simpl in Hfree2, Hpre2, Htl2, Hfl2.
    destruct (unclamp_status hw cpu =? 0) eqn:Hst; cbn [negb].
    + (* powered on: mark the core, then wake it *)
      apply Z.eqb_eq in Hst.
      rewrite run2_bind, run2_exec.
      destruct (sync_free hw arrival s2 sec2 tl2 Hfree2 Hpre2 Htl2)
        as (s3 & sec3 & ev3 & Hsync3 & Hpre3 & Hfree3 & Hnow3 & Hfl3 & _).
      pose proof (sync_hidden _ _ _ _ _ _ Hsync3) as Hev3.
      rewrite Hsync3. cbn [fst snd handle].
      destruct (wake_run2 fuel cpu
                  (elapse hw (ColdBootDoneStore cpu 1)
                     (set_cold_boot_done (<[cpu := 1]> (cold_boot_done s3)) s3))
                  sec3 (now s2) HHZ Hi Hfree3 Hfuel Hpre3 ltac:(simpl; lia))
        as (d & r & tr & Hrun & Hfree' & Hfl' & Hout & Hok).
      rewrite Hrun. exists d, r. eexists. split; [reflexivity|].
      split; [exact Hfree'|]. right; right.
      split; [exact Hflag|]. split; [exact Hst|]. split.
      { rewrite Hfl'. simpl. by rewrite Hfl3, Hfl2, Hflu. }
      split.
      { pose proof (run2_now hw arrival _ _ _ _ _ Hrun2) as Hnow2.
        simpl in Hnow2. rewrite Hev2, Hnow1, (Hus Hst) in Hnow2.
        unfold boot_prelude_us. rewrite Hflag. change (0 =? 0) with true. cbv iota.
        simpl in Hok. rewrite Hnow3, Hnow2 in Hok.
        replace (now s + (2 * insn_us hw + power_on_us hw cpu))
          with (now s + insn_us hw + power_on_us hw cpu + insn_us hw) by lia.
        exact Hok. }
      exists (elapse hw (ColdBootDoneLoad cpu) s), su, pw.
      exists (boot_cpu_events tr). rewrite Hst in Hrunu.
      split; [exact Hrunu|]. split; [|exact Hout].
      rewrite !boot_cpu_events_app, Hev1, Hev2, Hev3. reflexivity.
    + (* power-on failed *)
      apply Z.eqb_neq in Hst.
      exists (s2, sec2), (unclamp_status hw cpu). eexists.
      split; [unfold run2; simpl; reflexivity|].
      split; [exact Hfree2|]. right; left.
      split; [exact Hflag|]. split; [exact Hst|]. split; [done|].
      split; [simpl; by rewrite Hfl2, Hflu|].
      exists (elapse hw (ColdBootDoneLoad cpu) s), su, pw.
      split; [exact Hrunu|].
      rewrite !boot_cpu_events_app, Hev1, Hev2. simpl. by rewrite app_nil_r.
  - (* a warm boot *)
    apply Z.eqb_neq in Hflag.
    destruct (wake_run2 fuel cpu (elapse hw (ColdBootDoneLoad cpu) s1) sec1 (now s)
                HHZ Hi Hfree1 Hfuel Hpre1 ltac:(simpl; lia))
      as (d & r & tr & Hrun & Hfree' & Hfl' & Hout & Hok).
    rewrite Hrun. exists d, r. eexists. split; [reflexivity|].
    split; [exact Hfree'|]. left.
    split; [exact Hflag|]. split; [by rewrite Hfl'|].
    split.
    { unfold boot_prelude_us. rewrite (proj2 (Z.eqb_neq _ _) Hflag).
      simpl in Hok. rewrite Hnow1 in Hok. exact Hok. }
    exists (boot_cpu_events tr). split; [|exact Hout].
    by rewrite !boot_cpu_events_app, Hev1.
Qed.

End BootPath.

(** ** How long a wake request takes *)

Section Wake.
Context {cfg : Kconfig}.
Variables (hw : Hw) (arrival : option Z).

Lemma ticks_gap t0 t :
  0 < HZ -> HZ <= ticks t - ticks t0 -> (HZ - 1) * 1000000 < (t - t0) * HZ.
Proof.
  intros HHZ. unfold ticks.
  pose proof (Z.div_mod (t * HZ) 1000000 ltac:(lia)) as E1.
  pose proof (Z.div_mod (t0 * HZ) 1000000 ltac:(lia)) as E0.
  pose proof (Z.mod_pos_bound (t * HZ) 1000000 ltac:(lia)) as B1.
  pose proof (Z.mod_pos_bound (t0 * HZ) 1000000 ltac:(lia)) as B0.
  nia.
Qed.

Lemma poll_rounds_us polls :
  poll_rounds polls ->
  0 <= insn_us hw ->
  (2 * insn_us hw + 10) * Z.of_nat (length (List.filter (is_udelay 10) polls))
    + insn_us hw <= trace_us hw polls /\
  (length (List.filter is_pen_load polls)
     <= S (length (List.filter (is_udelay 10) polls)))%nat.
Proof.
  intros H Hi. induction H as [| | l Hl [IH1 IH2]]; simpl; try lia.
Qed.

Lemma poll_rounds_end polls :
  poll_rounds polls -> last polls = Some Jiffies \/ last polls = Some PenLoad.
Proof.
  induction 1 as [| | l Hl IH]; [by left | by right |].
  by rewrite (poll_rounds_last l Jiffies PenLoad (Udelay 10) Hl).
Qed.

(** C6. For a call that finds [boot_lock] free, made by the boot CPU
    while no other core requests a wake (the one other core is the
    secondary that runs [msm_cpu_postboot] from the instant it leaves the
    pen): [secondary_pen_release] returns, and what the boot CPU issues
    is, in this order: the lock, the store of the core's hardware id to
    the boot-target word, the write barrier, the flush of exactly that
    word (8 bytes at its address), the event signal, the clock read that
    fixes the deadline at one second ([HZ] jiffies) ahead; only then the
    polling rounds, each reading the clock, then the word, then waiting
    10us; then the unlock and the read that decides the status.  The
    polling ends on the values read: it stops after a read of the word
    only if that read gave the sentinel (the word then still holds it at
    the end and the status is 0), and after a read of the clock only if
    the deadline has passed; once the secondary core has cleared the
    word, the very next read of the word ends the polling, so that the
    call is back within one polling wait and five primitives of the
    clear; and if no core ever clears the word the polling ends on the
    deadline.  The time of the call is the time of these primitives. *)
Theorem pen_release_order fuel cpu s :
  0 < HZ < 2 ^ 31 -> 0 <= insn_us hw <= 1000000 ->
  boot_lock s = None -> 100001 <= Z.of_nat fuel ->
  exists s' sec' r tr polls,
    run2 hw arrival (secondary_pen_release fuel cpu) (s, msm_cpu_postboot)
      = Some (s', sec', r, tr) /\
    boot_cpu_events tr =
      [RawSpinLock; CpuLogicalMap cpu; PenStore (wrap64 (logical_map hw cpu));
       SmpWmb; FlushDcacheArea secondary_holding_pen_release_sym 8; Sev; Jiffies]
      ++ polls ++ [RawSpinUnlock; PenLoad] /\
    poll_rounds polls /\
    (pen s' <> INVALID_HWID ->
     HZ <= ticks (now s' - 3 * insn_us hw) - ticks (now s + 6 * insn_us hw)) /\
    (last polls = Some PenLoad -> pen s' = INVALID_HWID /\ r = 0) /\
    (last polls = Some Jiffies ->
     HZ <= ticks (now s' - 3 * insn_us hw) - ticks (now s + 6 * insn_us hw)) /\
    (forall ta, arrival = Some ta -> now s + 2 * insn_us hw < ta ->
       now s' <= Z.max (now s + 11 * insn_us hw) (ta + 5 * insn_us hw + 9)) /\
    (wrap64 (logical_map hw cpu) <> INVALID_HWID -> arrival = None ->
     last polls = Some Jiffies) /\
    now s' = now s + trace_us hw (boot_cpu_events tr).
Proof.
  intros HHZ Hi Hfree Hfuel.
  destruct (in_the_pen arrival s) as (tl & Hpre & Htl).
  destruct (handshake_run2_time hw arrival fuel cpu s msm_cpu_postboot tl
              HHZ Hi Hfree Hfuel (or_introl Hpre) Htl)
    as (s' & sec' & r & tr & polls & Hrun & Hev & Hrounds & Hr & Hiff & Hdead & _
        & _ & _ & Hlat & _ & Hexit & Hdl).
  exists s', sec', r, tr, polls.
  split; [exact Hrun|]. split; [exact Hev|]. split; [exact Hrounds|].
  split; [exact Hdead|]. split.
  { intros Hl. specialize (Hexit Hl). split; [exact Hexit|].
    rewrite Hr, Hexit. reflexivity. }
  split; [exact Hdl|]. split; [exact Hlat|]. split.
  { intros Hhwid Hnone.
    destruct (poll_rounds_end polls Hrounds) as [?|Hl]; [done|].
    apply Hexit, (Hiff Hhwid) in Hl as (ta & Ha & _). congruence. }
  exact (run2_now hw arrival _ _ _ _ _ Hrun).
Qed.

(** X4. For a call that finds [boot_lock] free, made by the boot CPU while no
    other core requests a wake (the kernel boots one core at a time; the
    one other core is the secondary, which runs [msm_cpu_postboot] from
    the instant it leaves the pen):
    [secondary_pen_release] returns with [boot_lock] released, at most
    one second, nine microseconds and eleven primitives after it was
    called (the time of its own primitives: the secondary core costs it
    none).  When it returns 0 the boot-target word holds the sentinel;
    when it reports a timeout the word still holds the hardware id it
    published (the function does not take it back), and this is no
    earlier than one jiffy short of a second after the deadline was
    fixed. *)
Theorem pen_release_duration fuel cpu s :
  0 < HZ < 2 ^ 31 -> 0 <= insn_us hw <= 1000000 ->
  boot_lock s = None -> 100001 <= Z.of_nat fuel ->
  exists s' sec' r tr,
    run2 hw arrival (secondary_pen_release fuel cpu) (s, msm_cpu_postboot)
      = Some (s', sec', r, tr) /\
    boot_lock s' = None /\
    now s' = now s + trace_us hw (boot_cpu_events tr) /\
    now s' <= now s + 1000000 + 11 * insn_us hw + 9 /\
    (r = 0 -> pen s' = INVALID_HWID) /\
    (r = - ENOSYS ->
     pen s' = wrap64 (logical_map hw cpu) /\
     (HZ - 1) * 1000000 < (now s' - now s - 9 * insn_us hw) * HZ).
Proof.
  intros HHZ Hi Hfree Hfuel.
  destruct (in_the_pen arrival s) as (tl & Hpre & Htl).
  destruct (handshake_run2_time hw arrival fuel cpu s msm_cpu_postboot tl
              HHZ Hi Hfree Hfuel (or_introl Hpre) Htl)
    as (s' & sec' & r & tr & polls & Hrun & _ & _ & Hr & _ & Hdead & Hfree'
        & Hpen & Hup & _).
  exists s', sec', r, tr. split; [exact Hrun|]. split; [exact Hfree'|].
  split; [exact (run2_now hw arrival _ _ _ _ _ Hrun)|]. split; [exact Hup|].
  destruct (pen s' =? INVALID_HWID) eqn:E; subst r.
  - apply Z.eqb_eq in E. split; [done|]. intros; done.
  - apply Z.eqb_neq in E. split; [done|]. intros _.
    split; [by destruct Hpen|].
    specialize (Hdead E). apply ticks_gap in Hdead; [|lia]. lia.
Qed.

(** X5. How soon the boot CPU notices the secondary core.
    For a call that finds [boot_lock] free, made by the boot CPU while no
    other core requests a wake (the kernel boots one core at a time; the
    one other core is the secondary, which runs [msm_cpu_postboot] from
    the instant it leaves the pen): when the
    core leaves the pen at [ta], after the publication of its hardware id
    and before the deadline, [secondary_pen_release] returns 0 no later
    than one polling wait and five primitives after [ta] (or after the
    eleven primitives of a call that finds the word cleared at its first
    poll). *)
Theorem pen_release_latency fuel cpu s ta :
  0 < HZ < 2 ^ 31 -> 0 <= insn_us hw <= 1000000 ->
  boot_lock s = None -> 100001 <= Z.of_nat fuel ->
  wrap64 (logical_map hw cpu) <> INVALID_HWID ->
  arrival = Some ta ->
  now s + 2 * insn_us hw < ta ->
  ticks ta - ticks (now s + 6 * insn_us hw) < HZ ->
  exists s' sec' tr,
    run2 hw arrival (secondary_pen_release fuel cpu) (s, msm_cpu_postboot)
      = Some (s', sec', 0, tr) /\
    pen s' = INVALID_HWID /\
    now s' <= Z.max (now s + 11 * insn_us hw) (ta + 5 * insn_us hw + 9).
Proof.
  intros HHZ Hi Hfree Hfuel Hhwid Ha Hpub Hbefore.
  destruct (in_the_pen arrival s) as (tl & Hpre & Htl).
  destruct (handshake_run2_time hw arrival fuel cpu s msm_cpu_postboot tl
              HHZ Hi Hfree Hfuel (or_introl Hpre) Htl)
    as (s' & sec' & r & tr & polls & Hrun & _ & _ & Hr & Hiff & Hdead & _
        & _ & _ & Hlat & _).
  specialize (Hiff Hhwid). specialize (Hlat ta Ha Hpub).
  assert (pen s' = INVALID_HWID) as Hcl.
  { destruct (Z.eq_dec (pen s') INVALID_HWID) as [?|Hne]; [done|].
    specialize (Hdead Hne). apply Hiff. exists ta. split; [done|].
    split; [exact Hpub|].
    destruct (Z.le_gt_cases ta (now s' - insn_us hw)) as [?|Hgt]; [done|].
    assert (0 <= HZ) as HHZ0 by lia.
    pose proof (ticks_mono (now s' - 3 * insn_us hw) ta HHZ0 ltac:(lia)). lia. }
  exists s', sec', tr. rewrite Hr in Hrun. rewrite Hcl in Hrun.
  split; [exact Hrun|]. split; [exact Hcl|exact Hlat].
Qed.

(** X6. The busy-wait under the lock is bounded: one call of
    [secondary_pen_release] makes at most 100000 polling waits
    ([udelay(10)]) and reads the boot-target word at most 100002 times
    (once per round and once for the status). *)
Theorem pen_release_polls_bounded fuel cpu s :
  0 < HZ < 2 ^ 31 -> 0 <= insn_us hw <= 1000000 ->
  boot_lock s = None -> 100001 <= Z.of_nat fuel ->
  exists s' sec' r tr,
    run2 hw arrival (secondary_pen_release fuel cpu) (s, msm_cpu_postboot)
      = Some (s', sec', r, tr) /\
    Z.of_nat (length (List.filter (is_udelay 10) (boot_cpu_events tr))) <= 100000 /\
    Z.of_nat (length (List.filter is_pen_load (boot_cpu_events tr))) <= 100002.
Proof.
  intros HHZ Hi Hfree Hfuel.
  destruct (in_the_pen arrival s) as (tl & Hpre & Htl).
  destruct (handshake_run2_time hw arrival fuel cpu s msm_cpu_postboot tl
              HHZ Hi Hfree Hfuel (or_introl Hpre) Htl)
    as (s' & sec' & r & tr & polls & Hrun & Hev & Hrounds & _ & _ & _ & _
        & _ & Hup & _).
  exists s', sec', r, tr. split; [exact Hrun|].
  pose proof (run2_now hw arrival _ _ _ _ _ Hrun) as Hnow. simpl in Hnow.
  rewrite Hev in Hnow |- *.
  destruct (poll_rounds_us polls Hrounds (proj1 Hi)) as [Hus Hloads].
  rewrite !List.filter_app, !length_app. simpl.
  change (_ :: _ :: _ :: _ :: _ :: _ :: _ :: polls ++ _)
    with ([RawSpinLock; CpuLogicalMap cpu; PenStore (wrap64 (logical_map hw cpu));
           SmpWmb; FlushDcacheArea secondary_holding_pen_release_sym 8; Sev; Jiffies]
          ++ polls ++ [RawSpinUnlock; PenLoad]) in Hnow.
  rewrite !trace_us_app in Hnow. simpl in Hnow.
  set (k := length (List.filter (is_udelay 10) polls)) in *.
  assert (Z.of_nat k <= 100000) as Hk.
  { destruct (Z.le_gt_cases (Z.of_nat k) 100000) as [?|Hgt]; [done|].
    assert (100001 * (2 * insn_us hw + 10)
            <= (2 * insn_us hw + 10) * Z.of_nat k) by nia.
    lia. }
  lia.
Qed.

(** X7. A wake request for a logical CPU whose entry in the logical map
    is [INVALID_HWID] itself.  For a call that finds [boot_lock] free, made by the boot CPU while no
    other core requests a wake (the kernel boots one core at a time; the
    one other core is the secondary, which runs [msm_cpu_postboot] from
    the instant it leaves the pen): the
    function publishes the sentinel, finds the sentinel in the word and
    returns 0 without a single polling wait, whether or not the
    secondary core ever leaves the pen. *)
Theorem pen_release_sentinel_id fuel cpu s :
  0 < HZ < 2 ^ 31 -> 0 <= insn_us hw <= 1000000 ->
  boot_lock s = None -> 100001 <= Z.of_nat fuel ->
  wrap64 (logical_map hw cpu) = INVALID_HWID ->
  exists s' sec' tr,
    run2 hw arrival (secondary_pen_release fuel cpu) (s, msm_cpu_postboot)
      = Some (s', sec', 0, tr) /\
    pen s' = INVALID_HWID /\
    now s' <= now s + 11 * insn_us hw /\
    List.filter (is_udelay 10) (boot_cpu_events tr) = [].
Proof.
  intros HHZ Hi Hfree Hfuel Hinv.
  destruct (in_the_pen arrival s) as (tl & Hpre & Htl).
  destruct (handshake_run2_time hw arrival fuel cpu s msm_cpu_postboot tl
              HHZ Hi Hfree Hfuel (or_introl Hpre) Htl)
    as (s' & sec' & r & tr & polls & Hrun & Hev & Hrounds & Hr & _ & _ & _
        & Hpen & _ & _ & Hquick & _).
  specialize (Hquick Hinv).
  assert (pen s' = INVALID_HWID) as Hcl by (destruct Hpen; congruence).
  rewrite Hr, Hcl in Hrun. exists s', sec', tr.
  split; [exact Hrun|]. split; [exact Hcl|]. split; [exact Hquick|].
  pose proof (run2_now hw arrival _ _ _ _ _ Hrun) as Hnow. simpl in Hnow.
  rewrite Hev in Hnow |- *.
  change (_ :: _ :: _ :: _ :: _ :: _ :: _ :: polls ++ _)
    with ([RawSpinLock; CpuLogicalMap cpu; PenStore (wrap64 (logical_map hw cpu));
           SmpWmb; FlushDcacheArea secondary_holding_pen_release_sym 8; Sev; Jiffies]
          ++ polls ++ [RawSpinUnlock; PenLoad]) in Hnow.
  rewrite !trace_us_app in Hnow. simpl in Hnow.
  destruct (poll_rounds_us polls Hrounds (proj1 Hi)) as [Hus _].
  rewrite !List.filter_app. simpl.
  destruct (List.filter (is_udelay 10) polls) as [|p l] eqn:E; [done|].
  simpl in Hus. nia.
Qed.

End Wake.

(** The example board with primitives that take 50ms each, so that a
    second is over after a few polling rounds; the secondary core leaves
    the pen 720ms in. *)
Lemma pen_release_order_witness :
  let hw := with_insn_us 50000 hw_board in
  (0 < @HZ cfg_250 < 2 ^ 31 /\ 0 <= insn_us hw <= 1000000 /\
   boot_lock sw_boot = None /\ 100001 <= Z.of_nat (Z.to_nat 100001)) /\
  exists s' sec' r tr polls,
    run2 (cfg := cfg_250) hw (Some 720000)
         (secondary_pen_release (cfg := cfg_250) (Z.to_nat 100001) 1)
         (sw_boot, msm_cpu_postboot) = Some (s', sec', r, tr) /\
    boot_cpu_events tr =
      [RawSpinLock; CpuLogicalMap 1; PenStore (wrap64 (logical_map hw 1));
       SmpWmb; FlushDcacheArea secondary_holding_pen_release_sym 8; Sev; Jiffies]
      ++ polls ++ [RawSpinUnlock; PenLoad] /\
    poll_rounds polls /\
    (pen s' <> INVALID_HWID ->
     @HZ cfg_250 <= ticks (cfg := cfg_250) (now s' - 3 * insn_us hw)
                    - ticks (cfg := cfg_250) (now sw_boot + 6 * insn_us hw)) /\
    (last polls = Some PenLoad -> pen s' = INVALID_HWID /\ r = 0) /\
    (last polls = Some Jiffies ->
     @HZ cfg_250 <= ticks (cfg := cfg_250) (now s' - 3 * insn_us hw)
                    - ticks (cfg := cfg_250) (now sw_boot + 6 * insn_us hw)) /\
    (forall ta, Some 720000 = Some ta -> now sw_boot + 2 * insn_us hw < ta ->
       now s' <= Z.max (now sw_boot + 11 * insn_us hw) (ta + 5 * insn_us hw + 9)) /\
    (wrap64 (logical_map hw 1) <> INVALID_HWID -> Some 720000 = @None Z ->
     last polls = Some Jiffies) /\
    now s' = now sw_boot + trace_us hw (boot_cpu_events tr).
Proof.
  intros hw.
  assert (0 < @HZ cfg_250 < 2 ^ 31 /\ 0 <= insn_us hw <= 1000000 /\
          boot_lock sw_boot = None /\ 100001 <= Z.of_nat (Z.to_nat 100001)) as H
    by (repeat split; by vm_compute).
  split; [exact H|].
  destruct H as (H1 & H2 & H3 & H4).
  exact (pen_release_order (cfg := cfg_250) hw (Some 720000) (Z.to_nat 100001) 1
           sw_boot H1 H2 H3 H4).
Defined.

(** The example board with primitives that take 50ms each; no core
    leaves the pen. *)
Lemma pen_release_duration_witness :
  let hw := with_insn_us 50000 hw_board in
  (0 < @HZ cfg_250 < 2 ^ 31 /\ 0 <= insn_us hw <= 1000000 /\
   boot_lock sw_boot = None /\ 100001 <= Z.of_nat (Z.to_nat 100001)) /\
  exists s' sec' r tr,
    run2 (cfg := cfg_250) hw None
         (secondary_pen_release (cfg := cfg_250) (Z.to_nat 100001) 1)
         (sw_boot, msm_cpu_postboot) = Some (s', sec', r, tr) /\
    boot_lock s' = None /\
    now s' = now sw_boot + trace_us hw (boot_cpu_events tr) /\
    now s' <= now sw_boot + 1000000 + 11 * insn_us hw + 9 /\
    (r = 0 -> pen s' = INVALID_HWID) /\
    (r = - ENOSYS ->
     pen s' = wrap64 (logical_map hw 1) /\
     (@HZ cfg_250 - 1) * 1000000
       < (now s' - now sw_boot - 9 * insn_us hw) * @HZ cfg_250).
Proof.
  intros hw.
  assert (0 < @HZ cfg_250 < 2 ^ 31 /\ 0 <= insn_us hw <= 1000000 /\
          boot_lock sw_boot = None /\ 100001 <= Z.of_nat (Z.to_nat 100001)) as H
    by (repeat split; by vm_compute).
  split; [exact H|].
  destruct H as (H1 & H2 & H3 & H4).
  exact (pen_release_duration (cfg := cfg_250) hw None (Z.to_nat 100001) 1
           sw_boot H1 H2 H3 H4).
Defined.

(** The same board; core 1 leaves the pen at 720ms. *)
Lemma pen_release_latency_witness :
  let hw := with_insn_us 50000 hw_board in
  (0 < @HZ cfg_250 < 2 ^ 31 /\ 0 <= insn_us hw <= 1000000 /\
   boot_lock sw_boot = None /\ 100001 <= Z.of_nat (Z.to_nat 100001) /\
   wrap64 (logical_map hw 1) <> INVALID_HWID /\
   Some 720000 = Some 720000 /\
   now sw_boot + 2 * insn_us hw < 720000 /\
   ticks (cfg := cfg_250) 720000
     - ticks (cfg := cfg_250) (now sw_boot + 6 * insn_us hw) < @HZ cfg_250) /\
  exists s' sec' tr,
    run2 (cfg := cfg_250) hw (Some 720000)
         (secondary_pen_release (cfg := cfg_250) (Z.to_nat 100001) 1)
         (sw_boot, msm_cpu_postboot) = Some (s', sec', 0, tr) /\
    pen s' = INVALID_HWID /\
    now s' <= Z.max (now sw_boot + 11 * insn_us hw) (720000 + 5 * insn_us hw + 9).
Proof.
  intros hw.
  assert (0 < @HZ cfg_250 < 2 ^ 31 /\ 0 <= insn_us hw <= 1000000 /\
          boot_lock sw_boot = None /\ 100001 <= Z.of_nat (Z.to_nat 100001) /\
          wrap64 (logical_map hw 1) <> INVALID_HWID /\
          Some 720000 = Some 720000 /\
          now sw_boot + 2 * insn_us hw < 720000 /\
          ticks (cfg := cfg_250) 720000
            - ticks (cfg := cfg_250) (now sw_boot + 6 * insn_us hw) < @HZ cfg_250) as H
    by (repeat split; by vm_compute).
  split; [exact H|].
  destruct H as (H1 & H2 & H3 & H4 & H5 & H6 & H7 & H8).
  exact (pen_release_latency (cfg := cfg_250) hw (Some 720000) (Z.to_nat 100001) 1
           sw_boot 720000 H1 H2 H3 H4 H5 H6 H7 H8).
Defined.

Lemma pen_release_polls_bounded_witness :
  let hw := hw_board in
  (0 < @HZ cfg_250 < 2 ^ 31 /\ 0 <= insn_us hw <= 1000000 /\
   boot_lock sw_boot = None /\ 100001 <= Z.of_nat (Z.to_nat 100001)) /\
  exists s' sec' r tr,
    run2 (cfg := cfg_250) hw None
         (secondary_pen_release (cfg := cfg_250) (Z.to_nat 100001) 1)
         (sw_boot, msm_cpu_postboot) = Some (s', sec', r, tr) /\
    Z.of_nat (length (List.filter (is_udelay 10) (boot_cpu_events tr))) <= 100000 /\
    Z.of_nat (length (List.filter is_pen_load (boot_cpu_events tr))) <= 100002.
Proof.
  intros hw.
  assert (0 < @HZ cfg_250 < 2 ^ 31 /\ 0 <= insn_us hw <= 1000000 /\
          boot_lock sw_boot = None /\ 100001 <= Z.of_nat (Z.to_nat 100001)) as H
    by (repeat split; by vm_compute).
  split; [exact H|].
  destruct H as (H1 & H2 & H3 & H4).
  exact (pen_release_polls_bounded (cfg := cfg_250) hw None (Z.to_nat 100001) 1
           sw_boot H1 H2 H3 H4).
Defined.

(** Logical CPU 5 of the four-core board. *)
Lemma pen_release_sentinel_id_witness :
  let hw := hw_board_4cpu in
  (0 < @HZ cfg_250 < 2 ^ 31 /\ 0 <= insn_us hw <= 1000000 /\
   boot_lock sw_boot = None /\ 100001 <= Z.of_nat (Z.to_nat 100001) /\
   wrap64 (logical_map hw 5) = INVALID_HWID) /\
  exists s' sec' tr,
    run2 (cfg := cfg_250) hw None
         (secondary_pen_release (cfg := cfg_250) (Z.to_nat 100001) 5)
         (sw_boot, msm_cpu_postboot) = Some (s', sec', 0, tr) /\
    pen s' = INVALID_HWID /\
    now s' <= now sw_boot + 11 * insn_us hw /\
    List.filter (is_udelay 10) (boot_cpu_events tr) = [].
Proof.
  intros hw.
  assert (0 < @HZ cfg_250 < 2 ^ 31 /\ 0 <= insn_us hw <= 1000000 /\
          boot_lock sw_boot = None /\ 100001 <= Z.of_nat (Z.to_nat 100001) /\
          wrap64 (logical_map hw 5) = INVALID_HWID) as H
    by (repeat split; by vm_compute).
  split; [exact H|].
  destruct H as (H1 & H2 & H3 & H4 & H5).
  exact (pen_release_sentinel_id (cfg := cfg_250) hw None (Z.to_nat 100001) 5
           sw_boot H1 H2 H3 H4 H5).
Defined.

Section BootThms.
Context {cfg : Kconfig}.
Variables (hw : Hw) (arrival : option Z).

(** X8. A cold boot whose power-on succeeds: [msm_cpu_boot] reads the
    core's flag, runs [msm_unclamp_secondary_arm_cpu] to its end, stores
    true to the flag, and only then starts the handshake (the lock is
    the next primitive).  It returns 0 or -ENOSYS with the lock released,
    and the flag is true afterwards in both cases: a handshake that times
    out (as it does when no core ever leaves the pen) does not take the
    mark back, so the next boot of the core skips the power-on. *)
Theorem boot_marks_core_before_wake fuel cpu s :
  0 < HZ < 2 ^ 31 -> 0 <= insn_us hw <= 1000000 ->
  boot_lock s = None -> 100001 <= Z.of_nat fuel ->
  per_cpu_cold_boot_done s cpu = 0 -> unclamp_status hw cpu = 0 ->
  exists d r tr s0 s1 pw hs,
    run2 hw arrival (msm_cpu_boot fuel cpu) (s, msm_cpu_postboot) = Some (d, r, tr) /\
    run hw boot_cpu (msm_unclamp_secondary_arm_cpu cpu) s0 = Some (s1, 0, pw) /\
    boot_cpu_events tr = ColdBootDoneLoad cpu :: pw ++ ColdBootDoneStore cpu 1 :: hs /\
    head hs = Some RawSpinLock /\
    Forall (fun p => pen_prim p = true) hs /\
    (r = 0 \/ r = - ENOSYS) /\
    (arrival = None -> wrap64 (logical_map hw cpu) <> INVALID_HWID -> r = - ENOSYS) /\
    cold_boot_done (fst d) = <[cpu := 1]> (cold_boot_done s) /\
    boot_lock (fst d) = None.
Proof.
  intros HHZ Hi Hfree Hfuel Hcold Hst.
  destruct (boot_run2_total hw arrival fuel cpu s HHZ Hi Hfree Hfuel)
    as (d & r & tr & Hrun & Hfree' &
        [(Hwarm & _) | [(_ & Hfail & _)
         | (_ & _ & Hfl & _ & s0 & s1 & pw & hs & Hpw & Hev & Hhd & Hall & Hr & Hto)]]);
    [done | done |].
  exists d, r, tr, s0, s1, pw, hs. by repeat split.
Qed.

(** X9. For a call that finds [boot_lock] free, made by the boot CPU while no
    other core requests a wake (the kernel boots one core at a time; the
    one other core is the secondary, which runs [msm_cpu_postboot] from
    the instant it leaves the pen):
    [msm_cpu_boot] returns, with the lock released and one of four
    statuses: 0, -ENOSYS (handshake timeout), -ENODEV or -ENOMEM; the
    last two come from a failed power-on of a cold core only, and then
    the flags are as before.  The core's flag is true afterwards exactly
    when it was true before or the power-on succeeded; the flag of no
    other core changes. *)
Theorem boot_returns fuel cpu s :
  0 < HZ < 2 ^ 31 -> 0 <= insn_us hw <= 1000000 ->
  boot_lock s = None -> 100001 <= Z.of_nat fuel ->
  exists d r tr,
    run2 hw arrival (msm_cpu_boot fuel cpu) (s, msm_cpu_postboot) = Some (d, r, tr) /\
    boot_lock (fst d) = None /\
    (r = 0 \/ r = - ENOSYS \/ r = - ENODEV \/ r = - ENOMEM) /\
    (r = - ENODEV \/ r = - ENOMEM ->
     per_cpu_cold_boot_done s cpu = 0 /\ r = unclamp_status hw cpu /\
     cold_boot_done (fst d) = cold_boot_done s) /\
    (per_cpu_cold_boot_done (fst d) cpu <> 0 <->
     per_cpu_cold_boot_done s cpu <> 0 \/ unclamp_status hw cpu = 0) /\
    (forall c, c <> cpu ->
     per_cpu_cold_boot_done (fst d) c = per_cpu_cold_boot_done s c).
Proof.
  intros HHZ Hi Hfree Hfuel.
  destruct (boot_run2_total hw arrival fuel cpu s HHZ Hi Hfree Hfuel)
    as (d & r & tr & Hrun & Hfree' &
        [(Hwarm & Hfl & _ & hs & _ & _ & _ & Hr & _)
        | [(Hcold & Hfail & Hr & Hfl & _)
        | (Hcold & Hst & Hfl & _ & _ & _ & _ & hs & _ & _ & _ & _ & Hr & _)]]).
  - exists d, r, tr. split; [exact Hrun|]. split; [exact Hfree'|].
    split; [destruct Hr; auto|].
    split; [intros [-> | ->]; by destruct Hr|].
    split; [|intros c _; by apply per_cpu_same].
    rewrite (per_cpu_same _ _ cpu Hfl). tauto.
  - exists d, r, tr. split; [exact Hrun|]. split; [exact Hfree'|].
    split.
    { rewrite Hr. destruct (unclamp_status_cases hw cpu) as [?|[?|?]]; auto. }
    split; [done|].
    split; [|intros c _; by apply per_cpu_same].
    rewrite (per_cpu_same _ _ cpu Hfl). split; [done|]. intros [?|?]; done.
  - exists d, r, tr. split; [exact Hrun|]. split; [exact Hfree'|].
    split; [destruct Hr; auto|].
    split; [intros [-> | ->]; by destruct Hr|].
    split.
    + rewrite (per_cpu_insert _ _ cpu cpu 1 Hfl).
      destruct (decide (cpu = cpu)); [|done]. split; [auto|done].
    + intros c Hne. rewrite (per_cpu_insert _ _ c cpu 1 Hfl).
      by destruct (decide (cpu = c)).
Qed.

(** X13. A boot that succeeds, end to end.
    For a call that finds [boot_lock] free, made by the boot CPU while no
    other core requests a wake (the kernel boots one core at a time; the
    one other core is the secondary, which runs [msm_cpu_postboot] from
    the instant it leaves the pen), and for a
    core that is warm, or cold with a device tree and register blocks
    that resolve: [msm_cpu_boot] enters the handshake [boot_prelude_us]
    after it was called (one primitive for a warm core; for a cold one
    the power-on, 6us and 27 primitives, or 66us and 42 primitives when
    the L2 cache has to be powered, and the two accesses to the flag); if
    the secondary core leaves the pen after the publication of its
    hardware id, two primitives later, and before the deadline, the boot
    returns 0 within a polling wait and five primitives of that instant,
    with the word cleared, the lock released and the core marked as
    cold-booted. *)
Theorem boot_succeeds_when_core_arrives fuel cpu s ta :
  0 < HZ < 2 ^ 31 -> 0 <= insn_us hw <= 1000000 ->
  boot_lock s = None -> 100001 <= Z.of_nat fuel ->
  wrap64 (logical_map hw cpu) <> INVALID_HWID ->
  per_cpu_cold_boot_done s cpu <> 0 \/ unclamp_status hw cpu = 0 ->
  arrival = Some ta ->
  let t0 := now s + boot_prelude_us hw s cpu in
  t0 + 2 * insn_us hw < ta ->
  ticks ta - ticks (t0 + 6 * insn_us hw) < HZ ->
  exists d tr,
    run2 hw arrival (msm_cpu_boot fuel cpu) (s, msm_cpu_postboot) = Some (d, 0, tr) /\
    pen (fst d) = INVALID_HWID /\
    boot_lock (fst d) = None /\
    per_cpu_cold_boot_done (fst d) cpu <> 0 /\
    now (fst d) <= Z.max (t0 + 11 * insn_us hw) (ta + 5 * insn_us hw + 9).
Proof.
  intros HHZ Hi Hfree Hfuel Hhwid Hready Ha t0 Hpub Hbefore.
  destruct (boot_run2_total hw arrival fuel cpu s HHZ Hi Hfree Hfuel)
    as (d & r & tr & Hrun & Hfree' &
        [(Hwarm & Hfl & Hok & _)
        | [(Hcold & Hfail & _)
        | (Hcold & Hst & Hfl & Hok & _)]]).
  - destruct (Hok ta Ha Hhwid Hpub Hbefore) as (-> & Hpen & Hnow).
    exists d, tr. split; [exact Hrun|]. split; [exact Hpen|].
    split; [exact Hfree'|]. split; [|exact Hnow].
    by rewrite (per_cpu_same _ _ cpu Hfl).
  - by destruct Hready.
  - destruct (Hok ta Ha Hhwid Hpub Hbefore) as (-> & Hpen & Hnow).
    exists d, tr. split; [exact Hrun|]. split; [exact Hpen|].
    split; [exact Hfree'|]. split; [|exact Hnow].
    rewrite (per_cpu_insert _ _ cpu cpu 1 Hfl). by destruct (decide (cpu = cpu)).
Qed.

End BootThms.

(** Core 1 of the example board, cold, and no core ever leaves the pen. *)
Lemma boot_marks_core_before_wake_witness :
  let hw := with_insn_us 50000 hw_board in
  (0 < @HZ cfg_250 < 2 ^ 31 /\ 0 <= insn_us hw <= 1000000 /\
   boot_lock sw_boot = None /\ 100001 <= Z.of_nat (Z.to_nat 100001) /\
   per_cpu_cold_boot_done sw_boot 1 = 0 /\ unclamp_status hw 1 = 0) /\
  exists d r tr s0 s1 pw hs,
    run2 (cfg := cfg_250) hw None (msm_cpu_boot (cfg := cfg_250) (Z.to_nat 100001) 1)
         (sw_boot, msm_cpu_postboot) = Some (d, r, tr) /\
    run (cfg := cfg_250) hw boot_cpu (msm_unclamp_secondary_arm_cpu 1) s0
      = Some (s1, 0, pw) /\
    boot_cpu_events tr = ColdBootDoneLoad 1 :: pw ++ ColdBootDoneStore 1 1 :: hs /\
    head hs = Some RawSpinLock /\
    Forall (fun p => pen_prim p = true) hs /\
    (r = 0 \/ r = - ENOSYS) /\
    (@None Z = None -> wrap64 (logical_map hw 1) <> INVALID_HWID -> r = - ENOSYS) /\
    cold_boot_done (fst d) = <[1 := 1]> (cold_boot_done sw_boot) /\
    boot_lock (fst d) = None.
Proof.
  intros hw.
  assert (0 < @HZ cfg_250 < 2 ^ 31 /\ 0 <= insn_us hw <= 1000000 /\
          boot_lock sw_boot = None /\ 100001 <= Z.of_nat (Z.to_nat 100001) /\
          per_cpu_cold_boot_done sw_boot 1 = 0 /\ unclamp_status hw 1 = 0) as H
    by (repeat split; by vm_compute).
  split; [exact H|].
  destruct H as (H1 & H2 & H3 & H4 & H5 & H6).
  exact (boot_marks_core_before_wake (cfg := cfg_250) hw None (Z.to_nat 100001) 1
           sw_boot H1 H2 H3 H4 H5 H6).
Defined.

(** Core 1 of the board whose ACC block does not map. *)
Lemma boot_returns_witness :
  let hw := hw_board_acc_unmapped in
  (0 < @HZ cfg_250 < 2 ^ 31 /\ 0 <= insn_us hw <= 1000000 /\
   boot_lock sw_boot = None /\ 100001 <= Z.of_nat (Z.to_nat 100001)) /\
  exists d r tr,
    run2 (cfg := cfg_250) hw None (msm_cpu_boot (cfg := cfg_250) (Z.to_nat 100001) 1)
         (sw_boot, msm_cpu_postboot) = Some (d, r, tr) /\
    boot_lock (fst d) = None /\
    (r = 0 \/ r = - ENOSYS \/ r = - ENODEV \/ r = - ENOMEM) /\
    (r = - ENODEV \/ r = - ENOMEM ->
     per_cpu_cold_boot_done sw_boot 1 = 0 /\ r = unclamp_status hw 1 /\
     cold_boot_done (fst d) = cold_boot_done sw_boot) /\
    (per_cpu_cold_boot_done (fst d) 1 <> 0 <->
     per_cpu_cold_boot_done sw_boot 1 <> 0 \/ unclamp_status hw 1 = 0) /\
    (forall c, c <> 1 ->
     per_cpu_cold_boot_done (fst d) c = per_cpu_cold_boot_done sw_boot c).
Proof.
  intros hw.
  assert (0 < @HZ cfg_250 < 2 ^ 31 /\ 0 <= insn_us hw <= 1000000 /\
          boot_lock sw_boot = None /\ 100001 <= Z.of_nat (Z.to_nat 100001)) as H
    by (repeat split; by vm_compute).
  split; [exact H|].
  destruct H as (H1 & H2 & H3 & H4).
  exact (boot_returns (cfg := cfg_250) hw None (Z.to_nat 100001) 1 sw_boot H1 H2 H3 H4).
Defined.

(** Core 1 of the example board, cold and with its L2 cache off, with
    primitives that take 1us: the power-on takes 108us, the handshake is
    entered at 110us and the hardware id is published at 112us; the core
    leaves the pen at 200us. *)
Lemma boot_succeeds_when_core_arrives_witness :
  let hw := with_insn_us 1 hw_board in
  let t0 := now sw_boot + boot_prelude_us hw sw_boot 1 in
  (0 < @HZ cfg_250 < 2 ^ 31 /\ 0 <= insn_us hw <= 1000000 /\
   boot_lock sw_boot = None /\ 100001 <= Z.of_nat (Z.to_nat 100001) /\
   wrap64 (logical_map hw 1) <> INVALID_HWID /\
   (per_cpu_cold_boot_done sw_boot 1 <> 0 \/ unclamp_status hw 1 = 0) /\
   Some 200 = Some 200 /\
   t0 + 2 * insn_us hw < 200 /\
   ticks (cfg := cfg_250) 200 - ticks (cfg := cfg_250) (t0 + 6 * insn_us hw)
     < @HZ cfg_250) /\
  t0 = 110 /\
  exists d tr,
    run2 (cfg := cfg_250) hw (Some 200)
         (msm_cpu_boot (cfg := cfg_250) (Z.to_nat 100001) 1)
         (sw_boot, msm_cpu_postboot) = Some (d, 0, tr) /\
    pen (fst d) = INVALID_HWID /\
    boot_lock (fst d) = None /\
    per_cpu_cold_boot_done (fst d) 1 <> 0 /\
    now (fst d) <= Z.max (t0 + 11 * insn_us hw) (200 + 5 * insn_us hw + 9).
Proof.
  intros hw t0.
  assert (0 < @HZ cfg_250 < 2 ^ 31 /\ 0 <= insn_us hw <= 1000000 /\
          boot_lock sw_boot = None /\ 100001 <= Z.of_nat (Z.to_nat 100001) /\
          wrap64 (logical_map hw 1) <> INVALID_HWID /\
          (per_cpu_cold_boot_done sw_boot 1 <> 0 \/ unclamp_status hw 1 = 0) /\
          Some 200 = Some 200 /\
          t0 + 2 * insn_us hw < 200 /\
          ticks (cfg := cfg_250) 200 - ticks (cfg := cfg_250) (t0 + 6 * insn_us hw)
            < @HZ cfg_250) as H.
  { repeat split; try (by vm_compute). right. by vm_compute. }
  split; [exact H|]. split; [by vm_compute|].
  destruct H as (H1 & H2 & H3 & H4 & H5 & H6 & H7 & H8 & H9).
  exact (boot_succeeds_when_core_arrives (cfg := cfg_250) hw (Some 200)
           (Z.to_nat 100001) 1 sw_boot 200 H1 H2 H3 H4 H5 H6 H7 H8 H9).
Defined.

(** ** One-time initialisation *)

Section Once.
Context {cfg : Kconfig}.

Lemma init_run hw tid cpu s :
  exists s',
    run hw tid (msm_cpu_init cpu) s
      = Some (s', fst (fst (init_outcome hw s)), snd (init_outcome hw s)) /\
    initialized s' = snd (fst (init_outcome hw s)) /\
    cold_boot_done s' = cold_boot_done s.
Proof.
  unfold msm_cpu_init, msm_cpu_init_once, init_outcome, run. simpl.
  destruct (Z.eqb_spec (initialized s) 0) as [E|E]; simpl.
  - destruct (scm_mc_boot_available hw =? 0); simpl;
      eexists; (split; [reflexivity|]); done.
  - eexists. split; [reflexivity|]. done.
Qed.

Lemma init_calm cpu : prog_all (fun p => calm_prim p = true) (msm_cpu_init cpu).
Proof.
  apply (prog_all_impl (fun p => init_prim p = true)); [|apply init_all].
  intros p Hp. by destruct p.
Qed.

Lemma init_run2_outcome hw arrival cpu s d r tr :
  run2 hw arrival (msm_cpu_init cpu) (s, msm_cpu_postboot) = Some (d, r, tr) ->
  r = fst (fst (init_outcome hw s)) /\
  initialized (fst d) = snd (fst (init_outcome hw s)) /\
  boot_cpu_events tr = snd (init_outcome hw s).
Proof.
  intros Hrun.
  destruct (init_run hw boot_cpu cpu s) as (s' & Hrun1 & Hin & _).
  destruct (run2_calm hw arrival boot_cpu _ (init_calm cpu) s s' _ _ s msm_cpu_postboot
              postboot_all eq_refl eq_refl Hrun1)
    as (d' & tr2 & Hrun2 & Htr2 & _ & Hin2 & _).
  rewrite Hrun in Hrun2. injection Hrun2 as <- <- <-.
  by rewrite Hin2, Hin.
Qed.

Lemma run2_keeps_initialized {A : Type} hw arrival (m : prog A) :
  prog_all (fun p => is_init_store p = false) m ->
  forall s sec d' a tr,
    prog_all (fun p => pen_prim p = true) sec ->
    run2 hw arrival m (s, sec) = Some (d', a, tr) ->
    initialized (fst d') = initialized s.
Proof.
  induction 1 as [a0 | | p k Hp Hk IH]; intros s sec d' a tr Hsec Hrun.
  - unfold run2 in Hrun. simpl in Hrun. by injection Hrun as <- <- <-.
  - done.
  - rewrite run2_act in Hrun.
    pose proof (sync_initialized hw arrival s sec Hsec) as Hin1.
    destruct (sync_pen hw arrival s sec Hsec) as (Hsec1 & _ & _).
    destruct (sync hw arrival (s, sec)) as [[s1 sec1] ev1]. cbn [fst snd] in *.
    destruct (handle hw boot_cpu p s1) as [[s2 r]|] eqn:Hh; [|done].
    destruct (run2 hw arrival (k r) (elapse hw p s2, sec1)) as [[[d2 a2] tr2]|] eqn:Hrun2;
      [|done].
    injection Hrun as <- <- <-.
    rewrite (IH r _ _ _ _ _ Hsec1 Hrun2). simpl. rewrite <- Hin1.
    destruct p; try discriminate; simpl in Hh;
      try (by injection Hh as <- _).
    destruct (boot_lock s1); [done|]. by injection Hh as <- _.
Qed.

Lemma prepare_no_init_store cpu :
  prog_all (fun p => is_init_store p = false) (msm_cpu_prepare cpu).
Proof. unfold msm_cpu_prepare. prog_all_walk. Qed.

Lemma boot_no_init_store fuel cpu :
  prog_all (fun p => is_init_store p = false) (msm_cpu_boot fuel cpu).
Proof.
  assert (prog_all (fun p => is_init_store p = false) (secondary_pen_release fuel cpu))
    as Hspr.
  { apply (prog_all_impl (fun p => pen_prim p = true));
      [|apply secondary_pen_release_all].
    intros p Hp. by destruct p. }
  unfold msm_cpu_boot. apply prog_all_bind; [by apply prog_all_call|].
  intros done. destruct (done =? 0); [|exact Hspr].
  apply prog_all_bind.
  { apply (prog_all_impl (fun p => hw_prim p = true)); [|apply unclamp_all].
    intros p Hp. by destruct p. }
  intros ret. destruct (negb (ret =? 0)); [constructor|].
  apply prog_all_bind; [by apply prog_all_exec|]. intros _. exact Hspr.
Qed.

(** What one callback does to the static flag of [msm_cpu_init]. *)
Lemma callback_initialized hw arrival cb s d r tr :
  run2 hw arrival (callback_prog cb) (s, msm_cpu_postboot) = Some (d, r, tr) ->
  match cb with
  | CpuInit _ =>
      r = fst (fst (init_outcome hw s)) /\
      initialized (fst d) = snd (fst (init_outcome hw s)) /\
      boot_cpu_events tr = snd (init_outcome hw s)
  | _ => initialized (fst d) = initialized s
  end.
Proof.
  destruct cb as [cpu | cpu | fuel cpu]; simpl; intros Hrun.
  - by apply (init_run2_outcome hw arrival cpu).
  - exact (run2_keeps_initialized hw arrival _ (prepare_no_init_store cpu)
             _ _ _ _ _ postboot_all Hrun).
  - exact (run2_keeps_initialized hw arrival _ (boot_no_init_store fuel cpu)
             _ _ _ _ _ postboot_all Hrun).
Qed.

Lemma callback_initialized_kept hw arrival cb s d r tr :
  run2 hw arrival (callback_prog cb) (s, msm_cpu_postboot) = Some (d, r, tr) ->
  initialized s <> 0 ->
  initialized (fst d) <> 0 /\
  (forall cpu, cb = CpuInit cpu -> r = 0 /\ boot_cpu_events tr = [InitializedLoad]).
Proof.
  intros Hrun Hs. pose proof (callback_initialized _ _ _ _ _ _ _ Hrun) as H.
  apply Z.eqb_neq in Hs.
  destruct cb as [cpu | cpu | fuel cpu]; try (rewrite H; split; [by apply Z.eqb_neq|done]).
  unfold init_outcome in H. rewrite Hs in H. simpl in H.
  destruct H as (-> & -> & ->). split; [by apply Z.eqb_neq|]. by intros ? _.
Qed.

(** Once the static flag is set, every later [msm_cpu_init] only reads it. *)
Lemma play_initialized calls s l s' :
  play calls s = Some (l, s') ->
  initialized s <> 0 ->
  initialized s' <> 0 /\
  Forall (fun e => forall cpu, e_call e = CpuInit cpu ->
                   e_status e = 0 /\ e_trace e = [InitializedLoad]) l.
Proof.
  revert s l s'. induction calls as [|[[hw arrival] c] rest IH]; intros s l s'; simpl.
  - intros [= <- <-] Hs. by split.
  - destruct (run2 hw arrival (callback_prog c) _) as [[[d r] tr]|] eqn:Hrun; [|done].
    destruct (play rest (fst d)) as [[l0 s0]|] eqn:Hrest; [|done].
    intros [= <- <-] Hs.
    destruct (callback_initialized_kept _ _ _ _ _ _ _ Hrun Hs) as [Hd Hinit].
    destruct (IH _ _ _ Hrest Hd) as [Hs' Hall].
    split; [exact Hs'|]. constructor; [|exact Hall]. simpl. exact Hinit.
Qed.

(** X10. [msm_cpu_init] among the callbacks of a session, for whatever
    core: it returns 0 or -ENOSYS; it asks the firmware whether
    multi-cluster boot is available exactly when its static flag is
    still 0; once a call has returned 0 the flag is set and every later
    call returns 0 after reading the flag alone, whatever the firmware
    would answer then; a call that fails logs the two messages and
    leaves the flag 0, so the next call asks again.  No other callback
    touches the flag. *)
Theorem init_once_only calls s l1 e l2 s' cpu :
  play calls s = Some (l1 ++ e :: l2, s') ->
  e_call e = CpuInit cpu ->
  (e_status e = 0 \/ e_status e = - ENOSYS) /\
  (e_status e = 0 ->
   initialized (e_after e) <> 0 /\
   Forall (fun e' => forall cpu', e_call e' = CpuInit cpu' ->
                     e_status e' = 0 /\ e_trace e' = [InitializedLoad]) l2) /\
  (e_status e = - ENOSYS ->
   initialized (e_before e) = 0 /\ initialized (e_after e) = 0 /\
   e_trace e = [InitializedLoad; QcomScmMcBootAvailable;
                Printk "%s: Multi-cluster boot unavailable\n";
                Printk "%s: one time initialization failed\n"]) /\
  (QcomScmMcBootAvailable ∈ e_trace e <-> initialized (e_before e) = 0).
Proof.
  revert s l1. induction calls as [|[[hw arrival] c] rest IH]; intros s l1; simpl.
  - intros [= Hl _]. by destruct l1.
  - destruct (run2 hw arrival (callback_prog c) _) as [[[d r] tr]|] eqn:Hrun; [|done].
    destruct (play rest (fst d)) as [[l0 s0]|] eqn:Hrest; [|done].
    destruct l1 as [|e1 l1]; simpl; intros H Hcall.
    + injection H as He Hl Hs. subst e l2 s'. simpl in Hcall. subst c. simpl.
      destruct (callback_initialized _ _ _ _ _ _ _ Hrun) as (Hr & Hin & Hev).
      rewrite Hr, Hin, Hev. unfold init_outcome.
      destruct (initialized s =? 0) eqn:E0.
      * apply Z.eqb_eq in E0.
        destruct (scm_mc_boot_available hw =? 0) eqn:Es; simpl.
        -- split; [by right|]. split; [done|]. split; [done|].
           split; [done|]. intros _. apply elem_of_cons. right. apply elem_of_cons. by left.
        -- split; [by left|]. split.
           { intros _. split; [done|].
             apply (play_initialized rest (fst d) l0 s0 Hrest).
             rewrite Hin. unfold init_outcome. rewrite (proj2 (Z.eqb_eq _ _) E0), Es.
             done. }
           split; [done|]. split; [done|]. intros _. apply elem_of_cons. right. apply elem_of_cons. by left.
      * apply Z.eqb_neq in E0. simpl. split; [by left|]. split.
        { intros _. split; [done|].
          apply (play_initialized rest (fst d) l0 s0 Hrest).
          rewrite Hin. unfold init_outcome. rewrite (proj2 (Z.eqb_neq _ _) E0). done. }
        split; [done|]. split; [|done]. intros H.
        apply list_elem_of_singleton in H. done.
    + injection H as _ Hl Hs. subst l0 s0. exact (IH (fst d) l1 Hrest Hcall).
Qed.

End Once.

(** Three calls: the firmware has no multi-cluster boot service at the
    first, has it at the second, and has lost it again at the third. *)
Lemma init_once_only_witness :
  exists e0 e l2 s',
    play (cfg := cfg_250)
      [(hw_board_no_mc_boot, None, CpuInit 1);
       (hw_board, None, CpuInit 1);
       (hw_board_no_mc_boot, None, CpuInit 2)] sw_boot = Some ([e0] ++ e :: l2, s') /\
    e_call e = CpuInit 1 /\
    map e_status (e0 :: e :: l2) = [- ENOSYS; 0; 0] /\
    ((e_status e = 0 \/ e_status e = - ENOSYS) /\
     (e_status e = 0 ->
      initialized (e_after e) <> 0 /\
      Forall (fun e' => forall cpu', e_call e' = CpuInit cpu' ->
                        e_status e' = 0 /\ e_trace e' = [InitializedLoad]) l2) /\
     (e_status e = - ENOSYS ->
      initialized (e_before e) = 0 /\ initialized (e_after e) = 0 /\
      e_trace e = [InitializedLoad; QcomScmMcBootAvailable;
                   Printk "%s: Multi-cluster boot unavailable\n";
                   Printk "%s: one time initialization failed\n"]) /\
     (QcomScmMcBootAvailable ∈ e_trace e <-> initialized (e_before e) = 0)).
Proof.
  destruct (play (cfg := cfg_250) _ sw_boot) as [[[|e0 [|e l2]] s']|] eqn:E;
    try (vm_compute in E; discriminate).
  exists e0, e, l2, s'. split; [reflexivity|].
  assert (e_call e = CpuInit 1) as Hcall
    by (vm_compute in E; injection E as <- <- <- <-; reflexivity).
  split; [exact Hcall|].
  split; [vm_compute in E; injection E as <- <- <- <-; reflexivity|].
  exact (init_once_only (cfg := cfg_250) _ sw_boot [e0] e l2 s' 1 E Hcall).
Defined.

(** ** Stores to the cold-boot flags *)

Section Stores.
Context {cfg : Kconfig}.

Lemma filter_none (f : prim -> bool) (P : prim -> Prop) l :
  (forall p, P p -> f p = false) -> Forall P l -> List.filter f l = [].
Proof.
  intros Hf Hl. induction Hl as [|p l Hp _ IH]; simpl; [done|].
  by rewrite (Hf p Hp).
Qed.

Lemma init_prim_no_flag_store p : init_prim p = true -> is_flag_store p = false.
Proof. by destruct p. Qed.

Lemma prepare_run_stores hw tid cpu s :
  exists s' r tr,
    run hw tid (msm_cpu_prepare cpu) s = Some (s', r, tr) /\
    (List.filter is_flag_store tr = [] /\ cold_boot_done s' = cold_boot_done s \/
     List.filter is_flag_store tr = [ColdBootDoneStore 0 1] /\
     per_cpu_cold_boot_done s 0 = 0 /\
     cold_boot_done s' = <[0 := 1]> (cold_boot_done s)).
Proof.
  unfold msm_cpu_prepare, run. simpl.
  destruct (Z.land _ _ =? 0); simpl.
  - destruct (scm_set_cold_boot_addr_mc hw _ _ _ =? 0); simpl.
    + match goal with
      | |- context [per_cpu_cold_boot_done ?x 0 =? 0] =>
          change (per_cpu_cold_boot_done x 0) with (per_cpu_cold_boot_done s 0)
      end.
      destruct (Z.eqb_spec (per_cpu_cold_boot_done s 0) 0); simpl;
        do 3 eexists; (split; [reflexivity|]); simpl; [right|left]; done.
    + do 3 eexists. split; [reflexivity|]. by left.
  - do 3 eexists. split; [reflexivity|]. by left.
Qed.

(** The stores to the cold-boot flags in one callback: none, or one
    store of true to a flag that was false. *)
Lemma callback_stores hw arrival cb s d r tr :
  run2 hw arrival (callback_prog cb) (s, msm_cpu_postboot) = Some (d, r, tr) ->
  (List.filter is_flag_store (boot_cpu_events tr) = [] /\
   cold_boot_done (fst d) = cold_boot_done s)
  \/
  (exists c, List.filter is_flag_store (boot_cpu_events tr) = [ColdBootDoneStore c 1] /\
             per_cpu_cold_boot_done s c = 0 /\
             cold_boot_done (fst d) = <[c := 1]> (cold_boot_done s)).
Proof.
  destruct cb as [cpu | cpu | fuel cpu]; simpl; intros Hrun.
  - left.
    destruct (run2_all hw arrival _ _ _ (init_all cpu) (s, msm_cpu_postboot) d r tr
                postboot_all Hrun) as (_ & Hev & Hfl).
    split.
    + apply (filter_none _ _ _ init_prim_no_flag_store Hev).
    + apply Hfl; [apply init_prim_no_flag_store|apply pen_prim_no_flag_store].
  - destruct (prepare_run_stores hw boot_cpu cpu s) as (s' & r1 & tr1 & Hrun1 & Hst).
    destruct (run2_calm hw arrival boot_cpu _ (prepare_all cpu) s s' _ tr1 s
                msm_cpu_postboot postboot_all eq_refl eq_refl Hrun1)
      as (d' & tr2 & Hrun2 & Htr2 & Hfl2 & _).
    rewrite Hrun in Hrun2. injection Hrun2 as <- <- <-.
    rewrite Htr2, Hfl2.
    destruct Hst as [[? ?] | (? & ? & ?)]; [by left|right; by exists 0].
  - unfold msm_cpu_boot in Hrun.
    rewrite run2_bind, run2_call in Hrun.
    destruct (sync_pen hw arrival s msm_cpu_postboot postboot_all) as (Hsec1 & Hfl1 & Hev1).
    destruct (sync hw arrival (s, msm_cpu_postboot)) as [[s1 sec1] ev1].
    cbn [fst snd handle] in *.
    rewrite (per_cpu_same s s1 cpu Hfl1) in Hrun.
    destruct (Z.eqb_spec (per_cpu_cold_boot_done s cpu) 0) as [Hcold|Hwarm].
    + rewrite run2_bind in Hrun.
      destruct (run2 hw arrival (msm_unclamp_secondary_arm_cpu cpu) _)
        as [[[[s2 sec2] ret] tr2]|] eqn:Hrun2; [|done].
      destruct (run2_all hw arrival _ _ _ (unclamp_all cpu)
                  (elapse hw (ColdBootDoneLoad cpu) s1, sec1) _ _ _ Hsec1 Hrun2)
        as (Hsec2 & Hev2 & Hfl2).
      specialize (Hfl2 hw_prim_no_flag_store pen_prim_no_flag_store).
      pose proof (filter_none is_flag_store _ _ hw_prim_no_flag_store Hev2) as Hno2.
      cbn [fst snd] in *.
      destruct (ret =? 0); cbn [negb] in Hrun.
      * rewrite run2_bind, run2_exec in Hrun.
        destruct (sync_pen hw arrival s2 sec2 Hsec2) as (Hsec3 & Hfl3 & Hev3).
        destruct (sync hw arrival (s2, sec2)) as [[s3 sec3] ev3].
        cbn [fst snd handle] in *.
        destruct (run2 hw arrival (secondary_pen_release fuel cpu) _)
          as [[[d4 r4] tr4]|] eqn:Hrun4; [|done].
        injection Hrun as <- <- <-.
        destruct (pen_release_run2 _ _ _ _ _ _ _ _ _ Hsec3 Hrun4) as (_ & Hfl4 & Hev4).
        pose proof (filter_none is_flag_store _ _ pen_prim_no_flag_store Hev4) as Hno4.
        right. exists cpu.
        rewrite !boot_cpu_events_app, Hev1, Hev3. simpl.
        rewrite !List.filter_app. simpl. rewrite Hno2, Hno4.
        split; [done|]. split; [done|].
        rewrite Hfl4. simpl. rewrite Hfl3, Hfl2. simpl. by rewrite Hfl1.
      * injection Hrun as <- <- <-. left.
        rewrite !boot_cpu_events_app, Hev1. simpl.
        rewrite app_nil_r, Hno2. split; [done|]. simpl. rewrite Hfl2. simpl. exact Hfl1.
    + destruct (run2 hw arrival (secondary_pen_release fuel cpu) _)
        as [[[d4 r4] tr4]|] eqn:Hrun4; [|done].
      injection Hrun as <- <- <-.
      destruct (pen_release_run2 _ _ _ _ _ _ _ _ _ Hsec1 Hrun4) as (_ & Hfl4 & Hev4).
      pose proof (filter_none is_flag_store _ _ pen_prim_no_flag_store Hev4) as Hno4.
      left. rewrite !boot_cpu_events_app, Hev1. simpl. rewrite Hno4.
      split; [done|]. rewrite Hfl4. simpl. exact Hfl1.
Qed.

Lemma stores_flag_filter c l :
  List.filter (stores_flag c) l = List.filter (stores_flag c) (List.filter is_flag_store l).
Proof.
  induction l as [|p l IH]; simpl; [done|].
  destruct p; simpl; try exact IH.
  destruct (cpu =? c); simpl; by rewrite IH.
Qed.

(** X11. Over a whole boot session the driver stores to the cold-boot
    flag of a core at most once, and not at all when the flag is true at
    the start; the store happens while the flag is false and leaves it
    true for the rest of the session; every store to a flag writes
    true. *)
Theorem flag_stored_at_most_once s l s' c :
  session s l s' ->
  let stores := List.filter (stores_flag c) (concat (map e_trace l)) in
  (length stores <= 1)%nat /\
  (per_cpu_cold_boot_done s c <> 0 -> stores = []) /\
  (stores <> [] -> per_cpu_cold_boot_done s c = 0 /\ per_cpu_cold_boot_done s' c <> 0) /\
  Forall (fun p => p = ColdBootDoneStore c 1) stores /\
  Forall (fun p => exists c', p = ColdBootDoneStore c' 1)
         (List.filter is_flag_store (concat (map e_trace l))).
Proof.
  cbv zeta.
  induction 1 as [s | hw arrival cb s d r tr l s' Hrun Hsess IH
                    | s s1 l s' Henv Hsess IH].
  - simpl. repeat split; auto; done.
  - destruct IH as (IH1 & IH2 & IH3 & IH4 & IH5).
    simpl. rewrite !List.filter_app.
    rewrite (stores_flag_filter c (boot_cpu_events tr)).
    destruct (callback_stores hw arrival cb s d r tr Hrun)
      as [[Hno Hfl] | (c0 & Hone & Hwas & Hfl)].
    + rewrite Hno. simpl. rewrite <- (per_cpu_same s (fst d) c Hfl). done.
    + rewrite Hone. simpl.
      pose proof (per_cpu_insert _ _ c c0 1 Hfl) as Hc.
      destruct (Z.eqb_spec c0 c) as [->|Hne]; simpl.
      * destruct (decide (c = c)); [|done].
        rewrite (IH2 ltac:(lia)). simpl.
        split; [lia|]. split; [done|]. split.
        { intros _. split; [done|].
          apply (session_inv _ _ _ c Hsess). lia. }
        split; [by constructor|]. constructor; [by exists c|done].
      * destruct (decide (c0 = c)); [done|]. rewrite <- Hc.
        split; [done|]. split; [done|]. split; [done|]. split; [done|].
        constructor; [by exists c0|done].
  - rewrite <- (per_cpu_same s s1 c Henv). exact IH.
Qed.

End Stores.

(** Core 1 is booted twice on the example board. *)
Lemma flag_stored_at_most_once_witness :
  exists l s',
    play (cfg := cfg_250)
      [(hw_board, Some 100, CpuBoot 8 1); (hw_board, Some 150, CpuBoot 8 1)] sw_boot
      = Some (l, s') /\
    session (cfg := cfg_250) sw_boot l s' /\
    List.filter (stores_flag 1) (concat (map e_trace l)) = [ColdBootDoneStore 1 1] /\
    let stores := List.filter (stores_flag 1) (concat (map e_trace l)) in
    (length stores <= 1)%nat /\
    (per_cpu_cold_boot_done sw_boot 1 <> 0 -> stores = []) /\
    (stores <> [] ->
     per_cpu_cold_boot_done sw_boot 1 = 0 /\ per_cpu_cold_boot_done s' 1 <> 0) /\
    Forall (fun p => p = ColdBootDoneStore 1 1) stores /\
    Forall (fun p => exists c', p = ColdBootDoneStore c' 1)
           (List.filter is_flag_store (concat (map e_trace l))).
Proof.
  destruct (play (cfg := cfg_250) _ sw_boot) as [[l s']|] eqn:E;
    [|vm_compute in E; discriminate].
  exists l, s'. split; [reflexivity|].
  pose proof (play_session (cfg := cfg_250) _ _ _ _ E) as Hs.
  split; [exact Hs|].
  split; [vm_compute in E; injection E as <- <-; reflexivity|].
  exact (flag_stored_at_most_once (cfg := cfg_250) sw_boot l s' 1 Hs).
Defined.

(** ** The holder of the lock *)

Section Holder.
Context {cfg : Kconfig}.

Lemma owner_in_trace tr : forall o t,
  owner_after o tr = Some t -> o = Some t \/ (t, RawSpinLock) ∈ tr.
Proof.
  induction tr as [|[t0 p] tr IH]; intros o t; simpl.
  - auto.
  - unfold owner_after. simpl. intros H. apply IH in H as [H | H].
    + unfold lock_after in H. simpl in H.
      destruct p; auto; try discriminate.
      injection H as ->. right. apply elem_of_cons. by left.
    + right. apply elem_of_cons. by right.
Qed.

(** The cores that have issued a primitive are cores of the configuration. *)
Lemma reach_threads c c' :
  rtc step c c' ->
  Forall (fun e => is_Some (fst (fst c) !! fst e)) (snd c) ->
  Forall (fun e => is_Some (fst (fst c') !! fst e)) (snd c').
Proof.
  induction 1 as [c | c1 c2 c3 Hstep _ IH]; [done|].
  intros H1. apply IH. clear IH.
  destruct Hstep as [hw tid p k ps s s' r tr Hlook Hh | d ps s tr Hd]; simpl in *;
    [|done].
  assert (forall t, is_Some (ps !! t) -> is_Some (<[tid := k r]> ps !! t)) as Hkeep.
  { intros t Ht. apply lookup_lt_is_Some. rewrite length_insert.
    by apply lookup_lt_is_Some. }
  apply Forall_app. split.
  - eapply Forall_impl; [exact H1|]. intros e He. by apply Hkeep.
  - constructor; [|done]. simpl. apply Hkeep. by eexists.
Qed.

Lemma handle_unlocked hw tid p s :
  p <> RawSpinLock -> is_Some (handle hw tid p s).
Proof. destruct p; try done; intros _; by eexists. Qed.

(** X12. Whatever the cores run of this driver and however their
    steps interleave: the core that holds [boot_lock] is one of the
    cores, it has not returned (no core returns with the lock held), and
    it is not waiting for the lock itself: its next primitive is not
    [raw_spin_lock] and can be issued at once, whatever the hardware
    answers, unless it has used up its polling fuel. *)
Theorem lock_holder_proceeds ps s ps' s' tr t :
  Forall driver_thread ps -> boot_lock s = None ->
  rtc step (ps, s, []) (ps', s', tr) ->
  boot_lock s' = Some t ->
  exists m,
    ps' !! t = Some m /\ m <> Ret tt /\
    (m = OutOfFuel \/
     exists p k, m = Act p k /\ p <> RawSpinLock /\
                 forall hw, is_Some (handle hw t p s')).
Proof.
  intros Hthreads Hfree Hreach Hheld.
  assert (safe_config (ps, s, [])) as Hinit.
  { split; [|by split]. simpl. intros tid m Hm. rewrite Hfree.
    rewrite bool_decide_eq_false_2 by done.
    apply driver_thread_lock_path.
    rewrite Forall_forall in Hthreads. apply Hthreads.
    by eapply list_elem_of_lookup_2. }
  destruct (reach_safe _ _ Hinit Hreach) as (Hpaths & Hown & _). simpl in *.
  pose proof (reach_threads _ _ Hreach (Forall_nil_2 _)) as Hlive. simpl in Hlive.
  rewrite Hheld in Hown. symmetry in Hown.
  apply owner_in_trace in Hown as [? | Hin]; [done|].
  rewrite Forall_forall in Hlive. destruct (Hlive _ Hin) as [m Hm]. simpl in Hm.
  exists m. split; [exact Hm|].
  specialize (Hpaths t m Hm). rewrite Hheld in Hpaths.
  rewrite bool_decide_eq_true_2 in Hpaths by done.
  destruct m as [[] | p k |]; simpl in Hpaths.
  - done.
  - split; [done|]. right. exists p, k. split; [done|].
    assert (p <> RawSpinLock) as Hp by (intros ->; by destruct Hpaths).
    split; [exact Hp|]. intros hw. by apply handle_unlocked.
  - split; [done|]. by left.
Qed.

End Holder.

(** A wake request that has taken the lock and published, beside a
    secondary core that has cleared the word and waits for the lock. *)
Lemma lock_holder_proceeds_witness :
  let ps := [void (secondary_pen_release (cfg := cfg_250) 2 1); msm_cpu_postboot] in
  let sched := replicate 6 0%nat ++ replicate 3 1%nat in
  exists ps' s' tr,
    run_schedule (cfg := cfg_250) hw_board sched (ps, sw_boot, []) = Some (ps', s', tr) /\
    (Forall (driver_thread (cfg := cfg_250)) ps /\ boot_lock sw_boot = None /\
     rtc (step (cfg := cfg_250)) (ps, sw_boot, []) (ps', s', tr) /\
     boot_lock s' = Some 0%nat) /\
    exists m,
      ps' !! 0%nat = Some m /\ m <> Ret tt /\
      (m = OutOfFuel \/
       exists p k, m = Act p k /\ p <> RawSpinLock /\
                   forall hw, is_Some (handle (cfg := cfg_250) hw 0%nat p s')).
Proof.
  intros ps sched.
  assert (option_map (fun c : config => boot_lock (snd (fst c)))
            (run_schedule (cfg := cfg_250) hw_board sched (ps, sw_boot, []))
          = Some (Some 0%nat)) as Hheld
    by (vm_compute; reflexivity).
  destruct (run_schedule (cfg := cfg_250) hw_board sched (ps, sw_boot, []))
    as [[[ps' s'] tr]|] eqn:E; [|discriminate Hheld].
  exists ps', s', tr. split; [reflexivity|].
  pose proof (run_schedule_reach (cfg := cfg_250) _ _ _ _ E) as Hreach.
  assert (Forall (driver_thread (cfg := cfg_250)) ps) as Hthreads
    by (repeat constructor).
  assert (boot_lock s' = Some 0%nat) as Hlock by (by injection Hheld).
  split; [split; [exact Hthreads | split; [reflexivity | split; [exact Hreach | exact Hlock]]]|].
  exact (lock_holder_proceeds (cfg := cfg_250) ps sw_boot ps' s' tr 0%nat
           Hthreads eq_refl Hreach Hlock).
Defined.

(** ** The A53 PLL probe *)

Section A53pllFacts.
Import A53pll.

(** An error pointer carries an errno between -4095 and -1. *)
Lemma IS_ERR_PTR_ERR p : IS_ERR p = true -> - MAX_ERRNO <= PTR_ERR p < 0.
Proof.
  unfold IS_ERR, PTR_ERR, signed64, MAX_ERRNO. intros H. apply Z.leb_le in H.
  pose proof (wrap64_range p) as Hr.
  destruct (wrap64 p <? 2 ^ 63) eqn:E; [apply Z.ltb_lt in E; lia|lia].
Qed.

(** One case split of the probe, in program order. *)
Ltac pll_case :=
  match goal with
  | |- context [kzalloc ?e "pll" =? 0] => destruct (Z.eqb_spec (kzalloc e "pll") 0)
  | |- context [IS_ERR (ioremap_resource ?e)] =>
      let E := fresh "E" in
      destruct (IS_ERR (ioremap_resource e)) eqn:E;
      [pose proof (IS_ERR_PTR_ERR _ E)|]
  | |- context [IS_ERR (regmap_init_mmio ?e)] =>
      let E := fresh "E" in
      destruct (IS_ERR (regmap_init_mmio e)) eqn:E;
      [pose proof (IS_ERR_PTR_ERR _ E)|]
  | |- context [IS_ERR (regulator_get ?e)] =>
      let E := fresh "E" in
      destruct (IS_ERR (regulator_get e)) eqn:E;
      [pose proof (IS_ERR_PTR_ERR _ E)|]
  | |- context [kzalloc ?e "powerh" =? 0] =>
      destruct (Z.eqb_spec (kzalloc e "powerh") 0)
  | |- context [clk_register_regmap ?e =? 0] =>
      destruct (Z.eqb_spec (clk_register_regmap e) 0)
  | |- context [of_clk_add_hw_provider ?e =? 0] =>
      destruct (Z.eqb_spec (of_clk_add_hw_provider e) 0)
  end.

(** Membership in a trace that is written out. *)
Ltac pll_mem H :=
  repeat (apply elem_of_cons in H as [H|H]; [try discriminate|]);
  try (by apply elem_of_nil in H).

(** Membership of a given call in a trace that is written out. *)
Ltac pll_in :=
  solve [unfold opp_variants; repeat (apply elem_of_cons; first [by left | right])].

(** X14. The outcome of [qcom_a53pll_probe].  The probe returns 0 exactly
    when the device matches an entry of the table and every step
    succeeds; it then ends with the registration of the clock followed by
    the clock provider, each made once, and reports no error.  Otherwise
    the status is -ENODEV, -ENOMEM, the errno of an error pointer
    (between -4095 and -1), or the nonzero status of the registration or
    of the provider.  Every [dev_err] carries the nonzero status the
    probe returns and is the last call made, and the provider is added
    only after a registration that returned 0. *)
Theorem probe_outcome env :
  let x := qcom_a53pll_probe env in
  (status x = 0 <-> probe_succeeds env = true) /\
  (status x = 0 ->
   exists tr0 pll init,
     fst x = tr0 ++ [DevmClkRegisterRegmap pll init; DevmOfClkAddHwProvider] /\
     List.filter (fun a => is_clk_register a || is_dev_err a) tr0 = [] /\
     DevmOfClkAddHwProvider ∉ tr0) /\
  (status x = 0 \/ status x = - ENODEV \/ status x = - ENOMEM \/
   - MAX_ERRNO <= status x < 0 \/
   status x = clk_register_regmap env \/ status x = of_clk_add_hw_provider env) /\
  (forall fmt z, DevErr fmt z ∈ fst x ->
     z = status x /\ z <> 0 /\ last (fst x) = Some (DevErr fmt z)) /\
  (DevmOfClkAddHwProvider ∈ fst x -> clk_register_regmap env = 0).
Proof.
  cbv zeta. unfold probe_succeeds, probe_ready, power_ready, qcom_a53pll_probe.
  destruct (of_device_get_match_data env) as [[tb [opp|] sz nm [[]|]]|]; simpl.
  all: repeat (pll_case; simpl).
  all: unfold status, ENODEV, ENOMEM, MAX_ERRNO in *; simpl.
  all: split; [split; intros; first [done | lia]|].
  all: split;
    [intros Hok;
     first [ exfalso; lia
           | match goal with
             | |- exists tr0 _ _, ?tr = _ /\ _ => exists (take (length tr - 2)%nat tr)
             end; do 2 eexists; split; [reflexivity|]; split; [reflexivity|];
             simpl; intros Hin; pll_mem Hin ]|].
  all: split; [lia|].
  all: split;
    [intros fmt z Hin; pll_mem Hin; injection Hin as -> ->; by repeat split
    |intros Hin; first [assumption | pll_mem Hin]].
Qed.

(** The device matches one of the four entries of the table, or none. *)
Lemma match_data_cases env :
  (of_device_get_match_data env = None /\
   forall c, compatible env = Some c -> c ∉ map fst qcom_a53pll_match_table) \/
  (compatible env = Some "qcom,msm8916-a53pll" /\
   of_device_get_match_data env = Some msm8916_data) \/
  (compatible env = Some "qcom,msm8939-a53pll-c0" /\
   of_device_get_match_data env = Some msm8939_c0_data) \/
  (compatible env = Some "qcom,msm8939-a53pll-c1" /\
   of_device_get_match_data env = Some msm8939_c1_data) \/
  (compatible env = Some "qcom,msm8939-a53pll-cci" /\
   of_device_get_match_data env = Some msm8939_cci_data).
Proof.
  unfold of_device_get_match_data.
  destruct (compatible env) as [c|]; [|left; split; [done|]; by intros].
  unfold qcom_a53pll_match_table. cbn [List.find fst].
  destruct (String.eqb_spec "qcom,msm8916-a53pll" c) as [<-|N1]; [auto|].
  destruct (String.eqb_spec "qcom,msm8939-a53pll-c0" c) as [<-|N2]; [auto 6|].
  destruct (String.eqb_spec "qcom,msm8939-a53pll-c1" c) as [<-|N3]; [auto 7|].
  destruct (String.eqb_spec "qcom,msm8939-a53pll-cci" c) as [<-|N4]; [auto 8|].
  left. split; [reflexivity|]. intros c' [= <-] Hin. cbn [map fst] in Hin.
  repeat (apply elem_of_cons in Hin as [Hin|Hin]; [congruence|]).
  by apply elem_of_nil in Hin.
Qed.

(** X15. The register writes of the probe.  The probe writes to the PLL
    only for the variant [qcom,msm8939-a53pll-c0], and only once the
    allocation, the mapping, the regmap, the regulator and the power head
    are there; it then makes the six writes of [msm8939_c0_init] with the
    L/M/N values 52, 0, 1 of the first entry of [msm8939_c0_freq], to the
    regmap it created.  No write follows the registration of the clock,
    and every register written is a multiple of the stride within
    [max_register] of [a53pll_regmap_config]. *)
Theorem pll_programmed_before_registration env :
  let tr := fst (qcom_a53pll_probe env) in
  let writes := List.filter is_regmap_write tr in
  (writes = [] \/
   writes = c0_writes (regmap_init_mmio env) (tbl 998400000 52 0 1 0)) /\
  (writes <> [] <->
   compatible env = Some "qcom,msm8939-a53pll-c0" /\
   probe_ready env = true /\ power_ready env msm8939_c0_data = true) /\
  List.filter is_regmap_write (from_registration tr) = [] /\
  Forall (fun a => match a with
                   | RegmapWrite _ reg _ => valid_reg a53pll_regmap_config reg = true
                   | _ => True
                   end) tr.
Proof.
  cbv zeta. unfold probe_ready, power_ready, qcom_a53pll_probe.
  destruct (match_data_cases env) as [[-> Hno] | [[Hc ->] | [[Hc ->] | [[Hc ->] | [Hc ->]]]]];
    simpl.
  all: repeat (pll_case; simpl).
  all: try rewrite Hc.
  all: split; [auto|].
  all: split;
    [split;
     [intros; first [done | by repeat split]
     |intros (Hcc & ? & ?);
      first [done
            | exfalso; apply (Hno _ Hcc); cbn [map fst qcom_a53pll_match_table];
              apply elem_of_cons; right; apply elem_of_cons; by left]]|].
  all: split; [reflexivity|].
  all: by repeat constructor.
Qed.

(** X16. The power data of the probe.  The regulator [dig] is requested
    exactly when the device matches one of the three msm8939 variants and
    the allocation, the mapping and the regmap are there; when the
    request gives an error pointer the probe returns its errno, a
    negative status, and makes no further call.  A clock that is
    registered carries the name and the frequency table of the matched
    variant, and power data exactly for a variant with an OPP table: that
    table, with its length as the number of entries. *)
Theorem regulator_for_opp_variants_only env :
  let x := qcom_a53pll_probe env in
  let tr := fst x in
  (DevmRegulatorGet "dig" ∈ tr <->
   probe_ready env = true /\
   exists c, compatible env = Some c /\ c ∈ opp_variants) /\
  (DevmRegulatorGet "dig" ∈ tr -> IS_ERR (regulator_get env) = true ->
   status x = PTR_ERR (regulator_get env) /\ status x < 0 /\
   last tr = Some (DevmRegulatorGet "dig")) /\
  (forall pll init0,
     DevmClkRegisterRegmap pll init0 ∈ tr ->
     exists data,
       of_device_get_match_data env = Some data /\
       name init0 = clk_name data /\ freq_tbl pll = table data /\
       power init0 =
         match opp_table data with
         | Some opp => Some {| genpdopp_table := opp;
                               genpdopp_num := Z.of_nat (length opp) |}
         | None => None
         end).
Proof.
  cbv zeta. unfold probe_ready, qcom_a53pll_probe.
  destruct (match_data_cases env) as [[-> Hno] | [[Hc ->] | [[Hc ->] | [[Hc ->] | [Hc ->]]]]];
    simpl.
  all: repeat (pll_case; simpl).
  all: try rewrite Hc.
  all: unfold status; simpl.
  all: split;
    [split;
     [intros Hin;
      first [ by pll_mem Hin
            | split; [done|]; eexists; split; [reflexivity|]; pll_in ]
     |intros (Hr & c & Hcc & Hin); unfold opp_variants in Hin;
      first [ done
            | pll_in
            | exfalso; pll_mem Hin; subst c; apply (Hno _ Hcc);
              cbn [map fst qcom_a53pll_match_table]; pll_in
            | injection Hcc as <-; by pll_mem Hin ]]|].
  all: split;
    [intros Hin Herr; first [done | by pll_mem Hin | by repeat split; try lia]
    |intros pll init0 Hin; pll_mem Hin;
     injection Hin as -> ->; eexists; by repeat split].
Qed.

End A53pllFacts.
